(** * bakeware_prices: the slide editor of [script.js]

    A shallow embedding of [src/script.js]: the catalog [productData], the
    cursor [slideIndex], the form widgets, the image element with its
    [onload]/[onerror] slots and the promise each [showSlide] creates, the
    status line with its timers, and the text export.

    Conventions.
    - JavaScript strings are [string]s of code units below 256.
    - [slideIndex] and the navigation delta are integers, kept in [Z]
      (JavaScript's arithmetic on them is exact below 2^53).
    - A JavaScript number is a binary64 value, kept as its exact decimal
      value (type [JS.number]: the decimal values that rounding to binary64
      leaves as they are).  [parseFloat] rounds the value of the numeral it
      reads to the nearest binary64 value, a tie going to the even
      significand, a value of 2^1024 or more to an infinity and a value too
      small to zero; [toString] prints the shortest numeral that reads back
      as the number.  [-0] is identified with [0] (the script only ever
      converts numbers to text, where the two agree).
    - The records of [data.json] have the types of the data model; an entry
      that may be missing is optional, and reading a missing [price] gives
      [PUndefined].
    - The three widgets hold text and a flag; the [value] setter of the
      price field stores the text of what it is given.
    - The script runs one handler at a time.  A handler that can raise
      returns an [outcome], which keeps the state reached when the exception
      was raised.  What happens after an [await] is a handler of its own.
      The browser may fire [load] and [error] on the image at any time; the
      event goes to whatever function the slot holds at that time, and
      carries no mark of the load it belongs to.
    - The image keeps a log of the assignments made to its two slots and to
      [src], in program order ([productImage_writes]); the script never
      reads it. *)

From Stdlib Require Import ZArith NArith QArith Qround Qabs Qpower Lqa List String Ascii Lia Bool Eqdep_dec.
From stdpp Require Import base list.
Import ListNotations.
Open Scope string_scope.

(** ** JavaScript built-ins used by the script *)

Module JS.

(** *** Characters *)

Definition is_digit (c : ascii) : bool :=
  ((48 <=? N_of_ascii c) && (N_of_ascii c <=? 57))%N.

Definition digit_val (c : ascii) : N := (N_of_ascii c - 48)%N.

Definition digit_char (d : N) : ascii := ascii_of_N (48 + d).

(** WhiteSpace and LineTerminator code units below 256: TAB, LF, VT, FF, CR,
    SP and NBSP. *)
Definition is_space (c : ascii) : bool :=
  let n := N_of_ascii c in
  ((9 <=? n) && (n <=? 13) || (n =? 32) || (n =? 160))%N.

Fixpoint drop_spaces (l : list ascii) : list ascii :=
  match l with
  | c :: l' => if is_space c then drop_spaces l' else l
  | [] => []
  end.

(** [String.prototype.trim] *)
Definition trim (s : string) : string :=
  string_of_list_ascii
    (rev (drop_spaces (rev (drop_spaces (list_ascii_of_string s))))).

(** *** Decimal numerals *)

Fixpoint udigits_aux (fuel : nat) (n : N) (acc : list ascii) : list ascii :=
  match fuel with
  | O => acc
  | S f =>
      if (n =? 0)%N then acc
      else udigits_aux f (n / 10)%N (digit_char (n mod 10) :: acc)
  end.

(** The digits of [n], most significant first; no digit at all for [0]. *)
Definition udigits (n : N) : list ascii := udigits_aux (N.to_nat (N.size n)) n [].

Definition N_digits (n : N) : list ascii :=
  if (n =? 0)%N then ["0"%char] else udigits n.

Definition N_of_digits (l : list ascii) : N :=
  fold_left (fun a c => (10 * a + digit_val c)%N) l 0%N.

(** The maximal run of digits at the head of [l], and what follows it. *)
Fixpoint span_digits (l : list ascii) : list ascii * list ascii :=
  match l with
  | c :: l' =>
      if is_digit c then let '(d, r) := span_digits l' in (c :: d, r)
      else ([], l)
  | [] => ([], [])
  end.

Definition no_digit_ahead (l : list ascii) : Prop :=
  match l with
  | [] => True
  | c :: _ => is_digit c = false
  end.

(** *** Decimal values *)

Inductive nzdigit := D1 | D2 | D3 | D4 | D5 | D6 | D7 | D8 | D9.

Definition nz_val (d : nzdigit) : N :=
  match d with
  | D1 => 1 | D2 => 2 | D3 => 3 | D4 => 4 | D5 => 5
  | D6 => 6 | D7 => 7 | D8 => 8 | D9 => 9
  end%N.

Definition nz_of_N (n : N) : option nzdigit :=
  match n with
  | 1 => Some D1 | 2 => Some D2 | 3 => Some D3 | 4 => Some D4 | 5 => Some D5
  | 6 => Some D6 | 7 => Some D7 | 8 => Some D8 | 9 => Some D9
  | _ => None
  end%N.

(** A decimal value: what a numeric literal denotes, and the exact value of
    every binary64 number.  [Dec neg q r e] is [(-1)^neg * (10 q + r) * 10^e]: the
    last digit [r] of the mantissa is not zero, so every finite value other
    than zero has exactly one representation. *)
Inductive decimal :=
| NaN
| Infinity (neg : bool)
| Zero
| Dec (neg : bool) (q : N) (r : nzdigit) (e : Z).

Definition mantissa (q : N) (r : nzdigit) : N := (10 * q + nz_val r)%N.

Fixpoint strip10 (fuel : nat) (neg : bool) (m : N) (e : Z) : decimal :=
  match nz_of_N (m mod 10) with
  | Some r => Dec neg (m / 10) r e
  | None =>
      match fuel with
      | O => Zero
      | S f => strip10 f neg (m / 10) (e + 1)
      end
  end.

(** The decimal [(-1)^neg * m * 10^e]. *)
Definition mk_decimal (neg : bool) (m : N) (e : Z) : decimal :=
  if (m =? 0)%N then Zero else strip10 (N.to_nat (N.log2 m)) neg m e.

Definition decimal_of_Z (z : Z) : decimal := mk_decimal (z <? 0)%Z (Z.abs_N z) 0.

(** The value of a finite decimal as a rational. *)
Definition decimal_value (x : decimal) : Q :=
  match x with
  | Dec neg q r e =>
      let m := Z.of_N (mantissa q r) in
      let v := match e with
               | Zneg p => m # (10 ^ p)
               | _ => inject_Z (m * 10 ^ e)
               end in
      if neg then Qopp v else v
  | _ => 0
  end.


(** *** The numeral of a decimal value *)

(** The notation of Number::toString (radix 10) for the digits of a decimal. *)

Definition render_exp (x : Z) : list ascii :=
  (if (x <? 0)%Z then "-"%char else "+"%char) :: N_digits (Z.abs_N x).

(** The text of the positive value with significant digits [ds] and
    [0.ds * 10^n]. *)
Definition render_pos (ds : list ascii) (n : Z) : list ascii :=
  let k := Z.of_nat (length ds) in
  if ((k <=? n) && (n <=? 21))%Z then
    ds ++ repeat "0"%char (Z.to_nat (n - k))
  else if ((0 <? n) && (n <=? 21))%Z then
    firstn (Z.to_nat n) ds ++ "."%char :: skipn (Z.to_nat n) ds
  else if ((-6 <? n) && (n <=? 0))%Z then
    "0"%char :: "."%char :: repeat "0"%char (Z.to_nat (- n)) ++ ds
  else
    match ds with
    | [d] => d :: "e"%char :: render_exp (n - 1)
    | d :: ds' => d :: "."%char :: ds' ++ "e"%char :: render_exp (n - 1)
    | [] => []
    end.

Definition render (x : decimal) : list ascii :=
  match x with
  | NaN => list_ascii_of_string "NaN"
  | Infinity neg =>
      (if neg then ["-"%char] else []) ++ list_ascii_of_string "Infinity"
  | Zero => ["0"%char]
  | Dec neg q r e =>
      let ds := udigits (mantissa q r) in
      (if neg then ["-"%char] else [])
        ++ render_pos ds (Z.of_nat (length ds) + e)
  end.

(** *** Reading a numeric literal *)

(** The value of the longest prefix that is a StrDecimalLiteral, as
    [parseFloat] finds it; [NaN] when there is none. *)

(** An ExponentPart at the head of [l]: [e] or [E], an optional sign and at
    least one digit.  Anything else is not part of the literal. *)
Definition scan_exponent (l : list ascii) : Z :=
  match l with
  | c :: l' =>
      if (Ascii.eqb c "e" || Ascii.eqb c "E")%bool then
        let '(neg, l'') :=
          match l' with
          | s :: t =>
              if Ascii.eqb s "-" then (true, t)
              else if Ascii.eqb s "+" then (false, t)
              else (false, l')
          | [] => (false, l')
          end in
        match fst (span_digits l'') with
        | [] => 0
        | ds => if neg then - Z.of_N (N_of_digits ds) else Z.of_N (N_of_digits ds)
        end%Z
      else 0%Z
  | [] => 0%Z
  end.

Fixpoint starts_with (p l : list ascii) : bool :=
  match p, l with
  | [], _ => true
  | a :: p', b :: l' => Ascii.eqb a b && starts_with p' l'
  | _ :: _, [] => false
  end.

(** The longest prefix of [l] that is a StrUnsignedDecimalLiteral. *)
Definition scan_unsigned (neg : bool) (l : list ascii) : decimal :=
  if starts_with (list_ascii_of_string "Infinity") l then Infinity neg
  else
    let '(ip, r1) := span_digits l in
    let '(fp, r2) :=
      match r1 with
      | c :: r1' => if Ascii.eqb c "." then span_digits r1' else ([], r1)
      | [] => ([], r1)
      end in
    match ip, fp with
    | [], [] => NaN
    | _, _ =>
        mk_decimal neg (N_of_digits (ip ++ fp))
          (scan_exponent r2 - Z.of_nat (length fp))
    end.

Definition parse (l : list ascii) : decimal :=
  match drop_spaces l with
  | c :: l' =>
      if Ascii.eqb c "-" then scan_unsigned true l'
      else if Ascii.eqb c "+" then scan_unsigned false l'
      else scan_unsigned false (c :: l')
  | [] => NaN
  end.


(** *** Binary64 *)

(** The exponent [k] with [2^k <= v < 2^(k+1)], for [v > 0]. *)
Definition floor_log2 (v : Q) : Z :=
  let l := (Z.log2 (Qnum v) - Z.log2 (Zpos (Qden v)))%Z in
  if Qle_bool (2 ^ l) v then l else (l - 1)%Z.

(** The integer nearest to [x]; of two equally near ones, the even one. *)
Definition round_half_even (x : Q) : Z :=
  let f := Qfloor x in
  match (x - inject_Z f ?= 1 # 2)%Q with
  | Lt => f
  | Gt => (f + 1)%Z
  | Eq => if Z.even f then f else (f + 1)%Z
  end.

(** The binary64 value nearest to [v > 0], a tie going to the even
    significand: the pair [(m, ex)] stands for [m * 2^ex], with [m < 2^53]
    and [ex >= -1074]; [m >= 2^52] unless the value is subnormal
    ([ex = -1074]).  A value of [2^1024] or more is an overflow. *)
Definition nearest_binary64 (v : Q) : Z * Z :=
  let ex := Z.max (floor_log2 v - 52) (-1074) in
  let m := round_half_even (v / 2 ^ ex) in
  if (m =? 2 ^ 53)%Z then (2 ^ 52, ex + 1)%Z else (m, ex).

(** The decimal value of [(-1)^neg * m * 2^ex]; an overflow gives an
    infinity and an underflow zero. *)
Definition of_binary (neg : bool) (m ex : Z) : decimal :=
  if (m =? 0)%Z then Zero
  else if (1024 <=? Z.log2 m + ex)%Z then Infinity neg
  else if (0 <=? ex)%Z then mk_decimal neg (Z.to_N (m * 2 ^ ex)) 0
  else mk_decimal neg (Z.to_N (m * 5 ^ (- ex))) ex.

(** Rounding to binary64 (round to nearest, ties to even): the Number value
    for a mathematical value. *)
Definition round (x : decimal) : decimal :=
  match x with
  | Dec neg q r e =>
      let '(m, ex) := nearest_binary64 (decimal_value (Dec false q r e)) in
      of_binary neg m ex
  | _ => x
  end.

Definition decimal_eqb (x y : decimal) : bool :=
  match x, y with
  | NaN, NaN => true
  | Infinity a, Infinity b => Bool.eqb a b
  | Zero, Zero => true
  | Dec a q r e, Dec b q' r' e' =>
      Bool.eqb a b && (q =? q')%N && (nz_val r =? nz_val r')%N && (e =? e')%Z
  | _, _ => false
  end.

(** The decimal values that are binary64 numbers: rounding leaves them. *)
Definition is_binary64 (x : decimal) : bool := decimal_eqb (round x) x.

(** *** The shortest numeral of a binary64 number *)

(** Number::toString prints the digits [s] of the shortest decimal
    [s * 10^(n-k)] whose Number value is [x]; among several of that length,
    the one nearest to [x] (the even [s] when two are equally near).  With
    [j] digits of the exact mantissa [m] dropped, the two decimals around
    [x] are [lo * 10^(e+j)] and [(lo + 1) * 10^(e+j)] for [lo = m / 10^j]. *)
Fixpoint shortest_from (x : decimal) (neg : bool) (m : N) (e : Z) (j : nat) : decimal :=
  let p := (10 ^ N.of_nat j)%N in
  let lo := (m / p)%N in
  let hi := (lo + 1)%N in
  let below := mk_decimal neg lo (e + Z.of_nat j) in
  let above := mk_decimal neg hi (e + Z.of_nat j) in
  match decimal_eqb (round below) x, decimal_eqb (round above) x with
  | true, true =>
      match (2 * m ?= (lo + hi) * p)%N with
      | Lt => below
      | Gt => above
      | Eq => if N.even lo then below else above
      end
  | true, false => below
  | false, true => above
  | false, false =>
      match j with
      | O => x
      | S j' => shortest_from x neg m e j'
      end
  end.

Definition shortest (x : decimal) : decimal :=
  match x with
  | Dec neg q r e =>
      let m := mantissa q r in
      shortest_from x neg m e (pred (length (udigits m)))
  | _ => x
  end.

(** Number::toString of the binary64 number with exact value [x]. *)
Definition decimal_toString (x : decimal) : string :=
  string_of_list_ascii (render (shortest x)).

(** *** Number.prototype.toFixed(0) *)

(** The integer nearest to [m * 10^e]; of two equally near ones, the
    larger. *)
Definition nearest (m : N) (e : Z) : N :=
  match e with
  | Zneg p => ((2 * m + 10 ^ Npos p) / (2 * 10 ^ Npos p))%N
  | _ => (m * 10 ^ Z.to_N e)%N
  end.

(** [m * 10^e >= 10^21] *)
Definition ge_1e21 (m : N) (e : Z) : bool :=
  match e with
  | Zneg p => (10 ^ (21 + Npos p) <=? m)%N
  | _ => (10 ^ 21 <=? m * 10 ^ Z.to_N e)%N
  end.

Definition decimal_toFixed0 (x : decimal) : string :=
  match x with
  | Dec neg q r e =>
      let m := mantissa q r in
      (if neg then "-" else EmptyString)
        ++ (if ge_1e21 m e then decimal_toString (Dec false q r e)
            else string_of_list_ascii (N_digits (nearest m e)))
  | _ => decimal_toString x
  end.

(** *** Numbers *)

(** A Number: a binary64 value, kept as its exact decimal value.  [NaN] is
    one value and [-0] is identified with [0] (the script only ever turns
    numbers into text, where the two agree). *)
Record number := {
  decimal_of : decimal;
  decimal_ok : is_binary64 decimal_of = true
}.

Definition checked (b : bool) : option (b = true) :=
  match b with
  | true => Some eq_refl
  | false => None
  end.

(** The Number value for [x].  Rounding always gives a binary64 number
    ([Binary64Facts.round_idempotent]), so the test below never fails; it is what
    builds the record. *)
Definition to_number (x : decimal) : number :=
  let y := round x in
  match checked (is_binary64 y) with
  | Some ok => {| decimal_of := y; decimal_ok := ok |}
  | None => {| decimal_of := NaN; decimal_ok := eq_refl |}
  end.

Definition number_of_Z (z : Z) : number := to_number (decimal_of_Z z).



(** Number::toString (radix 10) *)
Definition number_toString (x : number) : string := decimal_toString (decimal_of x).

(** parseFloat *)
Definition parseFloat (s : string) : number := to_number (parse (list_ascii_of_string s)).

(** Number.prototype.toFixed(0) *)
Definition toFixed0 (x : number) : string := decimal_toFixed0 (decimal_of x).

End JS.

(** ** Data model *)

(** What reading [record.price] gives: [undefined] when the record has no
    [price] entry, [null], or a number. *)
Inductive price_val :=
| PUndefined
| PNull
| PNum (x : JS.number).

(** A record of [data.json] as [response.json()] returns it.  [None] (and
    [PUndefined]) stand for an entry that the record does not have. *)
Record Item := {
  item_id : string;
  item_title : string;
  item_image : string;
  item_price : price_val;
  item_isAvailable : option bool;
  item_note : option string
}.

(** An element of [productData]. *)
Record Product := {
  id : string;
  title : string;
  image : string;
  price : price_val;
  isAvailable : bool;
  note : string
}.

(** The function bound to [productImageEl.onload] or [.onerror]: it settles
    the promise that the [g]-th call of [new Promise] created. *)
Inductive handler :=
| CallResolve (g : nat)
| CallReject (g : nat).

Inductive promise_state := Pending | Fulfilled | Rejected.

(** An assignment to one of the properties of the image element on which a
    load depends. *)
Inductive image_write :=
| WriteOnload (h : option handler)
| WriteOnerror (h : option handler)
| WriteSrc (url : string).

(** The properties of the DOM elements that the script reads or writes. *)
Record Dom := {
  productTitle_textContent : string;
  imageWrapper_loading : bool;        (* classList contains "loading" *)
  productImage_src : string;
  productImage_alt : string;
  productImage_opacity : string;      (* style.opacity *)
  productImage_onload : option handler;
  productImage_onerror : option handler;
  productPrice_value : string;
  notAvailable_checked : bool;
  additionalNote_value : string;
  slideIndex_textContent : string;
  statusMessage_textContent : string;
  statusMessage_color : string;
  productImage_writes : list image_write
    (* the assignments to [onload], [onerror] and [src] so far, oldest first *)
}.

(** Calls that leave the page. *)
Inductive effect :=
| ConsoleLog (msg : string) (obj : Product)
| ConsoleError (msg : string)
| ClipboardWriteText (text : string)
| Alert (msg : string).

Record State := {
  productData : list Product;
  slideIndex : Z;
  dom : Dom;
  promises : list promise_state;      (* one per [new Promise], oldest first *)
  timers : list Z;                    (* delays of the [setTimeout]s not yet fired *)
  trace : list effect                 (* oldest first *)
}.

(** *** Field updates *)

Definition with_productData (v : list Product) (s : State) : State :=
  {| productData := v; slideIndex := slideIndex s; dom := dom s;
     promises := promises s; timers := timers s; trace := trace s |}.

Definition with_slideIndex (v : Z) (s : State) : State :=
  {| productData := productData s; slideIndex := v; dom := dom s;
     promises := promises s; timers := timers s; trace := trace s |}.

Definition with_dom (v : Dom) (s : State) : State :=
  {| productData := productData s; slideIndex := slideIndex s; dom := v;
     promises := promises s; timers := timers s; trace := trace s |}.

Definition with_promises (v : list promise_state) (s : State) : State :=
  {| productData := productData s; slideIndex := slideIndex s; dom := dom s;
     promises := v; timers := timers s; trace := trace s |}.

Definition with_timers (v : list Z) (s : State) : State :=
  {| productData := productData s; slideIndex := slideIndex s; dom := dom s;
     promises := promises s; timers := v; trace := trace s |}.

Definition with_trace (v : list effect) (s : State) : State :=
  {| productData := productData s; slideIndex := slideIndex s; dom := dom s;
     promises := promises s; timers := timers s; trace := v |}.

Definition set_productTitle_textContent (v : string) (d : Dom) : Dom :=
  let 'Build_Dom _ b c e f g h i j k l m n o := d in
  Build_Dom v b c e f g h i j k l m n o.
Definition set_imageWrapper_loading (v : bool) (d : Dom) : Dom :=
  let 'Build_Dom a _ c e f g h i j k l m n o := d in
  Build_Dom a v c e f g h i j k l m n o.
Definition set_productImage_src (v : string) (d : Dom) : Dom :=
  let 'Build_Dom a b _ e f g h i j k l m n o := d in
  Build_Dom a b v e f g h i j k l m n (o ++ [WriteSrc v]).
Definition set_productImage_alt (v : string) (d : Dom) : Dom :=
  let 'Build_Dom a b c _ f g h i j k l m n o := d in
  Build_Dom a b c v f g h i j k l m n o.
Definition set_productImage_opacity (v : string) (d : Dom) : Dom :=
  let 'Build_Dom a b c e _ g h i j k l m n o := d in
  Build_Dom a b c e v g h i j k l m n o.
Definition set_productImage_onload (v : option handler) (d : Dom) : Dom :=
  let 'Build_Dom a b c e f _ h i j k l m n o := d in
  Build_Dom a b c e f v h i j k l m n (o ++ [WriteOnload v]).
Definition set_productImage_onerror (v : option handler) (d : Dom) : Dom :=
  let 'Build_Dom a b c e f g _ i j k l m n o := d in
  Build_Dom a b c e f g v i j k l m n (o ++ [WriteOnerror v]).
Definition set_productPrice_value (v : string) (d : Dom) : Dom :=
  let 'Build_Dom a b c e f g h _ j k l m n o := d in
  Build_Dom a b c e f g h v j k l m n o.
Definition set_notAvailable_checked (v : bool) (d : Dom) : Dom :=
  let 'Build_Dom a b c e f g h i _ k l m n o := d in
  Build_Dom a b c e f g h i v k l m n o.
Definition set_additionalNote_value (v : string) (d : Dom) : Dom :=
  let 'Build_Dom a b c e f g h i j _ l m n o := d in
  Build_Dom a b c e f g h i j v l m n o.
Definition set_slideIndex_textContent (v : string) (d : Dom) : Dom :=
  let 'Build_Dom a b c e f g h i j k _ m n o := d in
  Build_Dom a b c e f g h i j k v m n o.
Definition set_statusMessage_textContent (v : string) (d : Dom) : Dom :=
  let 'Build_Dom a b c e f g h i j k l _ n o := d in
  Build_Dom a b c e f g h i j k l v n o.
Definition set_statusMessage_color (v : string) (d : Dom) : Dom :=
  let 'Build_Dom a b c e f g h i j k l m _ o := d in
  Build_Dom a b c e f g h i j k l m v o.

(** ** Computations that read and write the state and may raise *)

Inductive exn :=
| TypeError (msg : string)
| Error (msg : string).

Inductive outcome (A : Type) :=
| Return (a : A) (s : State)
| Throw (e : exn) (s : State).
Arguments Return {A} a s.
Arguments Throw {A} e s.

Definition M (A : Type) : Type := State -> outcome A.

Definition ret {A} (a : A) : M A := fun s => Return a s.

Definition bind {A B} (m : M A) (k : A -> M B) : M B :=
  fun s => match m s with
           | Return a s' => k a s'
           | Throw e s' => Throw e s'
           end.

Definition throw {A} (e : exn) : M A := fun s => Throw e s.
Definition gets {A} (f : State -> A) : M A := fun s => Return (f s) s.
Definition modify (f : State -> State) : M unit := fun s => Return tt (f s).
Definition modify_dom (f : Dom -> Dom) : M unit :=
  modify (fun s => with_dom (f (dom s)) s).
Definition when (b : bool) (m : M unit) : M unit := if b then m else ret tt.

(** [try { m } catch (e) { h e }] *)
Definition try_catch {A} (m : M A) (h : exn -> M A) : M A :=
  fun s => match m s with
           | Return a s' => Return a s'
           | Throw e s' => h e s'
           end.

Declare Scope js_scope.
Delimit Scope js_scope with js.
Notation "x <- m ;; k" := (bind m (fun x => k))
  (at level 100, m at next level, right associativity) : js_scope.
Notation "m ;; k" := (bind m (fun _ => k))
  (at level 100, right associativity) : js_scope.
Open Scope js_scope.

(** The state a computation leaves, whether it returned or raised. *)
Definition state_of {A} (o : outcome A) : State :=
  match o with
  | Return _ s => s
  | Throw _ s => s
  end.

Definition returns {A} (o : outcome A) : bool :=
  match o with
  | Return _ _ => true
  | Throw _ _ => false
  end.

(** [a[i]] for an integer [i]: [None] is [undefined]. *)
Definition index {A} (l : list A) (i : Z) : option A :=
  if (i <? 0)%Z then None else l !! Z.to_nat i.
Arguments index : simpl never.

(** Reading a property of [o] raises when [o] is [undefined]. *)
Definition deref {A} (o : option A) : M A :=
  match o with
  | Some a => ret a
  | None => throw (TypeError "Cannot read properties of undefined")
  end.

(** ** The script *)

Definition nl : string := String "010"%char EmptyString.
Definition dquote : string := String "034"%char EmptyString.

(** [`${i}`] for an integer [i] *)
Definition int_toString (i : Z) : string := JS.number_toString (JS.number_of_Z i).

(** *** Status message functions (lines 211-219) *)

Definition clearStatusMessage : M unit :=
  modify_dom (set_statusMessage_textContent EmptyString).

Definition displayStatusMessage (message : string) (duration : Z) : M unit :=
  modify_dom (set_statusMessage_textContent message) ;;
  modify_dom (set_statusMessage_color "#1a4d8c") ;;
  modify (fun s => with_timers (timers s ++ [duration]) s).

(** *** fetchProductData (lines 22-46) *)

(** The object literal of lines 30-34. *)
Definition load_item (item : Item) : Product :=
  {| id := item_id item;
     title := item_title item;
     image := item_image item;
     price := item_price item;
     isAvailable := match item_isAvailable item with
                    | Some b => b
                    | None => true
                    end;
     note := match item_note item with
             | Some t => t
             | None => EmptyString
             end |}.

(** *** showSlide (lines 52-110) *)

(** [product.price ?? ""], converted to text by the [value] setter. *)
Definition price_widget_text (p : price_val) : string :=
  match p with
  | PNum x => JS.number_toString x
  | PNull | PUndefined => EmptyString
  end.

Definition fallback_image : string :=
  "data:image/svg+xml;utf8,<svg xmlns=" ++ dquote ++ "http://www.w3.org/2000/svg"
  ++ dquote ++ " width=" ++ dquote ++ "100" ++ dquote ++ " height=" ++ dquote
  ++ "100" ++ dquote ++ " viewBox=" ++ dquote ++ "0 0 24 24" ++ dquote
  ++ "><path fill=" ++ dquote ++ "gray" ++ dquote ++ " d=" ++ dquote
  ++ "M21 19V5c0-1.1-.9-2-2-2H5c-1.1 0-2 .9-2 2v14c0 1.1.9 2 2 2h14c1.1 0 2-.9 2-2zM8.5 15.5l2.5 3.01L14.5 14l4.5 6H5l3.5-4.5z"
  ++ dquote ++ "/></svg>".

(** [new Promise(...)]: the new promise is pending; its number is returned. *)
Definition new_promise : M nat :=
  g <- gets (fun s => length (promises s)) ;;
  modify (fun s => with_promises (promises s ++ [Pending]) s) ;;
  ret g.

(** The executor of lines 79-93 up to the assignment of [src]: the slots are
    cleared, then bound to the functions that settle promise [g]. *)
Definition register_handlers (g : nat) : M unit :=
  modify_dom (set_productImage_onload None) ;;
  modify_dom (set_productImage_onerror None) ;;
  modify_dom (set_productImage_onload (Some (CallResolve g))) ;;
  modify_dom (set_productImage_onerror (Some (CallReject g))).

(** Lines 91-92: assigning [src] starts the load. *)
Definition start_load (product : Product) : M unit :=
  modify_dom (set_productImage_src (image product)) ;;
  modify_dom (set_productImage_alt (title product)).

Definition showSlide (n : Z) : M unit :=
  data <- gets productData ;;
  if (length data =? 0)%nat then ret tt else
  let len := Z.of_nat (length data) in
  when (len <=? n)%Z (modify (with_slideIndex 0%Z)) ;;
  when (n <? 0)%Z (modify (with_slideIndex (len - 1)%Z)) ;;
  i <- gets slideIndex ;;
  let product := index data i in
  modify_dom (set_imageWrapper_loading true) ;;
  product <- deref product ;;
  modify_dom (set_productTitle_textContent (title product)) ;;
  modify_dom (set_productPrice_value (price_widget_text (price product))) ;;
  modify_dom (set_notAvailable_checked (negb (isAvailable product))) ;;
  modify_dom (set_additionalNote_value (note product)) ;;
  modify_dom (set_slideIndex_textContent
                ("Product " ++ int_toString (i + 1) ++ " of " ++ int_toString len)) ;;
  clearStatusMessage ;;
  g <- new_promise ;;
  register_handlers g ;;
  start_load product.

(** The [then] callback of lines 96-100. *)
Definition on_fulfilled : M unit :=
  modify_dom (set_imageWrapper_loading false) ;;
  modify_dom (set_productImage_opacity "1").

(** The [catch] callback of lines 101-109. *)
Definition on_rejected : M unit :=
  modify (fun s => with_trace (trace s ++ [ConsoleError "Image failed to load."]) s) ;;
  modify_dom (set_productImage_src fallback_image) ;;
  modify_dom (set_imageWrapper_loading false) ;;
  modify_dom (set_productImage_opacity "1") ;;
  displayStatusMessage "Image failed to load!" 4000.

(** Settling promise [g] runs its callback, once: a promise that is no
    longer pending ignores [resolve] and [reject]. *)
Definition settle (g : nat) (v : promise_state) (callback : M unit) : M unit :=
  p <- gets (fun s => promises s !! g) ;;
  match p with
  | Some Pending =>
      modify (fun s => with_promises (<[g := v]> (promises s)) s) ;;
      callback
  | _ => ret tt
  end.

Definition call_handler (h : option handler) : M unit :=
  match h with
  | Some (CallResolve g) => settle g Fulfilled on_fulfilled
  | Some (CallReject g) => settle g Rejected on_rejected
  | None => ret tt
  end.

(** *** updateProductData (lines 115-143) *)

(** Lines 120-121. *)
Definition new_price (value : string) : price_val :=
  if String.eqb value EmptyString then PNull else PNum (JS.parseFloat value).

(** [p !== null ? p.toString() : ""] *)
Definition price_text (p : price_val) : M string :=
  match p with
  | PNull => ret EmptyString
  | PNum x => ret (JS.number_toString x)
  | PUndefined => throw (TypeError "Cannot read properties of undefined")
  end.

(** Lines 126-128. *)
Definition priceChanged (stored newPrice : price_val) : M bool :=
  old_text <- price_text stored ;;
  new_text <- price_text newPrice ;;
  ret (negb (String.eqb old_text new_text)).

(** Line 129. *)
Definition availabilityChanged (stored isNotAvailable : bool) : bool :=
  negb (Bool.eqb stored (negb isNotAvailable)).

(** Line 130. *)
Definition noteChanged (stored newNote : string) : bool :=
  negb (String.eqb stored newNote).

(** Lines 133-135: the three assignments to the current record. *)
Definition assign_fields (current : Product) (newPrice : price_val)
    (isNotAvailable : bool) (newNote : string) : Product :=
  {| id := id current; title := title current; image := image current;
     price := newPrice; isAvailable := negb isNotAvailable; note := newNote |}.

(** Lines 133-141: the record at the cursor is overwritten, the status is
    shown when asked for, the update is logged. *)
Definition commit (showStatus : bool) (i : Z) (updated : Product) : M unit :=
  modify (fun s => with_productData (<[Z.to_nat i := updated]> (productData s)) s) ;;
  when showStatus
    (displayStatusMessage
       ("Data for " ++ dquote ++ title updated ++ dquote ++ " updated!") 2000) ;;
  modify (fun s => with_trace
                     (trace s ++ [ConsoleLog ("Updated product " ++ id updated ++ ":") updated]) s).

Definition updateProductData (showStatus : bool) : M unit :=
  data <- gets productData ;;
  if (length data =? 0)%nat then ret tt else
  i <- gets slideIndex ;;
  let currentProduct := index data i in
  newPrice <- gets (fun s => new_price (productPrice_value (dom s))) ;;
  isNotAvailable <- gets (fun s => notAvailable_checked (dom s)) ;;
  newNote <- gets (fun s => JS.trim (additionalNote_value (dom s))) ;;
  current <- deref currentProduct ;;
  price_changed <- priceChanged (price current) newPrice ;;
  if (price_changed
      || availabilityChanged (isAvailable current) isNotAvailable
      || noteChanged (note current) newNote)%bool
  then commit showStatus i (assign_fields current newPrice isNotAvailable newNote)
  else ret tt.

(** *** navigateSlide (lines 148-152) *)

(** Lines 150-151: the cursor moves by [n] and the slide is shown. *)
Definition seek (n : Z) : M unit :=
  modify (fun s => with_slideIndex (slideIndex s + n)%Z s) ;;
  i <- gets slideIndex ;;
  showSlide i.

Definition navigateSlide (n : Z) : M unit :=
  updateProductData false ;;
  seek n.

(** *** formatProductDataForSharing (lines 160-182) *)

Definition throws_or (A : Type) : Type := exn + A.

(** The callback given to [map]. *)
Definition format_product (idx : nat) (product : Product) : throws_or string :=
  let line := int_toString (Z.of_nat idx + 1) ++ ". " ++ title product in
  let with_note (line : string) :=
    if String.eqb (note product) EmptyString then line
    else line ++ nl ++ "   - Note: " ++ note product in
  if isAvailable product then
    match price product with
    | PNull => inr (with_note (line ++ nl ++ "   - Price: " ++ "N/A"))
    | PNum x =>
        inr (with_note (line ++ nl ++ "   - Price: " ++ (JS.toFixed0 x ++ " PKR")))
    | PUndefined => inl (TypeError "Cannot read properties of undefined")
    end
  else inr (with_note (line ++ nl ++ "   - Status: *Not Available*")).

(** [productData.map(callback)], the callback receiving the index. *)
Fixpoint map_from (idx : nat) (l : list Product) : throws_or (list string) :=
  match l with
  | [] => inr []
  | p :: l' =>
      match format_product idx p with
      | inl e => inl e
      | inr t =>
          match map_from (S idx) l' with
          | inl e => inl e
          | inr ts => inr (t :: ts)
          end
      end
  end.

Definition format_catalog (data : list Product) : throws_or string :=
  match map_from 0 data with
  | inl e => inl e
  | inr lines =>
      inr ("--- PRODUCT LIST ---" ++ nl ++ nl
           ++ String.concat (nl ++ "---" ++ nl) lines
           ++ nl ++ nl ++ "--- END ---")
  end.

Definition formatProductDataForSharing : M string :=
  data <- gets productData ;;
  match format_catalog data with
  | inl e => throw e
  | inr text => ret text
  end.

(** *** copyDataToClipboard (lines 187-206) *)

(** Up to the [await]: the text is handed to the clipboard. *)
Definition copyDataToClipboard : M unit :=
  updateProductData false ;;
  dataToCopy <- formatProductDataForSharing ;;
  modify (fun s => with_trace (trace s ++ [ClipboardWriteText dataToCopy]) s).

(** After the [await]: [ok] tells whether [writeText] succeeded. *)
Definition copy_settled (ok : bool) : M unit :=
  if ok then
    displayStatusMessage "Product list copied to clipboard!" 3000 ;;
    modify (fun s => with_trace
      (trace s ++ [Alert "Data copied to clipboard and ready to share on WhatsApp!"]) s)
  else
    modify (fun s => with_trace (trace s ++ [ConsoleError "Failed to copy data: "]) s) ;;
    displayStatusMessage "Error: Could not copy data to clipboard." 4000 ;;
    modify (fun s => with_trace
      (trace s ++ [Alert "Error: Could not copy data to clipboard."]) s).

(** *** fetchProductData, after its [await]s *)

(** What [fetch] and [response.json()] gave. *)
Inductive fetched :=
| FetchFailed                          (* [fetch] rejected *)
| ResponseNotOk (status : Z)           (* [response.ok] is false *)
| BodyNotJson                          (* [response.json()] rejected *)
| Body (data : list Item).

Definition fetchProductData (r : fetched) : M unit :=
  try_catch
    (match r with
     | FetchFailed => throw (TypeError "Failed to fetch")
     | ResponseNotOk status =>
         throw (Error ("HTTP error! status: " ++ int_toString status))
     | BodyNotJson => throw (Error "Unexpected token")
     | Body data =>
         modify (with_productData (map load_item data)) ;;
         len <- gets (fun s => length (productData s)) ;;
         if (0 <? len)%nat then showSlide 0
         else modify_dom (set_productTitle_textContent "No products found.")
     end)
    (fun error =>
       modify (fun s => with_trace
                          (trace s ++ [ConsoleError "Could not fetch product data:"]) s) ;;
       modify_dom (set_productTitle_textContent
                     "Error loading data. Check console (Failed to fetch)."))%js.

(** ** Events *)

(** What the user changes in the form before the [input] event fires. *)
Inductive edit :=
| TypePrice (text : string)
| ToggleNotAvailable (checked : bool)
| TypeNote (text : string).

Definition apply_edit (e : edit) : M unit :=
  match e with
  | TypePrice text => modify_dom (set_productPrice_value text)
  | ToggleNotAvailable b => modify_dom (set_notAvailable_checked b)
  | TypeNote text => modify_dom (set_additionalNote_value text)
  end.

Inductive event :=
| Loaded (r : fetched)                 (* the fetch of the data settles *)
| ClickPrev
| ClickNext
| ClickCopy
| ClipboardSettled (ok : bool)
| Input (e : edit)
| ImageLoad                            (* [load] fires on the image *)
| ImageError                           (* [error] fires on the image *)
| TimerFires (k : nat).                (* the [k]-th pending timer *)

Definition handle (ev : event) : M unit :=
  match ev with
  | Loaded r => fetchProductData r
  | ClickPrev => navigateSlide (-1)
  | ClickNext => navigateSlide 1
  | ClickCopy => copyDataToClipboard
  | ClipboardSettled ok => copy_settled ok
  | Input e => apply_edit e ;; updateProductData true
  | ImageLoad => h <- gets (fun s => productImage_onload (dom s)) ;; call_handler h
  | ImageError => h <- gets (fun s => productImage_onerror (dom s)) ;; call_handler h
  | TimerFires k =>
      pending <- gets timers ;;
      match pending !! k with
      | Some _ => modify (with_timers (delete k pending)) ;; clearStatusMessage
      | None => ret tt
      end
  end.

(** One turn of the event loop: an exception that escapes the handler is
    reported by the browser and the state it left stays. *)
Definition step (s : State) (ev : event) : State := state_of (handle ev s).

Definition run (s : State) (evs : list event) : State := fold_left step evs s.

(** ** Notions used by the statements *)

(** The page before anything ran (lines 1-2); the DOM properties start
    empty. *)
Definition blank_dom : Dom :=
  {| productTitle_textContent := EmptyString;
     imageWrapper_loading := false;
     productImage_src := EmptyString;
     productImage_alt := EmptyString;
     productImage_opacity := EmptyString;
     productImage_onload := None;
     productImage_onerror := None;
     productPrice_value := EmptyString;
     notAvailable_checked := false;
     additionalNote_value := EmptyString;
     slideIndex_textContent := EmptyString;
     statusMessage_textContent := EmptyString;
     statusMessage_color := EmptyString;
     productImage_writes := [] |}.

Definition initial : State :=
  {| productData := []; slideIndex := 0; dom := blank_dom;
     promises := []; timers := []; trace := [] |}.

(** The record at the cursor, if there is one. *)
Definition current_record (s : State) : option Product :=
  index (productData s) (slideIndex s).

(** The record [current] with the values the widgets hold, normalized as
    the change detector normalizes them. *)
Definition pending_edit (s : State) (current : Product) : Product :=
  assign_fields current
    (new_price (productPrice_value (dom s)))
    (notAvailable_checked (dom s))
    (JS.trim (additionalNote_value (dom s))).

(** The price is [null] or a number. *)
Definition price_defined (p : price_val) : Prop := p <> PUndefined.

(** The normalized widget values of section 4.2 of the specification, in
    its words: an empty price text is an absent price and any other text
    is the number it parses to; the record is available when the toggle is
    off; the note is the trimmed text.  [spec_edit d current] is [current]
    with these three values. *)
Definition spec_price (text : string) : price_val :=
  match text with
  | EmptyString => PNull
  | String _ _ => PNum (JS.parseFloat text)
  end.

Definition spec_edit (d : Dom) (current : Product) : Product :=
  {| id := id current; title := title current; image := image current;
     price := spec_price (productPrice_value d);
     isAvailable := negb (notAvailable_checked d);
     note := JS.trim (additionalNote_value d) |}.

(** At least one of the three normalized values differs from the stored
    one. *)
Definition differs (d : Dom) (current : Product) : Prop :=
  spec_price (productPrice_value d) <> price current
  \/ negb (notAvailable_checked d) <> isAvailable current
  \/ JS.trim (additionalNote_value d) <> note current.

(** The decimal numeral of [n]. *)
Definition numeral (n : N) : string := string_of_list_ascii (JS.N_digits n).








(** The bound on the length of a JavaScript array. *)
Definition array_length_bound : Z := 2 ^ 32.

(** The catalog of the export example. *)
Definition pen : Product :=
  {| id := "1"; title := "Pen"; image := "pen.jpg";
     price := PNum (JS.number_of_Z 10); isAvailable := true; note := EmptyString |}.

Definition cup : Product :=
  {| id := "2"; title := "Cup"; image := "cup.jpg";
     price := PNull; isAvailable := false; note := "chipped" |}.



(** The result of a single wrap step on the index [i]. *)
Definition wrap_once (len i : Z) : Z :=
  if (len <=? i)%Z then 0%Z else if (i <? 0)%Z then (len - 1)%Z else i.







(** *** Sample data *)

(** A [data.json] of three records: the first lacks [isAvailable] and
    [note], the third has a fractional price. *)
Definition pen_item : Item :=
  {| item_id := "1"; item_title := "Pen"; item_image := "pen.jpg";
     item_price := PNum (JS.number_of_Z 10);
     item_isAvailable := None; item_note := None |}.

Definition cup_item : Item :=
  {| item_id := "2"; item_title := "Cup"; item_image := "cup.jpg";
     item_price := PNull;
     item_isAvailable := Some false; item_note := Some "chipped" |}.

Definition tray_item : Item :=
  {| item_id := "3"; item_title := "Tray"; item_image := "tray.jpg";
     item_price := PNum (JS.parseFloat "249.5");
     item_isAvailable := Some true; item_note := Some "large" |}.

(** A record without a [price] entry. *)
Definition whisk_item : Item :=
  {| item_id := "4"; item_title := "Whisk"; item_image := "whisk.jpg";
     item_price := PUndefined;
     item_isAvailable := None; item_note := None |}.

(** A record that is not available and has no [price] entry. *)
Definition spoon_item : Item :=
  {| item_id := "6"; item_title := "Spoon"; item_image := "spoon.jpg";
     item_price := PUndefined;
     item_isAvailable := Some false; item_note := None |}.

(** A record whose note has white space around it. *)
Definition ladle_item : Item :=
  {| item_id := "5"; item_title := "Ladle"; item_image := "ladle.jpg";
     item_price := PNum (JS.number_of_Z 320);
     item_isAvailable := Some true; item_note := Some " long handle " |}.

(** The page after [data.json] arrived with the given records. *)
Definition loaded (data : list Item) : State :=
  state_of (fetchProductData (Body data) initial).


(** The page showing the pen, where the user typed a new price and a note. *)
Definition edited_pen : State :=
  state_of (apply_edit (TypeNote "  blue ink ")
              (state_of (apply_edit (TypePrice "12.50")
                           (loaded [pen_item; cup_item])))).

(** *** Notions used by the further properties *)

(** Every event but the arrival of [data.json], which the page awaits once,
    when it starts. *)
Definition user_event (ev : event) : bool :=
  match ev with
  | Loaded _ => false
  | _ => true
  end.

Definition image_event (ev : event) : bool :=
  match ev with
  | ImageLoad | ImageError => true
  | _ => false
  end.

(** The events whose handler starts with the change detector. *)
Definition flushes (ev : event) : bool :=
  match ev with
  | ClickPrev | ClickNext | ClickCopy | Input _ => true
  | _ => false
  end.

(** A session: the page starts, [data.json] settles as [r], and the events
    [evs] follow. *)
Definition session (r : fetched) (evs : list event) : State :=
  run (step initial (Loaded r)) evs.

(** A session in which the events [before] arrive while [data.json] is
    being fetched, and the events [evs] after it was loaded. *)
Definition session_from (before : list event) (r : fetched) (evs : list event) : State :=
  run (step (run initial before) (Loaded r)) evs.

(** The clicks on "next" less the clicks on "previous". *)
Definition clicked (evs : list event) : Z :=
  fold_left (fun c ev => match ev with
                         | ClickNext => c + 1
                         | ClickPrev => c - 1
                         | _ => c
                         end)%Z evs 0%Z.

(** The index [c] is on a record of what the load brings, when it brings
    one. *)
Definition cursor_fits (c : Z) (r : fetched) : Prop :=
  match r with
  | Body data => data <> [] -> (0 <= c < Z.of_nat (length data))%Z
  | _ => True
  end.

(** The page while [data.json] is being fetched: no record, no promise, no
    handler on the image, the loading indicator off. *)
Definition nothing_loaded (s : State) : Prop :=
  productData s = [] /\ promises s = []
  /\ imageWrapper_loading (dom s) = false
  /\ productImage_onload (dom s) = None
  /\ productImage_onerror (dom s) = None.

(** The load gave no record to show. *)
Definition no_records (r : fetched) : bool :=
  match r with
  | Body (_ :: _) => false
  | _ => true
  end.

(** What the title reads after a load that gave no record. *)
Definition load_message (r : fetched) : string :=
  match r with
  | Body _ => "No products found."
  | _ => "Error loading data. Check console (Failed to fetch)."
  end.

(** The cursor is on a record whenever there is one. *)
Definition cursor_valid (s : State) : Prop :=
  productData s <> [] ->
  (0 <= slideIndex s < Z.of_nat (length (productData s)))%Z.

(** Every stored price is null or a number. *)
Definition prices_defined (s : State) : Prop :=
  Forall (fun p => price_defined (price p)) (productData s).

(** What no edit can change in a record. *)
Definition identity (p : Product) : string * string * string :=
  (id p, title p, image p).

(** Both slots of the image hold the functions of promise [g]. *)
Definition paired (g : nat) (s : State) : Prop :=
  productImage_onload (dom s) = Some (CallResolve g)
  /\ productImage_onerror (dom s) = Some (CallReject g).

(** The loading indicator is on exactly when the newest promise is
    pending. *)
Definition spinner_tracks_load (s : State) : Prop :=
  imageWrapper_loading (dom s)
  = match last (promises s) with
    | Some Pending => true
    | _ => false
    end.

(** The slots of the image hold the functions of the newest promise, or
    nothing when no promise was created yet. *)
Definition handlers_on_newest (s : State) : Prop :=
  if (length (promises s) =? 0)%nat
  then productImage_onload (dom s) = None /\ productImage_onerror (dom s) = None
  else paired (pred (length (promises s))) s.

(** The page without its status line. *)
Definition without_status (d : Dom) : Dom :=
  set_statusMessage_textContent EmptyString
    (set_statusMessage_color EmptyString d).

(** A note without white space at either end. *)
Definition trimmed (t : string) : Prop := JS.trim t = t.

(** The record [p] with its note trimmed. *)
Definition note_trimmed (p : Product) : Product :=
  {| id := id p; title := title p; image := image p; price := price p;
     isAvailable := isAvailable p; note := JS.trim (note p) |}.

(** The widget that the edit [e] sets holds what was entered. *)
Definition widget_holds (e : edit) (d : Dom) : Prop :=
  match e with
  | TypePrice text => productPrice_value d = text
  | ToggleNotAvailable b => notAvailable_checked d = b
  | TypeNote text => additionalNote_value d = text
  end.

(** ** Facts about the built-ins *)

Module JSFacts.
Import JS.

Local Open Scope N_scope.
Local Open Scope list_scope.

Lemma div10_lt_pow2 (f : nat) (n : N) :
  n < 2 ^ N.of_nat (S f) -> n / 10 < 2 ^ N.of_nat f.
Proof.
  intros H. rewrite Nat2N.inj_succ, N.pow_succ_r' in H.
  apply N.Div0.div_lt_upper_bound. lia.
Qed.

Lemma udigits_aux_app (f : nat) : forall n acc,
  udigits_aux f n acc = udigits_aux f n [] ++ acc.
Proof.
  induction f as [|f IH]; intros n acc; simpl; [reflexivity|].
  destruct (n =? 0); [reflexivity|].
  rewrite (IH _ (_ :: acc)), (IH _ [_]), <- app_assoc. reflexivity.
Qed.

Lemma udigits_aux_fuel (f : nat) : forall f' n acc,
  n < 2 ^ N.of_nat f -> n < 2 ^ N.of_nat f' ->
  udigits_aux f n acc = udigits_aux f' n acc.
Proof.
  induction f as [|f IH]; intros f' n acc Hf Hf'.
  - simpl in Hf. assert (n = 0) by lia. subst n. destruct f'; reflexivity.
  - simpl. destruct (N.eqb_spec n 0) as [->|Hn].
    + destruct f'; reflexivity.
    + destruct f' as [|f'].
      * simpl in Hf'. lia.
      * simpl. destruct (N.eqb_spec n 0); [contradiction|].
        apply IH; apply div10_lt_pow2; assumption.
Qed.

Lemma size_fuel (n : N) : n < 2 ^ N.of_nat (N.to_nat (N.size n)).
Proof. rewrite N2Nat.id. apply N.size_gt. Qed.

Lemma udigits_0 : udigits 0 = [].
Proof. reflexivity. Qed.

Lemma udigits_step (n : N) :
  n <> 0 -> udigits n = udigits (n / 10) ++ [digit_char (n mod 10)].
Proof.
  intros Hn. unfold udigits at 1.
  pose proof (size_fuel n) as Hs.
  destruct (N.to_nat (N.size n)) as [|f] eqn:Ef.
  - simpl in Hs. lia.
  - simpl. destruct (N.eqb_spec n 0); [contradiction|].
    rewrite udigits_aux_app. f_equal. unfold udigits.
    apply udigits_aux_fuel; [apply div10_lt_pow2; assumption | apply size_fuel].
Qed.

Lemma digit_val_char (d : N) : d < 10 -> digit_val (digit_char d) = d.
Proof.
  intros H. unfold digit_val, digit_char.
  rewrite N_ascii_embedding by lia. lia.
Qed.

Lemma is_digit_char (d : N) : d < 10 -> is_digit (digit_char d) = true.
Proof.
  intros H. unfold is_digit, digit_char.
  rewrite N_ascii_embedding by lia.
  apply andb_true_iff; split; apply N.leb_le; lia.
Qed.

Lemma N_of_digits_snoc (l : list ascii) (c : ascii) :
  N_of_digits (l ++ [c]) = 10 * N_of_digits l + digit_val c.
Proof. unfold N_of_digits. rewrite fold_left_app. reflexivity. Qed.

Lemma N_of_digits_app (a b : list ascii) :
  N_of_digits (a ++ b) = N_of_digits a * 10 ^ N.of_nat (length b) + N_of_digits b.
Proof.
  induction b as [|c b IH] using rev_ind.
  - rewrite app_nil_r. simpl. unfold N_of_digits at 3. simpl. lia.
  - rewrite app_assoc, !N_of_digits_snoc, IH, length_app. simpl.
    rewrite Nat2N.inj_add, N.pow_add_r. simpl (N.of_nat 1). lia.
Qed.

Lemma N_of_udigits (n : N) : N_of_digits (udigits n) = n.
Proof.
  induction n as [n IH] using (well_founded_induction N.lt_wf_0).
  destruct (N.eq_dec n 0) as [->|Hn]; [reflexivity|].
  rewrite udigits_step, N_of_digits_snoc by assumption.
  rewrite IH by (apply N.div_lt; lia).
  rewrite digit_val_char by (apply N.mod_lt; lia).
  symmetry. apply N.div_mod. lia.
Qed.

Lemma udigits_all_digits (n : N) : forallb is_digit (udigits n) = true.
Proof.
  induction n as [n IH] using (well_founded_induction N.lt_wf_0).
  destruct (N.eq_dec n 0) as [->|Hn]; [reflexivity|].
  rewrite udigits_step, forallb_app by assumption.
  rewrite IH by (apply N.div_lt; lia). simpl.
  rewrite is_digit_char by (apply N.mod_lt; lia). reflexivity.
Qed.

Lemma udigits_nonempty (n : N) : n <> 0 -> udigits n <> [].
Proof.
  intros Hn. rewrite udigits_step by assumption.
  intros H. apply app_eq_nil in H. destruct H as [_ H]. discriminate.
Qed.

Lemma N_digits_all_digits (n : N) : forallb is_digit (N_digits n) = true.
Proof.
  unfold N_digits. destruct (n =? 0); [reflexivity | apply udigits_all_digits].
Qed.

Lemma N_of_N_digits (n : N) : N_of_digits (N_digits n) = n.
Proof.
  unfold N_digits. destruct (N.eqb_spec n 0) as [->|]; [reflexivity | apply N_of_udigits].
Qed.

Lemma N_digits_nonempty (n : N) : N_digits n <> [].
Proof.
  unfold N_digits. destruct (N.eqb_spec n 0); [discriminate | apply udigits_nonempty; assumption].
Qed.


(** *** Scanning digits *)

Lemma span_digits_app (ds rest : list ascii) :
  forallb is_digit ds = true -> no_digit_ahead rest ->
  span_digits (ds ++ rest) = (ds, rest).
Proof.
  intros Hd Hr. induction ds as [|c ds IH]; simpl.
  - destruct rest as [|c rest]; simpl in *; [reflexivity|]. rewrite Hr. reflexivity.
  - simpl in Hd. apply andb_true_iff in Hd. destruct Hd as [Hc Hd].
    rewrite Hc, (IH Hd). reflexivity.
Qed.

Lemma span_digits_all (ds : list ascii) :
  forallb is_digit ds = true -> span_digits ds = (ds, []).
Proof.
  intros Hd. rewrite <- (app_nil_r ds) at 1. apply span_digits_app; [assumption | exact I].
Qed.

Lemma forallb_repeat_zero (t : nat) : forallb is_digit (repeat "0"%char t) = true.
Proof. induction t; simpl; [reflexivity | assumption]. Qed.

Lemma N_of_digits_zeros (t : nat) (l : list ascii) :
  N_of_digits (repeat "0"%char t ++ l) = N_of_digits l.
Proof.
  induction t as [|t IH]; [reflexivity|]. exact IH.
Qed.

(** *** Normal form *)

Lemma mantissa_mod (q : N) (r : nzdigit) : nz_of_N (mantissa q r mod 10) = Some r.
Proof.
  unfold mantissa.
  replace ((10 * q + nz_val r) mod 10) with (nz_val r).
  - destruct r; reflexivity.
  - rewrite N.add_comm, N.mul_comm, N.Div0.mod_add.
    symmetry. apply N.mod_small. destruct r; simpl; lia.
Qed.

Lemma mantissa_div (q : N) (r : nzdigit) : mantissa q r / 10 = q.
Proof.
  unfold mantissa. rewrite N.add_comm, N.mul_comm, N.div_add by lia.
  rewrite N.div_small; [lia | destruct r; simpl; lia].
Qed.

Lemma mantissa_pos (q : N) (r : nzdigit) : 0 < mantissa q r.
Proof. unfold mantissa. destruct r; simpl; lia. Qed.

Lemma strip10_pow (t : nat) : forall fuel neg q r e,
  (t <= fuel)%nat ->
  strip10 fuel neg (mantissa q r * 10 ^ N.of_nat t) e = Dec neg q r (e + Z.of_nat t).
Proof.
  induction t as [|t IH]; intros fuel neg q r e Hf.
  - simpl (N.of_nat 0). rewrite N.pow_0_r, N.mul_1_r, Z.add_0_r.
    destruct fuel; simpl; rewrite mantissa_mod, mantissa_div; reflexivity.
  - destruct fuel as [|fuel]; [lia|].
    rewrite Nat2N.inj_succ, N.pow_succ_r'.
    replace (mantissa q r * (10 * 10 ^ N.of_nat t))
      with (mantissa q r * 10 ^ N.of_nat t * 10) by lia.
    simpl. rewrite N.Div0.mod_mul, N.div_mul by lia. simpl.
    rewrite IH by lia. f_equal. lia.
Qed.

Lemma mk_decimal_pow (neg : bool) (q : N) (r : nzdigit) (t : nat) (e : Z) :
  mk_decimal neg (mantissa q r * 10 ^ N.of_nat t) e = Dec neg q r (e + Z.of_nat t).
Proof.
  unfold mk_decimal. pose proof (mantissa_pos q r) as Hm.
  assert (Hp : 2 ^ N.of_nat t <= mantissa q r * 10 ^ N.of_nat t).
  { transitivity (10 ^ N.of_nat t); [apply N.pow_le_mono_l; lia|]. nia. }
  destruct (N.eqb_spec (mantissa q r * 10 ^ N.of_nat t) 0) as [E|_].
  { assert (2 ^ N.of_nat t <> 0) by (apply N.pow_nonzero; lia). lia. }
  apply strip10_pow.
  apply N.log2_le_mono in Hp. rewrite N.log2_pow2 in Hp by lia. lia.
Qed.

Lemma mk_decimal_mantissa (neg : bool) (q : N) (r : nzdigit) (e : Z) :
  mk_decimal neg (mantissa q r) e = Dec neg q r e.
Proof.
  pose proof (mk_decimal_pow neg q r 0 e) as H. simpl (N.of_nat 0) in H.
  rewrite N.pow_0_r, N.mul_1_r, Z.add_0_r in H. exact H.
Qed.


(** *** Reading back what [render] wrote *)

Lemma scan_exponent_render (x : Z) : scan_exponent ("e"%char :: render_exp x) = x.
Proof.
  unfold render_exp, scan_exponent.
  change (Ascii.eqb "e" "e" || Ascii.eqb "e" "E")%bool with true. cbv iota.
  pose proof (N_digits_nonempty (Z.abs_N x)) as Hne.
  pose proof (N_of_N_digits (Z.abs_N x)) as Hv.
  destruct (Z.ltb_spec x 0) as [Hx|Hx].
  - change (Ascii.eqb "-" "-") with true. cbv iota.
    rewrite span_digits_all by apply N_digits_all_digits. simpl fst.
    destruct (N_digits (Z.abs_N x)) as [|c l]; [contradiction|].
    rewrite Hv. lia.
  - change (Ascii.eqb "+" "-") with false. change (Ascii.eqb "+" "+") with true.
    cbv iota.
    rewrite span_digits_all by apply N_digits_all_digits. simpl fst.
    destruct (N_digits (Z.abs_N x)) as [|c l]; [contradiction|].
    rewrite Hv. lia.
Qed.

Lemma scan_exponent_nil : scan_exponent [] = 0%Z.
Proof. reflexivity. Qed.

Lemma starts_with_Infinity_digit (c : ascii) (l : list ascii) :
  is_digit c = true -> starts_with (list_ascii_of_string "Infinity") (c :: l) = false.
Proof.
  intros Hc.
  change (list_ascii_of_string "Infinity") with ("I"%char :: list_ascii_of_string "nfinity").
  cbn [starts_with].
  destruct (Ascii.eqb_spec "I" c) as [<-|_]; [discriminate | reflexivity].
Qed.

Lemma scan_unsigned_render_pos (neg : bool) (ds : list ascii) (n : Z) (q : N) (r : nzdigit) :
  forallb is_digit ds = true ->
  N_of_digits ds = mantissa q r ->
  scan_unsigned neg (render_pos ds n) = Dec neg q r (n - Z.of_nat (length ds)).
Proof.
  intros Hd Hv.
  assert (Hne : ds <> []).
  { intros ->. pose proof (mantissa_pos q r). unfold N_of_digits in Hv. simpl in Hv. lia. }
  unfold render_pos.
  destruct ((Z.of_nat (length ds) <=? n) && (n <=? 21))%Z eqn:E1.
  { (* digits followed by zeros *)
    apply andb_true_iff in E1. destruct E1 as [E1 _]. apply Z.leb_le in E1.
    set (t := Z.to_nat (n - Z.of_nat (length ds))).
    assert (Hall : forallb is_digit (ds ++ repeat "0"%char t) = true)
      by (rewrite forallb_app, Hd, forallb_repeat_zero; reflexivity).
    unfold scan_unsigned.
    destruct ds as [|c ds']; [contradiction|].
    rewrite <- app_comm_cons.
    rewrite starts_with_Infinity_digit
      by (simpl in Hd; apply andb_true_iff in Hd; tauto).
    rewrite app_comm_cons, span_digits_all by assumption.
    rewrite <- app_comm_cons. cbv iota beta. rewrite app_nil_r, app_comm_cons.
    rewrite N_of_digits_app, Hv, repeat_length.
    replace (N_of_digits (repeat "0"%char t)) with 0
      by (rewrite <- (app_nil_r (repeat _ t)), N_of_digits_zeros; reflexivity).
    rewrite N.add_0_r, mk_decimal_pow, scan_exponent_nil. f_equal.
    subst t. cbn [length] in *. lia. }
  destruct ((0 <? n) && (n <=? 21))%Z eqn:E2.
  { (* a point inside the digits *)
    apply andb_true_iff in E2. destruct E2 as [E2 E2']. apply Z.ltb_lt in E2.
    apply Z.leb_le in E2'.
    apply andb_false_iff in E1.
    assert (Hk : (n < Z.of_nat (length ds))%Z).
    { destruct E1 as [E1|E1]; [apply Z.leb_gt in E1; lia | apply Z.leb_gt in E1; lia]. }
    set (i := Z.to_nat n).
    assert (Hi : (0 < i < length ds)%nat) by lia.
    assert (Hfd : forallb is_digit (firstn i ds) = true).
    { rewrite <- (firstn_skipn i ds), forallb_app in Hd. apply andb_true_iff in Hd. tauto. }
    assert (Hsd : forallb is_digit (skipn i ds) = true).
    { rewrite <- (firstn_skipn i ds), forallb_app in Hd. apply andb_true_iff in Hd. tauto. }
    unfold scan_unsigned.
    destruct (firstn i ds) as [|c l] eqn:Ef.
    { apply (f_equal (@length _)) in Ef. rewrite length_firstn in Ef. simpl in Ef. lia. }
    rewrite <- app_comm_cons.
    rewrite starts_with_Infinity_digit
      by (simpl in Hfd; apply andb_true_iff in Hfd; tauto).
    rewrite app_comm_cons, span_digits_app by (assumption || reflexivity).
    cbv iota beta. change (Ascii.eqb "." ".") with true. cbv iota beta.
    rewrite span_digits_all by assumption. cbv iota beta.
    rewrite <- Ef, firstn_skipn, Hv, mk_decimal_mantissa.
    rewrite scan_exponent_nil. f_equal.
    rewrite length_skipn. lia. }
  destruct ((-6 <? n) && (n <=? 0))%Z eqn:E3.
  { (* zeros after the point, then the digits *)
    apply andb_true_iff in E3. destruct E3 as [_ E3]. apply Z.leb_le in E3.
    set (t := Z.to_nat (- n)).
    unfold scan_unsigned.
    rewrite starts_with_Infinity_digit by reflexivity.
    change (span_digits ("0"%char :: "."%char :: repeat "0"%char t ++ ds))
      with (["0"%char], "."%char :: repeat "0"%char t ++ ds).
    cbv iota beta. change (Ascii.eqb "." ".") with true. cbv iota beta.
    rewrite span_digits_all
      by (rewrite forallb_app, Hd, forallb_repeat_zero; reflexivity).
    cbv iota beta.
    change (["0"%char] ++ repeat "0"%char t ++ ds)
      with (repeat "0"%char (S t) ++ ds).
    rewrite N_of_digits_zeros, Hv, mk_decimal_mantissa.
    rewrite scan_exponent_nil. f_equal. rewrite length_app, repeat_length. lia. }
  (* exponent form *)
  destruct ds as [|d ds']; [contradiction|].
  simpl in Hd. apply andb_true_iff in Hd. destruct Hd as [Hc Hd'].
  assert (Hd1 : span_digits (d :: "e"%char :: render_exp (n - 1))
                = ([d], "e"%char :: render_exp (n - 1))).
  { simpl. rewrite Hc. reflexivity. }
  destruct ds' as [|d' ds''].
  - unfold scan_unsigned.
    rewrite starts_with_Infinity_digit by assumption.
    rewrite Hd1. cbv iota beta. change (Ascii.eqb "e" ".") with false. cbv iota beta.
    rewrite scan_exponent_render. change ([d] ++ []) with [d].
    rewrite Hv, mk_decimal_mantissa. f_equal. simpl. lia.
  - unfold scan_unsigned.
    rewrite starts_with_Infinity_digit by assumption.
    assert (Hd2 : span_digits (d :: "."%char :: (d' :: ds'') ++ "e"%char :: render_exp (n - 1))
                  = ([d], "."%char :: (d' :: ds'') ++ "e"%char :: render_exp (n - 1))).
    { simpl. rewrite Hc. reflexivity. }
    rewrite Hd2. cbv iota beta. change (Ascii.eqb "." ".") with true. cbv iota beta.
    rewrite span_digits_app by (assumption || reflexivity).
    cbv iota beta. rewrite scan_exponent_render.
    change ([d] ++ d' :: ds'') with (d :: d' :: ds'').
    rewrite Hv, mk_decimal_mantissa. f_equal. simpl length. lia.
Qed.

Lemma render_pos_head (ds : list ascii) (n : Z) :
  forallb is_digit ds = true -> ds <> [] ->
  exists c l, render_pos ds n = c :: l /\ is_digit c = true.
Proof.
  intros Hd Hne. destruct ds as [|d ds']; [contradiction|].
  simpl in Hd. apply andb_true_iff in Hd. destruct Hd as [Hc Hd'].
  unfold render_pos.
  destruct ((Z.of_nat (length (d :: ds')) <=? n) && (n <=? 21))%Z.
  { rewrite <- app_comm_cons. eauto. }
  destruct ((0 <? n) && (n <=? 21))%Z eqn:E2.
  { apply andb_true_iff in E2. destruct E2 as [E2 _]. apply Z.ltb_lt in E2.
    destruct (Z.to_nat n) as [|i] eqn:Ei; [lia|].
    simpl. eauto. }
  destruct ((-6 <? n) && (n <=? 0))%Z; [eauto|].
  destruct ds'; eauto.
Qed.

(** [decimal_of_string] reads back every decimal from its text. *)
Lemma parse_render (x : decimal) : parse (render x) = x.
Proof.
  destruct x as [|neg| |neg q r e].
  - reflexivity.
  - destruct neg; reflexivity.
  - reflexivity.
  - unfold render.
    pose proof (udigits_all_digits (mantissa q r)) as Hd.
    pose proof (N_of_udigits (mantissa q r)) as Hv.
    pose proof (mantissa_pos q r) as Hp.
    assert (Hne : udigits (mantissa q r) <> []) by (apply udigits_nonempty; lia).
    set (ds := udigits (mantissa q r)) in *.
    pose proof (scan_unsigned_render_pos neg ds (Z.of_nat (length ds) + e) q r Hd Hv) as Hs.
    replace (Z.of_nat (length ds) + e - Z.of_nat (length ds))%Z with e in Hs by lia.
    destruct (render_pos_head ds (Z.of_nat (length ds) + e) Hd Hne) as (c & l & Hr & Hc).
    rewrite Hr in *. unfold parse.
    destruct neg.
    + simpl. exact Hs.
    + simpl app. simpl drop_spaces.
      assert (Hsp : is_space c = false).
      { unfold is_digit in Hc. unfold is_space.
        apply andb_true_iff in Hc. destruct Hc as [H1 H2].
        apply N.leb_le in H1. apply N.leb_le in H2.
        repeat (apply orb_false_iff; split);
          [apply andb_false_iff; right; apply N.leb_gt; lia
          | apply N.eqb_neq; lia | apply N.eqb_neq; lia]. }
      rewrite Hsp.
      destruct (Ascii.eqb_spec c "-") as [->|_]; [discriminate|].
      destruct (Ascii.eqb_spec c "+") as [->|_]; [discriminate|].
      exact Hs.
Qed.

End JSFacts.

Module JSRounding.
Import JS JSFacts.
Local Open Scope N_scope.
Local Open Scope list_scope.

Lemma udigits_times_pow10 (m : N) (t : nat) :
  m <> 0 -> udigits (m * 10 ^ N.of_nat t) = udigits m ++ repeat "0"%char t.
Proof.
  intros Hm. induction t as [|t IH].
  - simpl (N.of_nat 0). rewrite N.pow_0_r, N.mul_1_r, app_nil_r. reflexivity.
  - rewrite Nat2N.inj_succ, N.pow_succ_r'.
    replace (m * (10 * 10 ^ N.of_nat t)) with (m * 10 ^ N.of_nat t * 10) by lia.
    assert (10 ^ N.of_nat t <> 0) by (apply N.pow_nonzero; lia).
    rewrite udigits_step by lia.
    rewrite N.div_mul, N.Div0.mod_mul, IH by lia.
    rewrite <- app_assoc. f_equal.
    change [digit_char 0] with (repeat "0"%char 1).
    rewrite <- repeat_app. f_equal. lia.
Qed.

Lemma udigits_length_le (k : nat) : forall n,
  n < 10 ^ N.of_nat k -> (length (udigits n) <= k)%nat.
Proof.
  induction k as [|k IH]; intros n Hn.
  - simpl in Hn. assert (n = 0) by lia. subst. simpl. lia.
  - destruct (N.eq_dec n 0) as [->|Hz]; [simpl; lia|].
    rewrite udigits_step, length_app by assumption. simpl.
    rewrite Nat2N.inj_succ, N.pow_succ_r' in Hn.
    assert (n / 10 < 10 ^ N.of_nat k) by (apply N.Div0.div_lt_upper_bound; lia).
    specialize (IH _ H). lia.
Qed.

Lemma nz_of_N_digit (d : N) : 0 < d < 10 -> exists r, nz_of_N d = Some r /\ nz_val r = d.
Proof.
  intros H.
  assert (C : d = 1 \/ d = 2 \/ d = 3 \/ d = 4 \/ d = 5 \/ d = 6 \/ d = 7 \/ d = 8 \/ d = 9) by lia.
  repeat (destruct C as [->|C]; [eexists; split; reflexivity|]).
  subst. eexists; split; reflexivity.
Qed.

(** Every positive integer is a mantissa followed by zeros. *)
Lemma mantissa_decompose (n : N) :
  n <> 0 -> exists q r t, n = mantissa q r * 10 ^ N.of_nat t.
Proof.
  induction n as [n IH] using (well_founded_induction N.lt_wf_0). intros Hn.
  pose proof (N.div_mod n 10 ltac:(lia)) as Hdm.
  pose proof (N.mod_lt n 10 ltac:(lia)) as Hlt.
  assert (Hq : n / 10 < n) by (apply N.div_lt; lia).
  remember (n / 10) as a eqn:Ea. remember (n mod 10) as d eqn:Ed.
  destruct (N.eq_dec d 0) as [Hz|Hz].
  - destruct (IH a) as (q & r & t & E); [lia | lia |].
    exists q, r, (S t). rewrite Nat2N.inj_succ, N.pow_succ_r'. lia.
  - destruct (nz_of_N_digit d) as (r & _ & Hr); [lia|].
    exists a, r, O. unfold mantissa. simpl (N.of_nat 0). rewrite N.pow_0_r. lia.
Qed.

Lemma render_N (n : N) :
  n < 10 ^ 21 ->
  render (mk_decimal false n 0) = N_digits n.
Proof.
  intros Hn. destruct (N.eq_dec n 0) as [->|Hz]; [reflexivity|].
  destruct (mantissa_decompose n Hz) as (q & r & t & E).
  pose proof (mantissa_pos q r) as Hp.
  rewrite E, mk_decimal_pow. unfold render.
  simpl app. unfold render_pos.
  assert (Hk : (length (udigits (mantissa q r * 10 ^ N.of_nat t)) <= 21)%nat).
  { apply udigits_length_le. rewrite <- E. exact Hn. }
  rewrite udigits_times_pow10, length_app, repeat_length in Hk by lia.
  set (ds := udigits (mantissa q r)) in *.
  replace ((Z.of_nat (length ds) <=? Z.of_nat (length ds) + (0 + Z.of_nat t))%Z
           && (Z.of_nat (length ds) + (0 + Z.of_nat t) <=? 21)%Z)%bool with true.
  2:{ symmetry. apply andb_true_iff. split; apply Z.leb_le; lia. }
  unfold N_digits.
  destruct (N.eqb_spec (mantissa q r * 10 ^ N.of_nat t) 0) as [E0|_]; [lia|].
  rewrite udigits_times_pow10 by lia. fold ds. f_equal. f_equal. lia.
Qed.

End JSRounding.

Module Binary64Facts.
Import JS JSFacts JSRounding.
Local Open Scope Q_scope.

Lemma pow2_pos (k : Z) : 0 < 2 ^ k.
Proof. apply Qpower_0_lt. reflexivity. Qed.

Lemma pow2_plus (a b : Z) : 2 ^ (a + b) == 2 ^ a * 2 ^ b.
Proof. apply Qpower_plus. discriminate. Qed.

Lemma pow2_le (a b : Z) : (a <= b)%Z -> 2 ^ a <= 2 ^ b.
Proof. intros H. apply Qpower_le_compat_l; [exact H | discriminate]. Qed.

Lemma pow2_lt (a b : Z) : (a < b)%Z -> 2 ^ a < 2 ^ b.
Proof. intros H. apply Qpower_lt_compat_l; [exact H | reflexivity]. Qed.

Lemma pow2_inject (k : Z) : (0 <= k)%Z -> inject_Z (2 ^ k) == 2 ^ k.
Proof. intros H. apply (Zpower_Qpower 2 k H). Qed.

Lemma inject_Z_lt (a b : Z) : (a < b)%Z -> inject_Z a < inject_Z b.
Proof. intros H. rewrite <- Zlt_Qlt. exact H. Qed.

Lemma inject_Z_le (a b : Z) : (a <= b)%Z -> inject_Z a <= inject_Z b.
Proof. intros H. rewrite <- Zle_Qle. exact H. Qed.

(** [2^(log2 n) <= n < 2^(log2 n + 1)] in [Q]. *)
Lemma log2_bounds (n : Z) :
  (0 < n)%Z -> 2 ^ Z.log2 n <= inject_Z n /\ inject_Z n < 2 ^ (Z.log2 n + 1).
Proof.
  intros Hn. destruct (Z.log2_spec n Hn) as [H1 H2].
  pose proof (Z.log2_nonneg n) as H0.
  split.
  - rewrite <- pow2_inject by assumption. apply inject_Z_le. exact H1.
  - rewrite <- pow2_inject by lia. apply inject_Z_lt.
    replace (Z.log2 n + 1)%Z with (Z.succ (Z.log2 n)) by lia. exact H2.
Qed.

Lemma Qmake_as_div (n : Z) (d : positive) : n # d == inject_Z n / inject_Z (Zpos d).
Proof. apply Qmake_Qdiv. Qed.

Lemma floor_log2_spec (v : Q) :
  0 < v -> 2 ^ floor_log2 v <= v /\ v < 2 ^ (floor_log2 v + 1).
Proof.
  intros Hv. destruct v as [n d].
  assert (Hn : (0 < n)%Z).
  { unfold Qlt in Hv. simpl in Hv. lia. }
  destruct (log2_bounds n Hn) as [Hn1 Hn2].
  destruct (log2_bounds (Zpos d) eq_refl) as [Hd1 Hd2].
  assert (Hd : 0 < inject_Z (Zpos d)) by reflexivity.
  unfold floor_log2. cbn [Qnum Qden].
  set (a := Z.log2 n) in *. set (b := Z.log2 (Zpos d)) in *.
  assert (Hup : n # d < 2 ^ (a - b + 1)).
  { rewrite (Qmake_as_div n d). apply Qlt_shift_div_r; [exact Hd|].
    eapply Qlt_le_trans; [exact Hn2|].
    replace (a + 1)%Z with ((a - b + 1) + b)%Z by lia. rewrite pow2_plus.
    apply Qmult_le_l; [apply pow2_pos | exact Hd1]. }
  assert (Hlo : 2 ^ (a - b - 1) < n # d).
  { rewrite (Qmake_as_div n d). apply Qlt_shift_div_l; [exact Hd|].
    eapply Qlt_le_trans; [|exact Hn1].
    replace a with ((a - b - 1) + (b + 1))%Z at 2 by lia. rewrite pow2_plus.
    apply Qmult_lt_l; [apply pow2_pos | exact Hd2]. }
  destruct (Qle_bool (2 ^ (a - b)) (n # d)) eqn:E.
  - apply Qle_bool_iff in E. split; assumption.
  - split.
    + apply Qlt_le_weak. exact Hlo.
    + replace (a - b - 1 + 1)%Z with (a - b)%Z by lia.
      apply Qnot_le_lt. intros H. apply Qle_bool_iff in H. congruence.
Qed.

Lemma floor_log2_unique (v : Q) (k : Z) :
  2 ^ k <= v -> v < 2 ^ (k + 1) -> floor_log2 v = k.
Proof.
  intros H1 H2.
  assert (Hv : 0 < v) by (eapply Qlt_le_trans; [apply pow2_pos | exact H1]).
  destruct (floor_log2_spec v Hv) as [F1 F2].
  set (f := floor_log2 v) in *.
  destruct (Z.lt_trichotomy f k) as [H|[H|H]]; [|exact H|].
  - exfalso. assert (2 ^ (f + 1) <= 2 ^ k) by (apply pow2_le; lia).
    apply (Qlt_irrefl v). eapply Qlt_le_trans; [exact F2|].
    eapply Qle_trans; eassumption.
  - exfalso. assert (2 ^ (k + 1) <= 2 ^ f) by (apply pow2_le; lia).
    apply (Qlt_irrefl v). eapply Qlt_le_trans; [exact H2|].
    eapply Qle_trans; eassumption.
Qed.


(** *** Rounding to the nearest integer *)

Lemma round_half_even_exact (x : Q) (z : Z) :
  x == inject_Z z -> round_half_even x = z.
Proof.
  intros E. unfold round_half_even.
  assert (F : Qfloor x = z) by (rewrite E; apply Qfloor_Z).
  rewrite F.
  destruct (Qcompare_spec (x - inject_Z z) (1 # 2)) as [H|H|H];
    [exfalso | reflexivity | exfalso]; rewrite E in H; lra.
Qed.

Lemma round_half_even_floor (x : Q) :
  (Qfloor x <= round_half_even x <= Qfloor x + 1)%Z.
Proof.
  unfold round_half_even.
  destruct (x - inject_Z (Qfloor x) ?= 1 # 2); [destruct (Z.even (Qfloor x))| |]; lia.
Qed.

Lemma round_half_even_lower (x : Q) (a : Z) :
  inject_Z a <= x -> (a <= round_half_even x)%Z.
Proof.
  intros H. pose proof (round_half_even_floor x) as [F _].
  apply Qfloor_resp_le in H. rewrite Qfloor_Z in H. lia.
Qed.

Lemma round_half_even_upper (x : Q) (b : Z) :
  x <= inject_Z b -> (round_half_even x <= b)%Z.
Proof.
  intros H. pose proof (round_half_even_floor x) as [_ F].
  pose proof (Qfloor_resp_le _ _ H) as G. rewrite Qfloor_Z in G.
  destruct (Z.eq_dec (Qfloor x) b) as [E|E]; [|lia].
  assert (X : x == inject_Z b).
  { apply Qle_antisym; [exact H|]. rewrite <- E. apply Qfloor_le. }
  rewrite (round_half_even_exact x b X). lia.
Qed.

(** *** The nearest binary64 value *)

Lemma pow2_53 : inject_Z (2 ^ 53) == 2 ^ 53.
Proof. apply pow2_inject. lia. Qed.

Lemma pow2_52 : inject_Z (2 ^ 52) == 2 ^ 52.
Proof. apply pow2_inject. lia. Qed.

Lemma scaled_upper (v : Q) (k ex : Z) :
  v < 2 ^ (k + 1) -> (k + 1 <= ex + 53)%Z -> v / 2 ^ ex <= inject_Z (2 ^ 53).
Proof.
  intros Hv Hk. rewrite pow2_53.
  apply Qle_shift_div_r; [apply pow2_pos|].
  rewrite <- pow2_plus. apply Qlt_le_weak.
  eapply Qlt_le_trans; [exact Hv|]. apply pow2_le. lia.
Qed.

Lemma scaled_lower (v : Q) (k : Z) :
  2 ^ k <= v -> inject_Z (2 ^ 52) <= v / 2 ^ (k - 52).
Proof.
  intros Hv. rewrite pow2_52.
  apply Qle_shift_div_l; [apply pow2_pos|].
  rewrite <- pow2_plus. replace (52 + (k - 52))%Z with k by lia. exact Hv.
Qed.

Lemma nearest_binary64_canonical (v : Q) :
  0 < v ->
  let '(m, ex) := nearest_binary64 v in
  (0 <= m < 2 ^ 53 /\ -1074 <= ex /\ (2 ^ 52 <= m \/ ex = -1074))%Z.
Proof.
  intros Hv. destruct (floor_log2_spec v Hv) as [F1 F2].
  unfold nearest_binary64.
  set (k := floor_log2 v) in *.
  set (ex := Z.max (k - 52) (-1074)).
  set (m := round_half_even (v / 2 ^ ex)).
  assert (Hx0 : 0 <= v / 2 ^ ex).
  { apply Qle_shift_div_l; [apply pow2_pos|]. rewrite Qmult_0_l.
    apply Qlt_le_weak. exact Hv. }
  assert (Hm0 : (0 <= m)%Z) by (apply round_half_even_lower; exact Hx0).
  assert (Hm1 : (m <= 2 ^ 53)%Z).
  { apply round_half_even_upper. apply (scaled_upper v k); [exact F2 | lia]. }
  assert (Hm2 : (ex = k - 52 -> 2 ^ 52 <= m)%Z).
  { intros E. apply round_half_even_lower. rewrite E. apply scaled_lower. exact F1. }
  destruct (Z.eqb_spec m (2 ^ 53)) as [E|E].
  - split; [lia|]. split; [lia|]. left. lia.
  - split; [lia|]. split; [lia|].
    destruct (Z.eq_dec ex (k - 52)%Z) as [E'|E']; [left; auto | right; lia].
Qed.

Lemma nearest_binary64_exact (v : Q) (m ex : Z) :
  (0 < m < 2 ^ 53)%Z -> (-1074 <= ex)%Z -> (2 ^ 52 <= m \/ ex = -1074)%Z ->
  v == inject_Z m * 2 ^ ex ->
  nearest_binary64 v = (m, ex).
Proof.
  intros Hm Hex Hc E.
  destruct (log2_bounds m ltac:(lia)) as [L1 L2].
  assert (HL : (0 <= Z.log2 m < 53)%Z).
  { split; [apply Z.log2_nonneg|]. apply Z.log2_lt_pow2; lia. }
  assert (Hk : floor_log2 v = (Z.log2 m + ex)%Z).
  { apply floor_log2_unique; rewrite E.
    - rewrite pow2_plus. apply Qmult_le_r; [apply pow2_pos | exact L1].
    - replace (Z.log2 m + ex + 1)%Z with ((Z.log2 m + 1) + ex)%Z by lia.
      rewrite pow2_plus. apply Qmult_lt_r; [apply pow2_pos | exact L2]. }
  assert (Hmax : Z.max (Z.log2 m + ex - 52) (-1074) = ex).
  { destruct Hc as [Hc|Hc].
    - assert (52 <= Z.log2 m)%Z by (apply Z.log2_le_pow2; lia). lia.
    - lia. }
  unfold nearest_binary64. rewrite Hk, Hmax.
  assert (X : v / 2 ^ ex == inject_Z m).
  { rewrite E. field. intros H. pose proof (pow2_pos ex) as P. rewrite H in P.
    discriminate. }
  rewrite (round_half_even_exact _ _ X).
  destruct (Z.eqb_spec m (2 ^ 53)); [lia | reflexivity].
Qed.


(** *** The value of a decimal *)

Lemma pow10_pos (k : Z) : 0 < 10 ^ k.
Proof. apply Qpower_0_lt. reflexivity. Qed.

Lemma pow10_plus (a b : Z) : 10 ^ (a + b) == 10 ^ a * 10 ^ b.
Proof. apply Qpower_plus. discriminate. Qed.

Lemma pow10_inject (k : Z) : (0 <= k)%Z -> inject_Z (10 ^ k) == 10 ^ k.
Proof. intros H. apply (Zpower_Qpower 10 k H). Qed.

Lemma decimal_value_Dec (q : N) (r : nzdigit) (e : Z) :
  decimal_value (Dec false q r e) == inject_Z (Z.of_N (mantissa q r)) * 10 ^ e.
Proof.
  unfold decimal_value. set (m := Z.of_N (mantissa q r)).
  destruct e as [|p|p].
  - rewrite Z.pow_0_r, Z.mul_1_r. change (10 ^ 0) with 1. ring.
  - rewrite inject_Z_mult, pow10_inject by lia. reflexivity.
  - rewrite Qmake_Qdiv. change (Z.neg p) with (- Z.pos p)%Z.
    rewrite Qpower_opp, <- pow10_inject by lia.
    rewrite Pos2Z.inj_pow. reflexivity.
Qed.

Lemma decimal_value_pos (q : N) (r : nzdigit) (e : Z) :
  0 < decimal_value (Dec false q r e).
Proof.
  rewrite decimal_value_Dec.
  apply Qmult_lt_0_compat; [|apply pow10_pos].
  pose proof (mantissa_pos q r). change 0 with (inject_Z 0). apply inject_Z_lt. lia.
Qed.

Lemma mk_decimal_cases (neg : bool) (n : N) (e : Z) :
  n <> 0%N ->
  exists q r t, n = (mantissa q r * 10 ^ N.of_nat t)%N
                /\ mk_decimal neg n e = Dec neg q r (e + Z.of_nat t).
Proof.
  intros Hn. destruct (mantissa_decompose n Hn) as (q & r & t & E).
  exists q, r, t. split; [exact E|]. rewrite E. apply mk_decimal_pow.
Qed.

Lemma mk_decimal_value (neg : bool) (n : N) (e : Z) :
  n <> 0%N ->
  exists q r e',
    mk_decimal neg n e = Dec neg q r e'
    /\ decimal_value (Dec false q r e') == inject_Z (Z.of_N n) * 10 ^ e.
Proof.
  intros Hn. destruct (mk_decimal_cases neg n e Hn) as (q & r & t & E & H).
  exists q, r, (e + Z.of_nat t)%Z. split; [exact H|].
  rewrite decimal_value_Dec, E, N2Z.inj_mul, N2Z.inj_pow, nat_N_Z.
  change (Z.of_N 10) with 10%Z.
  rewrite inject_Z_mult, pow10_inject, pow10_plus by lia. ring.
Qed.

(** Two decimals in normal form with the same value are the same. *)
Lemma mantissa_inj (q q' : N) (r r' : nzdigit) :
  mantissa q r = mantissa q' r' -> q = q' /\ r = r'.
Proof.
  intros H. split.
  - rewrite <- (mantissa_div q r), <- (mantissa_div q' r'), H. reflexivity.
  - pose proof (mantissa_mod q r) as A. pose proof (mantissa_mod q' r') as B.
    rewrite H in A. congruence.
Qed.

Lemma mantissa_not_multiple (q : N) (r : nzdigit) (a : N) :
  mantissa q r <> (10 * a)%N.
Proof.
  intros H. pose proof (mantissa_mod q r) as A. rewrite H in A.
  rewrite N.mul_comm, N.Div0.mod_mul in A. discriminate.
Qed.

Lemma scaled_mantissa (q q' : N) (r r' : nzdigit) (e e' : Z) :
  (e <= e')%Z ->
  inject_Z (Z.of_N (mantissa q r)) * 10 ^ e
  == inject_Z (Z.of_N (mantissa q' r')) * 10 ^ e' ->
  q = q' /\ r = r' /\ e = e'.
Proof.
  intros He H.
  assert (H' : inject_Z (Z.of_N (mantissa q r))
               == inject_Z (Z.of_N (mantissa q' r') * 10 ^ (e' - e))).
  { rewrite inject_Z_mult, pow10_inject by lia.
    replace e' with ((e' - e) + e)%Z in H by lia. rewrite pow10_plus in H.
    apply (Qmult_inj_r _ _ (10 ^ e)).
    - intros Z0. pose proof (pow10_pos e) as P. rewrite Z0 in P. discriminate.
    - rewrite H. ring. }
  apply (proj1 (inject_Z_injective _ _)) in H'.
  destruct (Z.eq_dec e e') as [->|Hne].
  - rewrite Z.sub_diag, Z.pow_0_r, Z.mul_1_r in H'. apply N2Z.inj in H'.
    destruct (mantissa_inj _ _ _ _ H') as [-> ->]. repeat split; reflexivity.
  - exfalso. set (k := (e' - e - 1)%Z). assert (Hk : (0 <= k)%Z) by lia.
    replace (e' - e)%Z with (Z.succ k) in H' by lia.
    rewrite Z.pow_succ_r in H' by lia.
    apply (mantissa_not_multiple q r (mantissa q' r' * 10 ^ Z.to_N k)%N).
    apply N2Z.inj. rewrite H', !N2Z.inj_mul, N2Z.inj_pow, Z2N.id by lia.
    change (Z.of_N 10) with 10%Z. ring.
Qed.

Lemma decimal_value_inj (q q' : N) (r r' : nzdigit) (e e' : Z) :
  decimal_value (Dec false q r e) == decimal_value (Dec false q' r' e') ->
  q = q' /\ r = r' /\ e = e'.
Proof.
  rewrite !decimal_value_Dec. intros H.
  destruct (Z.le_ge_cases e e') as [L|L].
  - apply scaled_mantissa; assumption.
  - symmetry in H. destruct (scaled_mantissa _ _ _ _ _ _ L H) as (-> & -> & ->).
    repeat split; reflexivity.
Qed.

(** *** From binary to decimal *)

Lemma five_two (k : Z) : (0 <= k)%Z -> inject_Z (5 ^ k) * 10 ^ (- k) == 2 ^ (- k).
Proof.
  intros Hk. rewrite (Zpower_Qpower 5 k Hk), !Qpower_opp.
  change (inject_Z 5) with (5 : Q).
  assert (T : (10 : Q) == 2 * 5) by reflexivity.
  rewrite T, Qmult_power.
  pose proof (pow2_pos k) as P2. pose proof (Qpower_0_lt 5 k eq_refl) as P5.
  set (a := 2 ^ k) in *. set (b := 5 ^ k) in *.
  field. split; lra.
Qed.

Lemma of_binary_finite (neg : bool) (m ex : Z) :
  (0 < m)%Z -> (Z.log2 m + ex < 1024)%Z ->
  exists q r e,
    of_binary neg m ex = Dec neg q r e
    /\ decimal_value (Dec false q r e) == inject_Z m * 2 ^ ex.
Proof.
  intros Hm Hb. unfold of_binary.
  destruct (Z.eqb_spec m 0) as [|_]; [lia|].
  destruct (Z.leb_spec 1024 (Z.log2 m + ex)) as [|_]; [lia|].
  destruct (Z.leb_spec 0 ex) as [Hex|Hex].
  - assert (P : (0 < 2 ^ ex)%Z) by (apply Z.pow_pos_nonneg; lia).
    destruct (mk_decimal_value neg (Z.to_N (m * 2 ^ ex)) 0) as (q & r & e & H & V);
      [nia|].
    exists q, r, e. split; [exact H|]. rewrite V, Z2N.id by nia.
    rewrite inject_Z_mult, pow2_inject by lia. change (10 ^ 0) with 1. ring.
  - assert (P : (0 < 5 ^ (- ex))%Z) by (apply Z.pow_pos_nonneg; lia).
    destruct (mk_decimal_value neg (Z.to_N (m * 5 ^ (- ex))) ex) as (q & r & e & H & V);
      [nia|].
    exists q, r, e. split; [exact H|]. rewrite V, Z2N.id by nia.
    rewrite inject_Z_mult, <- Qmult_assoc.
    pose proof (five_two (- ex) ltac:(lia)) as T.
    rewrite Z.opp_involutive in T. rewrite T. reflexivity.
Qed.

Lemma of_binary_value (neg : bool) (m ex : Z) :
  (0 < m)%Z ->
  of_binary neg m ex = Infinity neg
  \/ exists q r e,
       of_binary neg m ex = Dec neg q r e
       /\ decimal_value (Dec false q r e) == inject_Z m * 2 ^ ex.
Proof.
  intros Hm. destruct (Z.leb_spec 1024 (Z.log2 m + ex)) as [H|H].
  - left. unfold of_binary. destruct (Z.eqb_spec m 0) as [|_]; [lia|].
    apply Z.leb_le in H. rewrite H. reflexivity.
  - right. apply of_binary_finite; assumption.
Qed.

(** *** Rounding twice *)

Lemma round_binary (neg : bool) (q : N) (r : nzdigit) (e m ex : Z) :
  (0 < m < 2 ^ 53)%Z -> (-1074 <= ex)%Z -> (2 ^ 52 <= m \/ ex = -1074)%Z ->
  decimal_value (Dec false q r e) == inject_Z m * 2 ^ ex ->
  round (Dec neg q r e) = of_binary neg m ex.
Proof.
  intros Hm Hex Hc V. unfold round.
  rewrite (nearest_binary64_exact _ m ex Hm Hex Hc V). reflexivity.
Qed.

Theorem round_idempotent (x : decimal) : round (round x) = round x.
Proof.
  destruct x as [| | |neg q r e]; try reflexivity.
  pose proof (nearest_binary64_canonical _ (decimal_value_pos q r e)) as C.
  destruct (nearest_binary64 (decimal_value (Dec false q r e))) as [m ex] eqn:En.
  assert (R : round (Dec neg q r e) = of_binary neg m ex)
    by (unfold round; rewrite En; reflexivity).
  rewrite R. destruct C as (Hm & Hex & Hc).
  destruct (Z.eq_dec m 0%Z) as [->|Hz]; [reflexivity|].
  destruct (of_binary_value neg m ex ltac:(lia)) as [->|(q' & r' & e' & H & V)];
    [reflexivity|].
  rewrite H. rewrite <- H at 2.
  apply round_binary; [lia | exact Hex | exact Hc | exact V].
Qed.

(** *** Numbers *)

Lemma decimal_eqb_eq (x y : decimal) : decimal_eqb x y = true <-> x = y.
Proof.
  split.
  - destruct x as [|a| |a q r e], y as [|b| |b q' r' e']; try discriminate;
      cbn [decimal_eqb]; intros H; try reflexivity.
    + apply Bool.eqb_prop in H. congruence.
    + apply andb_true_iff in H. destruct H as [H He].
      apply andb_true_iff in H. destruct H as [H Hr].
      apply andb_true_iff in H. destruct H as [Ha Hq].
      apply Bool.eqb_prop in Ha. apply N.eqb_eq in Hq, Hr. apply Z.eqb_eq in He.
      subst. f_equal. destruct r, r'; simpl in Hr; try reflexivity; discriminate.
  - intros <-. destruct x as [|a| |a q r e]; cbn [decimal_eqb]; try reflexivity.
    + apply Bool.eqb_reflx.
    + rewrite Bool.eqb_reflx, !N.eqb_refl, Z.eqb_refl. reflexivity.
Qed.

Lemma is_binary64_round (x : decimal) : is_binary64 (round x) = true.
Proof. apply decimal_eqb_eq. apply round_idempotent. Qed.

Lemma is_binary64_fixed (x : decimal) : is_binary64 x = true <-> round x = x.
Proof. apply decimal_eqb_eq. Qed.

Lemma number_eq (x y : number) : decimal_of x = decimal_of y -> x = y.
Proof.
  destruct x as [a Ha], y as [b Hb]. cbn [decimal_of]. intros <-.
  f_equal. apply UIP_dec. apply Bool.bool_dec.
Qed.


Lemma checked_true (b : bool) (H : b = true) : exists ok, checked b = Some ok.
Proof. subst b. eexists. reflexivity. Qed.

Lemma to_number_decimal (x : decimal) : decimal_of (to_number x) = round x.
Proof.
  unfold to_number.
  destruct (checked_true _ (is_binary64_round x)) as [ok E].
  rewrite E. reflexivity.
Qed.

Lemma to_number_of (x : number) : to_number (decimal_of x) = x.
Proof.
  apply number_eq. rewrite to_number_decimal.
  apply is_binary64_fixed. apply decimal_ok.
Qed.

(** *** The numeral reads back *)

Lemma shortest_from_round (x : decimal) (neg : bool) (m : N) (e : Z) (j : nat) :
  round x = x -> round (shortest_from x neg m e j) = x.
Proof.
  intros Hx. induction j as [|j IH]; cbn [shortest_from];
    repeat match goal with
           | |- context [decimal_eqb ?a ?b] =>
               let E := fresh "E" in
               destruct (decimal_eqb a b) eqn:E; [apply decimal_eqb_eq in E|]
           | |- context [(?a ?= ?b)%N] => destruct (a ?= b)%N
           | |- context [N.even ?a] => destruct (N.even a)
           end; assumption.
Qed.

Lemma shortest_round (x : decimal) : round x = x -> round (shortest x) = x.
Proof.
  intros Hx. destruct x as [| | |neg q r e]; try exact Hx.
  apply shortest_from_round. exact Hx.
Qed.

Theorem parseFloat_toString (x : number) : parseFloat (number_toString x) = x.
Proof.
  apply number_eq. unfold parseFloat, number_toString, decimal_toString.
  rewrite to_number_decimal, list_ascii_of_string_of_list_ascii, parse_render.
  apply shortest_round. apply is_binary64_fixed. apply decimal_ok.
Qed.

Lemma number_toString_inj (x y : number) :
  number_toString x = number_toString y -> x = y.
Proof.
  intros H. rewrite <- (parseFloat_toString x), <- (parseFloat_toString y), H.
  reflexivity.
Qed.

Lemma number_toString_nonempty (x : number) : number_toString x <> EmptyString.
Proof.
  intros H. pose proof (parseFloat_toString x) as P. rewrite H in P.
  rewrite <- P in H. vm_compute in H. discriminate.
Qed.


(** *** Integers *)

(** An integer below [2^53] is a binary64 number. *)
Lemma round_integer (neg : bool) (q : N) (r : nzdigit) (e n : Z) :
  (0 < n < 2 ^ 53)%Z ->
  decimal_value (Dec false q r e) == inject_Z n ->
  round (Dec neg q r e) = Dec neg q r e.
Proof.
  intros Hn V.
  destruct (Z.log2_spec n ltac:(lia)) as [L1 L2].
  pose proof (Z.log2_nonneg n) as L0.
  assert (L3 : (Z.log2 n < 53)%Z) by (apply Z.log2_lt_pow2; lia).
  set (l := Z.log2 n) in *.
  set (m := (n * 2 ^ (52 - l))%Z).
  assert (P : (0 < 2 ^ (52 - l))%Z) by (apply Z.pow_pos_nonneg; lia).
  assert (S1 : (2 ^ l * 2 ^ (52 - l) = 2 ^ 52)%Z).
  { rewrite <- Z.pow_add_r by lia. f_equal. lia. }
  assert (S2 : (2 ^ Z.succ l * 2 ^ (52 - l) = 2 ^ 53)%Z).
  { rewrite <- Z.pow_add_r by lia. f_equal. lia. }
  assert (Hm : (2 ^ 52 <= m < 2 ^ 53)%Z) by (unfold m; nia).
  assert (Vm : decimal_value (Dec false q r e) == inject_Z m * 2 ^ (l - 52)).
  { rewrite V. unfold m. rewrite inject_Z_mult, pow2_inject by lia.
    rewrite <- Qmult_assoc, <- pow2_plus.
    replace (52 - l + (l - 52))%Z with 0%Z by lia. change (2 ^ 0) with 1. ring. }
  rewrite (round_binary neg q r e m (l - 52)); [|lia | lia | left; lia | exact Vm].
  assert (Hl : (Z.log2 m < 53)%Z) by (apply Z.log2_lt_pow2; lia).
  destruct (of_binary_finite neg m (l - 52) ltac:(lia) ltac:(lia))
    as (q' & r' & e' & H & V').
  rewrite H. rewrite <- Vm in V'.
  destruct (decimal_value_inj _ _ _ _ _ _ V') as (-> & -> & ->). reflexivity.
Qed.

Lemma round_mk_integer (neg : bool) (c : N) (t : Z) :
  (0 <= t)%Z -> (Z.of_N c * 10 ^ t < 2 ^ 53)%Z ->
  round (mk_decimal neg c t) = mk_decimal neg c t.
Proof.
  intros Ht Hc. destruct (N.eq_dec c 0%N) as [->|Hz]; [reflexivity|].
  destruct (mk_decimal_value neg c t Hz) as (q & r & e & -> & V).
  apply (round_integer neg q r e (Z.of_N c * 10 ^ t)).
  - assert (0 < 10 ^ t)%Z by (apply Z.pow_pos_nonneg; lia). nia.
  - rewrite V, inject_Z_mult, pow10_inject by lia. reflexivity.
Qed.

(** When the decimals around [x] are binary64 numbers themselves, the
    shortest numeral of [x] has the digits of [x]. *)
Lemma shortest_from_exact (x : decimal) (neg : bool) (m : N) (e : Z) (j : nat) :
  (forall i c, (i <= j)%nat ->
     c = (m / 10 ^ N.of_nat i)%N \/ c = (m / 10 ^ N.of_nat i + 1)%N ->
     round (mk_decimal neg c (e + Z.of_nat i))
     = mk_decimal neg c (e + Z.of_nat i)) ->
  shortest_from x neg m e j = x.
Proof.
  induction j as [|j IH]; intros H; cbn [shortest_from].
  - rewrite !(H O) by (auto; lia).
    repeat match goal with
           | |- context [decimal_eqb ?a ?b] =>
               let E := fresh "E" in
               destruct (decimal_eqb a b) eqn:E; [apply decimal_eqb_eq in E|]
           | |- context [(?a ?= ?b)%N] => destruct (a ?= b)%N
           | |- context [N.even ?a] => destruct (N.even a)
           end; auto.
  - rewrite !(H (S j)) by (auto; lia).
    repeat match goal with
           | |- context [decimal_eqb ?a ?b] =>
               let E := fresh "E" in
               destruct (decimal_eqb a b) eqn:E; [apply decimal_eqb_eq in E|]
           | |- context [(?a ?= ?b)%N] => destruct (a ?= b)%N
           | |- context [N.even ?a] => destruct (N.even a)
           end; try assumption.
    all: apply IH; intros i c Hi Hc; apply H; [lia | exact Hc].
Qed.

Lemma udigits_length_lower (n : N) :
  n <> 0%N -> (10 ^ N.of_nat (pred (length (udigits n))) <= n)%N.
Proof.
  intros Hn. apply N.nlt_ge. intros H.
  apply udigits_length_le in H.
  pose proof (udigits_nonempty n Hn) as Hne.
  destruct (udigits n); [contradiction | simpl in H; lia].
Qed.

Lemma shortest_integer (n : N) :
  (n < 2 ^ 52)%N -> shortest (mk_decimal false n 0) = mk_decimal false n 0.
Proof.
  intros Hn. destruct (N.eq_dec n 0%N) as [->|Hz]; [reflexivity|].
  destruct (mk_decimal_cases false n 0 Hz) as (q & r & t & E & ->).
  unfold shortest. set (m := mantissa q r) in *.
  pose proof (mantissa_pos q r) as Hm. fold m in Hm.
  assert (Hd := udigits_length_lower m ltac:(lia)).
  set (d := pred (length (udigits m))) in *.
  assert (Hp : (0 < 10 ^ N.of_nat t)%N) by (apply N.neq_0_lt_0, N.pow_nonzero; lia).
  apply shortest_from_exact. intros i c Hi Hc.
  assert (Hpi : (0 < 10 ^ N.of_nat i)%N) by (apply N.neq_0_lt_0, N.pow_nonzero; lia).
  assert (Hle : (10 ^ N.of_nat i <= 10 ^ N.of_nat d)%N)
    by (apply N.pow_le_mono_r; lia).
  assert (Hlo : (m / 10 ^ N.of_nat i * 10 ^ N.of_nat i <= m)%N).
  { rewrite N.mul_comm. apply N.Div0.mul_div_le. }
  assert (Hc' : (c * 10 ^ N.of_nat i <= 2 * m)%N) by (destruct Hc; subst c; nia).
  apply round_mk_integer; [lia|].
  replace (0 + Z.of_nat t + Z.of_nat i)%Z with (Z.of_nat i + Z.of_nat t)%Z by lia.
  rewrite Z.pow_add_r by lia.
  assert (B : (2 * n < 2 ^ 53)%N).
  { change (2 ^ 53)%N with (2 * 2 ^ 52)%N. lia. }
  apply N2Z.inj_lt in B. apply N2Z.inj_le in Hc'. rewrite E in B.
  rewrite !N2Z.inj_mul, !N2Z.inj_pow, !nat_N_Z in *.
  change (Z.of_N 10) with 10%Z in *. change (Z.of_N 2) with 2%Z in *.
  change (Z.of_N 53) with 53%Z in *.
  assert (0 < 10 ^ Z.of_nat t)%Z by (apply Z.pow_pos_nonneg; lia).
  nia.
Qed.

Lemma number_of_Z_decimal (n : Z) :
  (0 <= n < 2 ^ 53)%Z -> decimal_of (number_of_Z n) = mk_decimal false (Z.to_N n) 0.
Proof.
  intros Hn. unfold number_of_Z. rewrite to_number_decimal. unfold decimal_of_Z.
  destruct (Z.ltb_spec n 0) as [|_]; [lia|].
  replace (Z.abs_N n) with (Z.to_N n) by lia.
  apply round_mk_integer; [lia|]. rewrite Z2N.id, Z.pow_0_r by lia. lia.
Qed.

Theorem number_toString_integer (n : Z) :
  (0 <= n < 2 ^ 52)%Z ->
  number_toString (number_of_Z n) = string_of_list_ascii (N_digits (Z.to_N n)).
Proof.
  intros Hn. unfold number_toString, decimal_toString.
  rewrite number_of_Z_decimal by lia.
  assert (B : (Z.to_N n < 2 ^ 52)%N).
  { apply N2Z.inj_lt. rewrite Z2N.id by lia. exact (proj2 Hn). }
  rewrite shortest_integer by exact B. f_equal. apply render_N.
  eapply N.lt_trans; [exact B | reflexivity].
Qed.


(** *** The built-ins on a few inputs *)

Example parseFloat_trailing_zero : parseFloat "10.0" = number_of_Z 10.
Proof. vm_compute. reflexivity. Qed.

Example parseFloat_prefix : parseFloat "  12.5px" = parseFloat "12.5".
Proof. vm_compute. reflexivity. Qed.

Example parseFloat_exponent : parseFloat "-.5e1" = number_of_Z (-5).
Proof. vm_compute. reflexivity. Qed.

Example parseFloat_no_number : number_toString (parseFloat "PKR 10") = "NaN".
Proof. vm_compute. reflexivity. Qed.

Example parseFloat_rounds : parseFloat "1.00000000000000001" = number_of_Z 1.
Proof. vm_compute. reflexivity. Qed.

Example parseFloat_rounds_to_even :
  parseFloat "9007199254740993" = number_of_Z 9007199254740992.
Proof. vm_compute. reflexivity. Qed.

Example parseFloat_overflow : number_toString (parseFloat "1e400") = "Infinity".
Proof. vm_compute. reflexivity. Qed.

Example parseFloat_tenth :
  decimal_of (parseFloat "0.1")
  = Dec false 100000000000000005551115123125782702118158340454101562 D5 (-55).
Proof. vm_compute. reflexivity. Qed.

Example toString_tenth : number_toString (parseFloat "0.1") = "0.1".
Proof. vm_compute. reflexivity. Qed.

Example toString_sum : number_toString (parseFloat "0.30000000000000004")
                       = "0.30000000000000004".
Proof. vm_compute. reflexivity. Qed.

Example toString_integer : number_toString (parseFloat "1200.0") = "1200".
Proof. vm_compute. reflexivity. Qed.

Example toString_fraction : number_toString (parseFloat "0012.50") = "12.5".
Proof. vm_compute. reflexivity. Qed.

Example toString_small : number_toString (parseFloat "0.0000001") = "1e-7".
Proof. vm_compute. reflexivity. Qed.

Example toString_large : number_toString (parseFloat "123e19") = "1.23e+21".
Proof. vm_compute. reflexivity. Qed.

Example toString_long : number_toString (parseFloat "123456789012345678901234567890")
                        = "1.2345678901234568e+29".
Proof. vm_compute. reflexivity. Qed.

Example toFixed0_tie : toFixed0 (parseFloat "249.5") = "250".
Proof. vm_compute. reflexivity. Qed.

Example toFixed0_down : toFixed0 (parseFloat "249.49") = "249".
Proof. vm_compute. reflexivity. Qed.

Example toFixed0_below_tie : toFixed0 (parseFloat "1.005") = "1".
Proof. vm_compute. reflexivity. Qed.

Example toFixed0_negative : toFixed0 (parseFloat "-2.5") = "-3".
Proof. vm_compute. reflexivity. Qed.

Example toFixed0_NaN : toFixed0 (parseFloat "abc") = "NaN".
Proof. vm_compute. reflexivity. Qed.

Example trim_both_ends : trim "  blue ink " = "blue ink".
Proof. vm_compute. reflexivity. Qed.

End Binary64Facts.
(** ** Rounding by [toFixed(0)] *)

Section Rounding.
Import JS JSFacts Binary64Facts.





End Rounding.

(** ** The change detector *)

Section ChangeDetector.
Import JS JSFacts Binary64Facts.

Lemma price_text_defined (p : price_val) (s : State) :
  price_defined p -> price_text p s = Return (price_widget_text p) s.
Proof. destruct p; [contradiction | reflexivity | reflexivity]. Qed.

Lemma price_widget_text_inj (p p' : price_val) :
  price_defined p -> price_defined p' ->
  price_widget_text p = price_widget_text p' -> p = p'.
Proof.
  destruct p as [| |x], p' as [| |y]; try contradiction; simpl; intros _ _ H.
  - reflexivity.
  - symmetry in H. apply number_toString_nonempty in H. contradiction.
  - apply number_toString_nonempty in H. contradiction.
  - f_equal. apply number_toString_inj. exact H.
Qed.

Lemma new_price_defined (value : string) : price_defined (new_price value).
Proof. unfold new_price. destruct (String.eqb value EmptyString); discriminate. Qed.

Lemma priceChanged_defined (stored newPrice : price_val) (s : State) :
  price_defined stored -> price_defined newPrice ->
  priceChanged stored newPrice s
  = Return (negb (String.eqb (price_widget_text stored) (price_widget_text newPrice))) s.
Proof.
  intros H1 H2. unfold priceChanged, bind.
  rewrite (price_text_defined _ _ H1), (price_text_defined _ _ H2). reflexivity.
Qed.

Lemma priceChanged_undefined (newPrice : price_val) (s : State) :
  priceChanged PUndefined newPrice s
  = Throw (TypeError "Cannot read properties of undefined") s.
Proof. reflexivity. Qed.

(** Whether the change detector sees a difference between the stored record
    and the widgets. *)
Lemma nothing_changed_iff (s : State) (current : Product) :
  price_defined (price current) ->
  (negb (String.eqb (price_widget_text (price current))
           (price_widget_text (new_price (productPrice_value (dom s)))))
   || availabilityChanged (isAvailable current) (notAvailable_checked (dom s))
   || noteChanged (note current) (trim (additionalNote_value (dom s))))%bool = false
  <-> pending_edit s current = current.
Proof.
  intros Hd. unfold pending_edit, assign_fields, availabilityChanged, noteChanged.
  pose proof (new_price_defined (productPrice_value (dom s))) as Hn.
  set (np := new_price _) in *. set (nn := trim _). set (na := notAvailable_checked _).
  destruct current as [i t im p a n]. cbn [price isAvailable note id title image] in *.
  split.
  - intros H. apply orb_false_iff in H. destruct H as [H Hnote].
    apply orb_false_iff in H. destruct H as [Hprice Havail].
    apply negb_false_iff in Hprice, Havail, Hnote.
    apply String.eqb_eq in Hprice, Hnote. apply Bool.eqb_prop in Havail.
    apply price_widget_text_inj in Hprice; [|assumption|assumption].
    subst. reflexivity.
  - intros H. injection H as -> -> ->.
    rewrite String.eqb_refl, Bool.eqb_reflx, String.eqb_refl. reflexivity.
Qed.

Lemma current_record_nonempty (s : State) (current : Product) :
  current_record s = Some current -> (length (productData s) =? 0)%nat = false.
Proof.
  unfold current_record, index. intros H. apply Nat.eqb_neq. intros E.
  destruct (slideIndex s <? 0)%Z; [discriminate|].
  apply length_zero_iff_nil in E. rewrite E in H. discriminate.
Qed.

Lemma updateProductData_empty (b : bool) (s : State) :
  productData s = [] -> updateProductData b s = Return tt s.
Proof. intros E. unfold updateProductData, bind, gets. rewrite E. reflexivity. Qed.

Lemma updateProductData_undefined (b : bool) (s : State) (current : Product) :
  current_record s = Some current -> price current = PUndefined ->
  updateProductData b s = Throw (TypeError "Cannot read properties of undefined") s.
Proof.
  intros Hc Hp. pose proof (current_record_nonempty _ _ Hc) as Hl.
  unfold updateProductData, bind, gets. rewrite Hl.
  unfold current_record in Hc. rewrite Hc. simpl. rewrite Hp. reflexivity.
Qed.

Lemma updateProductData_no_record (b : bool) (s : State) :
  productData s <> [] -> current_record s = None ->
  updateProductData b s = Throw (TypeError "Cannot read properties of undefined") s.
Proof.
  intros Hne Hc.
  assert (Hl : (length (productData s) =? 0)%nat = false).
  { apply Nat.eqb_neq. intros E. apply length_zero_iff_nil in E. contradiction. }
  unfold updateProductData, bind, gets. rewrite Hl.
  unfold current_record in Hc. rewrite Hc. reflexivity.
Qed.

Lemma updateProductData_defined (b : bool) (s : State) (current : Product) :
  current_record s = Some current -> price_defined (price current) ->
  updateProductData b s =
    if (negb (String.eqb (price_widget_text (price current))
                (price_widget_text (new_price (productPrice_value (dom s)))))
        || availabilityChanged (isAvailable current) (notAvailable_checked (dom s))
        || noteChanged (note current) (trim (additionalNote_value (dom s))))%bool
    then commit b (slideIndex s) (pending_edit s current) s
    else Return tt s.
Proof.
  intros Hc Hp. pose proof (current_record_nonempty _ _ Hc) as Hl.
  unfold updateProductData, bind, gets. rewrite Hl.
  unfold current_record in Hc. rewrite Hc. cbn [deref ret].
  rewrite priceChanged_defined by (assumption || apply new_price_defined).
  destruct (_ || _ || _)%bool; reflexivity.
Qed.

Lemma updateProductData_same (b : bool) (s : State) (current : Product) :
  current_record s = Some current -> price_defined (price current) ->
  pending_edit s current = current ->
  updateProductData b s = Return tt s.
Proof.
  intros Hc Hp He. rewrite (updateProductData_defined b s current Hc Hp).
  apply (nothing_changed_iff s current Hp) in He. rewrite He. reflexivity.
Qed.

Lemma updateProductData_differs (b : bool) (s : State) (current : Product) :
  current_record s = Some current -> price_defined (price current) ->
  pending_edit s current <> current ->
  updateProductData b s = commit b (slideIndex s) (pending_edit s current) s.
Proof.
  intros Hc Hp He. rewrite (updateProductData_defined b s current Hc Hp).
  destruct (_ || _ || _)%bool eqn:E; [reflexivity|].
  apply (nothing_changed_iff s current Hp) in E. contradiction.
Qed.


(** The code's normalization is the specification's. *)
Lemma spec_price_new_price (text : string) : new_price text = spec_price text.
Proof. destruct text; reflexivity. Qed.

Lemma pending_edit_spec (s : State) (current : Product) :
  pending_edit s current = spec_edit (dom s) current.
Proof.
  unfold pending_edit, assign_fields, spec_edit.
  rewrite spec_price_new_price. reflexivity.
Qed.



End ChangeDetector.

(** ** Showing a slide *)

Section Navigation.
Local Open Scope list_scope.

Lemma index_Some {A} (l : list A) (i : Z) :
  (0 <= i < Z.of_nat (length l))%Z -> exists a, index l i = Some a.
Proof.
  intros H. unfold index. destruct (Z.ltb_spec i 0) as [|_]; [lia|].
  apply lookup_lt_is_Some_2. lia.
Qed.

Lemma index_range {A} (l : list A) (i : Z) (a : A) :
  index l i = Some a -> (0 <= i < Z.of_nat (length l))%Z.
Proof.
  unfold index. destruct (Z.ltb_spec i 0) as [|Hi]; [discriminate|].
  intros H. apply lookup_lt_Some in H. lia.
Qed.

Lemma wrap_once_range (len i : Z) :
  (0 < len)%Z -> (0 <= wrap_once len i < len)%Z.
Proof.
  intros H. unfold wrap_once.
  destruct (Z.leb_spec len i); [lia|]. destruct (Z.ltb_spec i 0); lia.
Qed.

(** What [showSlide] leaves when it finds a record to show. *)
Lemma showSlide_shows (n : Z) (s : State) (product : Product) :
  productData s <> [] ->
  let len := Z.of_nat (length (productData s)) in
  let i := if (n <? 0)%Z then (len - 1)%Z
           else if (len <=? n)%Z then 0%Z else slideIndex s in
  index (productData s) i = Some product ->
  exists s',
    showSlide n s = Return tt s'
    /\ slideIndex s' = i
    /\ productData s' = productData s
    /\ promises s' = promises s ++ [Pending]
    /\ productImage_onload (dom s') = Some (CallResolve (length (promises s)))
    /\ productImage_onerror (dom s') = Some (CallReject (length (promises s)))
    /\ productImage_src (dom s') = image product
    /\ imageWrapper_loading (dom s') = true
    /\ productPrice_value (dom s') = price_widget_text (price product)
    /\ notAvailable_checked (dom s') = negb (isAvailable product)
    /\ additionalNote_value (dom s') = note product
    /\ timers s' = timers s
    /\ trace s' = trace s
    /\ productImage_alt (dom s') = title product.
Proof.
  intros Hne len i Hi.
  assert (Hl : (length (productData s) =? 0)%nat = false).
  { apply Nat.eqb_neq. intros E. apply length_zero_iff_nil in E. contradiction. }
  assert (Hlen : (0 < len)%Z).
  { subst len. destruct (productData s); [contradiction | simpl; lia]. }
  destruct s as [data c d pr tm tr]. destruct d.
  cbn [productData slideIndex promises timers trace dom] in *.
  unfold showSlide, bind, gets. cbn [productData]. rewrite Hl.
  fold len. subst i.
  destruct (Z.ltb_spec n 0) as [Hn|Hn].
  - destruct (Z.leb_spec len n) as [Hn'|Hn']; [lia|].
    cbn. rewrite Hi. cbn. eexists. split; [reflexivity|].
    cbn. repeat split; reflexivity.
  - destruct (Z.leb_spec len n) as [Hn'|Hn'].
    + cbn. rewrite Hi. cbn. eexists. split; [reflexivity|].
      cbn. repeat split; reflexivity.
    + cbn. rewrite Hi. cbn. eexists. split; [reflexivity|].
      cbn. repeat split; reflexivity.
Qed.


(** [seek] always finds a record in a catalog that is not empty. *)
Lemma seek_shows (n : Z) (s : State) :
  productData s <> [] ->
  let len := Z.of_nat (length (productData s)) in
  let i := wrap_once len (slideIndex s + n) in
  exists s' product,
    seek n s = Return tt s'
    /\ index (productData s) i = Some product
    /\ slideIndex s' = i
    /\ productData s' = productData s
    /\ promises s' = promises s ++ [Pending]
    /\ productImage_onload (dom s') = Some (CallResolve (length (promises s)))
    /\ productImage_onerror (dom s') = Some (CallReject (length (promises s)))
    /\ productImage_src (dom s') = image product
    /\ imageWrapper_loading (dom s') = true
    /\ productPrice_value (dom s') = price_widget_text (price product)
    /\ notAvailable_checked (dom s') = negb (isAvailable product)
    /\ additionalNote_value (dom s') = note product
    /\ timers s' = timers s
    /\ trace s' = trace s
    /\ productImage_alt (dom s') = title product.
Proof.
  intros Hne len i.
  assert (Hlen : (0 < len)%Z).
  { subst len. destruct (productData s); [contradiction | simpl; lia]. }
  destruct (index_Some (productData s) i) as [product Hp].
  { apply wrap_once_range. exact Hlen. }
  set (s0 := with_slideIndex (slideIndex s + n)%Z s).
  assert (Hseek : seek n s = showSlide (slideIndex s + n) s0) by reflexivity.
  destruct (showSlide_shows (slideIndex s + n) s0 product) as (s' & Hs & Hrest).
  - exact Hne.
  - cbn [s0 with_slideIndex productData slideIndex]. fold len.
    subst i. unfold wrap_once in Hp.
    destruct (Z.ltb_spec (slideIndex s + n) 0) as [H0|H0];
      destruct (Z.leb_spec len (slideIndex s + n)) as [H1|H1];
      try exact Hp; lia.
  - exists s', product. rewrite Hseek. split; [exact Hs|]. split; [exact Hp|].
    cbn [s0 with_slideIndex productData slideIndex promises timers trace] in Hrest.
    fold len in Hrest.
    destruct Hrest as (Hi & Hrest). split; [|exact Hrest].
    rewrite Hi. subst i. unfold wrap_once.
    destruct (Z.ltb_spec (slideIndex s + n) 0) as [H0|H0];
      destruct (Z.leb_spec len (slideIndex s + n)) as [H1|H1];
      try reflexivity; lia.
Qed.

Lemma seek_cursor (n : Z) (s : State) :
  productData s <> [] ->
  slideIndex (state_of (seek n s))
  = wrap_once (Z.of_nat (length (productData s))) (slideIndex s + n).
Proof.
  intros Hne. destruct (seek_shows n s Hne) as (s' & product & Hs & _ & Hi & _).
  rewrite Hs. exact Hi.
Qed.

(** What [commit] leaves. *)
Lemma commit_result (b : bool) (i : Z) (u : Product) (s : State) :
  exists s',
    commit b i u s = Return tt s'
    /\ productData s' = <[Z.to_nat i := u]> (productData s)
    /\ slideIndex s' = slideIndex s
    /\ promises s' = promises s
    /\ trace s' = trace s ++ [ConsoleLog ("Updated product " ++ id u ++ ":")%string u]
    /\ productPrice_value (dom s') = productPrice_value (dom s)
    /\ notAvailable_checked (dom s') = notAvailable_checked (dom s)
    /\ additionalNote_value (dom s') = additionalNote_value (dom s)
    /\ productImage_onload (dom s') = productImage_onload (dom s)
    /\ productImage_onerror (dom s') = productImage_onerror (dom s)
    /\ (if b
        then statusMessage_textContent (dom s')
             = ("Data for " ++ dquote ++ title u ++ dquote ++ " updated!")%string
             /\ timers s' = timers s ++ [2000%Z]
        else dom s' = dom s /\ timers s' = timers s).
Proof.
  destruct s as [data c d pr tm tr]. destruct d. destruct b;
    (eexists; split; [reflexivity|]; cbn; repeat split; reflexivity).
Qed.

(** The change detector either leaves the state as it was, or commits the
    pending edit, which then differs from the stored record. *)
Lemma updateProductData_cases (b : bool) (s : State) :
  state_of (updateProductData b s) = s
  \/ exists current,
       current_record s = Some current
       /\ price_defined (price current)
       /\ pending_edit s current <> current
       /\ updateProductData b s = commit b (slideIndex s) (pending_edit s current) s.
Proof.
  destruct (productData s) as [|p0 l0] eqn:E.
  { left. rewrite updateProductData_empty by assumption. reflexivity. }
  assert (Hne : productData s <> []) by (rewrite E; discriminate).
  destruct (current_record s) as [current|] eqn:Hc.
  2:{ left. rewrite updateProductData_no_record by assumption. reflexivity. }
  destruct (price current) as [| |x] eqn:Hp.
  { left. rewrite (updateProductData_undefined b s current) by assumption. reflexivity. }
  - assert (Hd : price_defined (price current)) by (rewrite Hp; discriminate).
    rewrite (updateProductData_defined b s current Hc Hd).
    destruct (_ || _ || _)%bool eqn:Ech.
    + right. exists current. repeat split; try assumption.
      intros Heq. apply (nothing_changed_iff s current Hd) in Heq. congruence.
    + left. reflexivity.
  - assert (Hd : price_defined (price current)) by (rewrite Hp; discriminate).
    rewrite (updateProductData_defined b s current Hc Hd).
    destruct (_ || _ || _)%bool eqn:Ech.
    + right. exists current. repeat split; try assumption.
      intros Heq. apply (nothing_changed_iff s current Hd) in Heq. congruence.
    + left. reflexivity.
Qed.

(** The change detector moves neither the cursor nor the promises nor the
    handlers, and keeps the length of the catalog. *)
Lemma updateProductData_frame (b : bool) (s : State) :
  let s' := state_of (updateProductData b s) in
  slideIndex s' = slideIndex s
  /\ length (productData s') = length (productData s)
  /\ promises s' = promises s
  /\ productImage_onload (dom s') = productImage_onload (dom s)
  /\ productImage_onerror (dom s') = productImage_onerror (dom s).
Proof.
  cbv zeta. destruct (updateProductData_cases b s) as [->|(current & _ & _ & _ & Hu)].
  - repeat split; reflexivity.
  - rewrite Hu.
    destruct (commit_result b (slideIndex s) (pending_edit s current) s)
      as (s' & -> & Hd & Hi & Hpr & _ & _ & _ & _ & Hl & He & _).
    cbn [state_of]. rewrite Hd, length_insert. repeat split; assumption.
Qed.

Lemma navigateSlide_after_flush (n : Z) (s s1 : State) :
  updateProductData false s = Return tt s1 -> navigateSlide n s = seek n s1.
Proof. intros H. unfold navigateSlide, bind. rewrite H. reflexivity. Qed.

Lemma returns_Return (m : M unit) (s : State) :
  returns (m s) = true -> m s = Return tt (state_of (m s)).
Proof. destruct (m s) as [[] s'|e s']; [reflexivity | discriminate]. Qed.

End Navigation.

(** ** Navigation: the cursor *)

Section Cursor.
Local Open Scope list_scope.

Lemma navigateSlide_cursor (n : Z) (s : State) :
  productData s <> [] ->
  returns (updateProductData false s) = true ->
  slideIndex (state_of (navigateSlide n s))
  = wrap_once (Z.of_nat (length (productData s))) (slideIndex s + n).
Proof.
  intros Hne Hr.
  pose proof (updateProductData_frame false s) as (Hi & Hl & _).
  rewrite (navigateSlide_after_flush n s _ (returns_Return _ _ Hr)).
  rewrite seek_cursor.
  - rewrite Hi, Hl. reflexivity.
  - intros E. apply (f_equal (@length _)) in E. rewrite Hl in E.
    apply length_zero_iff_nil in E. contradiction.
Qed.

(** C8. Single-step wraparound: in a catalog of length L >= 1, moving the
    cursor by -1 from index 0 gives index L-1, and moving it by +1 from
    index L-1 gives index 0.  This holds for the cursor step of lines
    150-151 ([seek]) and for [navigateSlide] whenever the flush of line 149
    returns. *)
Theorem single_step_wraparound (s : State) :
  productData s <> [] ->
  let len := Z.of_nat (length (productData s)) in
  (slideIndex s = 0%Z ->
     slideIndex (state_of (seek (-1) s)) = (len - 1)%Z
     /\ (returns (updateProductData false s) = true ->
         slideIndex (state_of (navigateSlide (-1) s)) = (len - 1)%Z))
  /\ (slideIndex s = (len - 1)%Z ->
     slideIndex (state_of (seek 1 s)) = 0%Z
     /\ (returns (updateProductData false s) = true ->
         slideIndex (state_of (navigateSlide 1 s)) = 0%Z)).
Proof.
  intros Hne len.
  assert (Hlen : (0 < len)%Z).
  { subst len. destruct (productData s); [contradiction | simpl; lia]. }
  split; intros Hc.
  - assert (W : wrap_once len (slideIndex s + -1) = (len - 1)%Z).
    { rewrite Hc. unfold wrap_once. change (0 + -1)%Z with (-1)%Z.
      destruct (Z.leb_spec len (-1)); [lia | reflexivity]. }
    split.
    + rewrite seek_cursor by assumption. exact W.
    + intros Hr. rewrite navigateSlide_cursor by assumption. exact W.
  - assert (W : wrap_once len (slideIndex s + 1) = 0%Z).
    { rewrite Hc. unfold wrap_once.
      destruct (Z.leb_spec len (len - 1 + 1)); [reflexivity | lia]. }
    split.
    + rewrite seek_cursor by assumption. exact W.
    + intros Hr. rewrite navigateSlide_cursor by assumption. exact W.
Qed.

Lemma single_step_wraparound_witness :
  let s := loaded [pen_item; cup_item; tray_item] in
  slideIndex s = 0%Z
  /\ slideIndex (state_of (seek (-1) s)) = 2%Z
  /\ slideIndex (state_of (navigateSlide (-1) s)) = 2%Z.
Proof.
  cbv zeta.
  assert (Hne : productData (loaded [pen_item; cup_item; tray_item]) <> [])
    by (vm_compute; discriminate).
  destruct (single_step_wraparound _ Hne) as [H _].
  split; [reflexivity|].
  destruct (H eq_refl) as [H1 H2].
  split; [exact H1 | apply H2; reflexivity].
Defined.

(** C2, as the code has it.  In a catalog of length L >= 1 the cursor moves
    to an index of [0, L) by one wrap step, not by modulo arithmetic: to
    Cursor + delta when that is in [0, L), to 0 when it is L or more, to
    L-1 when it is negative.  The result is the index congruent to
    Cursor + delta modulo L whenever -1 <= Cursor + delta <= L, so for
    every step of +1 or -1 from a cursor on the catalog. *)
Theorem seek_wraps_once (s : State) (delta : Z) :
  productData s <> [] ->
  let len := Z.of_nat (length (productData s)) in
  let target := (slideIndex s + delta)%Z in
  let after := slideIndex (state_of (seek delta s)) in
  after = wrap_once len target
  /\ (0 <= after < len)%Z
  /\ ((-1 <= target <= len)%Z -> after = (target mod len)%Z)
  /\ ((0 <= slideIndex s < len)%Z -> delta = 1%Z \/ delta = (-1)%Z ->
      after = (target mod len)%Z)
  /\ (returns (updateProductData false s) = true ->
      slideIndex (state_of (navigateSlide delta s)) = after).
Proof.
  intros Hne len target after.
  assert (Hlen : (0 < len)%Z).
  { subst len. destruct (productData s); [contradiction | simpl; lia]. }
  assert (Ha : after = wrap_once len target) by (apply seek_cursor; assumption).
  assert (Hmod : (-1 <= target <= len)%Z -> after = (target mod len)%Z).
  { intros Ht. rewrite Ha. unfold wrap_once.
    destruct (Z.leb_spec len target) as [H1|H1].
    + assert (target = len) by lia. subst target. rewrite H.
      symmetry. apply Z_mod_same_full.
    + destruct (Z.ltb_spec target 0) as [H2|H2].
      * apply (Z.mod_unique target len (-1) (len - 1)); lia.
      * symmetry. apply Z.mod_small. lia. }
  split; [exact Ha|]. split; [rewrite Ha; apply wrap_once_range; assumption|].
  split; [exact Hmod|]. split.
  - intros Hc Hd. apply Hmod. subst target. lia.
  - intros Hr. rewrite Ha. apply navigateSlide_cursor; assumption.
Qed.

Lemma seek_wraps_once_witness :
  let s := loaded [pen_item; cup_item; tray_item] in
  slideIndex (state_of (seek 4 s)) = 0%Z
  /\ slideIndex (state_of (navigateSlide 4 s)) = 0%Z.
Proof.
  cbv zeta.
  assert (Hne : productData (loaded [pen_item; cup_item; tray_item]) <> [])
    by (vm_compute; discriminate).
  destruct (seek_wraps_once _ 4 Hne) as (H1 & _ & _ & _ & H2).
  split; [exact H1|]. rewrite H2 by reflexivity. exact H1.
Defined.

(** C2, as stated, fails: with three records and the cursor on the first,
    a delta of 4 leaves the cursor on index 0, while 0 + 4 is congruent to
    1 modulo 3. *)
Lemma seek_is_not_modulo :
  let s := loaded [pen_item; cup_item; tray_item] in
  Z.of_nat (length (productData s)) = 3%Z
  /\ slideIndex s = 0%Z
  /\ returns (navigateSlide 4 s) = true
  /\ slideIndex (state_of (navigateSlide 4 s)) = 0%Z
  /\ ((slideIndex s + 4) mod Z.of_nat (length (productData s)))%Z = 1%Z
  /\ slideIndex (state_of (navigateSlide 4 s))
     <> ((slideIndex s + 4) mod Z.of_nat (length (productData s)))%Z.
Proof. vm_compute. repeat split; discriminate. Qed.

(** C4.  On the empty catalog the change detector is a no-op and
    [navigateSlide] returns without raising, but the cursor moves: on the
    page left by an empty [data.json], one click on "next" leaves
    [slideIndex] at 1 and further clicks move it on. *)
Theorem empty_catalog_navigation_moves_cursor :
  let s := loaded [] in
  productData s = []
  /\ slideIndex s = 0%Z
  /\ updateProductData true s = Return tt s
  /\ navigateSlide 1 s = Return tt (with_slideIndex 1%Z s)
  /\ slideIndex (state_of (navigateSlide 1 s)) <> slideIndex s
  /\ slideIndex (run s [ClickNext; ClickNext; ClickNext]) = 3%Z.
Proof. vm_compute. repeat split; discriminate. Qed.

Lemma navigateSlide_empty (n : Z) (s : State) :
  productData s = [] ->
  navigateSlide n s = Return tt (with_slideIndex (slideIndex s + n) s).
Proof.
  intros E. unfold navigateSlide, bind.
  rewrite updateProductData_empty by assumption.
  unfold seek, bind, modify, gets, showSlide. cbn. rewrite E. reflexivity.
Qed.

End Cursor.

(** ** The change detector: claims *)

Section Autosave.
Import JS JSFacts Binary64Facts.
Local Open Scope list_scope.

Lemma assign_fields_twice (c : Product) (p : price_val) (na : bool) (n : string) :
  assign_fields (assign_fields c p na n) p na n = assign_fields c p na n.
Proof. reflexivity. Qed.

Lemma index_insert {A} (l : list A) (i : Z) (a b : A) :
  index l i = Some a -> index (<[Z.to_nat i := b]> l) i = Some b.
Proof.
  unfold index. destruct (i <? 0)%Z; [discriminate|]. intros H.
  apply list_lookup_insert_eq. apply lookup_lt_Some in H. exact H.
Qed.

Lemma index_insert_same {A} (l : list A) (i : Z) (a : A) :
  index l i = Some a -> <[Z.to_nat i := a]> l = l.
Proof.
  unfold index. destruct (i <? 0)%Z; [discriminate|]. apply list_insert_id.
Qed.

(** After a commit the stored record is the pending edit, so the widgets
    and the record agree. *)
Lemma commit_then_same (b b' : bool) (s : State) (current : Product) :
  current_record s = Some current ->
  let s1 := state_of (commit b (slideIndex s) (pending_edit s current) s) in
  updateProductData b' s1 = Return tt s1.
Proof.
  intros Hc s1.
  destruct (commit_result b (slideIndex s) (pending_edit s current) s)
    as (s' & Hs & Hd & Hi & _ & _ & Hpv & Hna & Hnv & _).
  subst s1. rewrite Hs. cbn [state_of].
  apply (updateProductData_same b' s' (pending_edit s current)).
  - unfold current_record. rewrite Hd, Hi. apply (index_insert _ _ current). exact Hc.
  - apply new_price_defined.
  - unfold pending_edit. rewrite Hpv, Hna, Hnv. apply assign_fields_twice.
Qed.

Lemma commit_changes_data (b : bool) (s : State) (current u : Product) :
  current_record s = Some current -> u <> current ->
  productData (state_of (commit b (slideIndex s) u s)) <> productData s.
Proof.
  intros Hc Hne.
  destruct (commit_result b (slideIndex s) u s) as (s' & Hs & Hdata & _).
  rewrite Hs. cbn [state_of]. rewrite Hdata. intros E.
  pose proof (index_insert (productData s) (slideIndex s) current u Hc) as Hx.
  rewrite E in Hx. unfold current_record in Hc. congruence.
Qed.

(** C5. The change detector is idempotent: called twice in a row on the
    same widget values, in whatever modes, the second call leaves the state
    the first call produced exactly as it is (no write to the record, no
    status message, no timer, no log entry); and the first call changes the
    state only when a record is current and the pending edit differs from
    it. *)
Theorem change_detector_idempotent (s : State) (first second : bool) :
  let s1 := state_of (updateProductData first s) in
  state_of (updateProductData second s1) = s1
  /\ (s1 <> s ->
      exists current,
        current_record s = Some current /\ pending_edit s current <> current).
Proof.
  cbv zeta. destruct (updateProductData_cases first s)
    as [Hsame|(current & Hc & Hd & Hne & Hu)].
  - rewrite Hsame. split; [|intros H; contradiction].
    destruct (updateProductData_cases second s)
      as [Hs2|(current & Hc & Hd & Hne & _)]; [exact Hs2|].
    exfalso.
    rewrite (updateProductData_differs first s current Hc Hd Hne) in Hsame.
    apply (commit_changes_data first s current _ Hc Hne).
    rewrite Hsame. reflexivity.
  - rewrite Hu. split.
    + rewrite (commit_then_same first second s current Hc). reflexivity.
    + intros _. exists current. split; assumption.
Qed.





End Autosave.

(** ** The export *)

Section ExportText.
Import JS JSFacts JSRounding Binary64Facts.
Local Open Scope list_scope.


Lemma int_toString_numeral (n : nat) :
  (Z.of_nat n < 2 ^ 52)%Z -> int_toString (Z.of_nat n) = numeral (N.of_nat n).
Proof.
  intros H. unfold int_toString, numeral.
  rewrite number_toString_integer by lia.
  rewrite <- nat_N_Z, N2Z.id. reflexivity.
Qed.






End ExportText.

(** ** Loading, and prices that are not there *)

Section Loading.
Local Open Scope list_scope.

Lemma fetchProductData_body (data : list Item) :
  productData (loaded data) = map load_item data
  /\ slideIndex (loaded data) = 0%Z.
Proof.
  unfold loaded, fetchProductData, try_catch, bind, modify, gets.
  cbn [with_productData productData initial slideIndex].
  destruct data as [|item data]; [split; reflexivity|].
  cbn [map length Nat.ltb Nat.leb].
  set (s0 := {| productData := load_item item :: map load_item data;
                slideIndex := 0; dom := blank_dom; promises := [];
                timers := []; trace := [] |}).
  destruct (showSlide_shows 0 s0 (load_item item)) as (s' & Hs & Hi & Hd & _).
  - discriminate.
  - reflexivity.
  - change (with_productData (load_item item :: map load_item data) initial) with s0.
    rewrite Hs. cbn [state_of]. rewrite Hd, Hi. split; reflexivity.
Qed.

Lemma format_catalog_defined (data : list Product) :
  Forall (fun p => price_defined (price p)) data ->
  exists text, format_catalog data = inr text.
Proof.
  intros Hall. unfold format_catalog.
  assert (H : forall idx, exists lines, map_from idx data = inr lines).
  { induction Hall as [|p l Hp Hl IH]; intros idx; [eexists; reflexivity|].
    cbn [map_from].
    assert (Hf : exists t, format_product idx p = inr t).
    { unfold format_product. destruct (isAvailable p); [|eexists; reflexivity].
      destruct (price p); [contradiction | eexists; reflexivity | eexists; reflexivity]. }
    destruct Hf as [t ->]. destruct (IH (S idx)) as [ts ->]. eexists; reflexivity. }
  destruct (H 0%nat) as [lines ->]. eexists; reflexivity.
Qed.

Lemma format_product_returns (idx : nat) (p : Product) :
  (exists text, format_product idx p = inr text)
  <-> (isAvailable p = true -> price_defined (price p)).
Proof.
  unfold format_product. destruct (isAvailable p).
  - destruct (price p) as [| |x]; split.
    + intros [t H]. discriminate.
    + intros H. exfalso. apply (H eq_refl). reflexivity.
    + intros _ _. discriminate.
    + intros _. eexists. reflexivity.
    + intros _ _. discriminate.
    + intros _. eexists. reflexivity.
  - split; [intros _ H; discriminate | intros _; eexists; reflexivity].
Qed.

Lemma map_from_returns (l : list Product) : forall idx,
  (exists lines, map_from idx l = inr lines)
  <-> Forall (fun p => isAvailable p = true -> price_defined (price p)) l.
Proof.
  induction l as [|p l IH]; intros idx.
  - split; [constructor | eexists; reflexivity].
  - cbn [map_from]. pose proof (format_product_returns idx p) as Hp.
    specialize (IH (S idx)). split.
    + intros [lines H]. destruct (format_product idx p) as [e|t]; [discriminate|].
      destruct (map_from (S idx) l) as [e|ts]; [discriminate|].
      constructor; [apply Hp; eexists; reflexivity | apply IH; eexists; reflexivity].
    + intros H. inversion H as [|? ? H1 H2]; subst.
      destruct (proj2 Hp H1) as [t ->]. destruct (proj2 IH H2) as [ts ->].
      eexists. reflexivity.
Qed.

Lemma formatProductDataForSharing_returns (s : State) :
  returns (formatProductDataForSharing s) = true
  <-> Forall (fun p => isAvailable p = true -> price_defined (price p)) (productData s).
Proof.
  unfold formatProductDataForSharing, bind, gets, format_catalog.
  pose proof (map_from_returns (productData s) 0%nat) as H.
  destruct (map_from 0 (productData s)) as [e|lines]; cbn [returns throw ret].
  - split; [discriminate|].
    intros Hall. destruct (proj2 H Hall) as [ls Hls]. discriminate.
  - split; [|reflexivity]. intros _. apply H. eexists. reflexivity.
Qed.

Lemma updateProductData_returns (b : bool) (s : State) (current : Product) :
  current_record s = Some current ->
  returns (updateProductData b s) = true <-> price_defined (price current).
Proof.
  intros Hc. split.
  - intros Hr Hp. rewrite (updateProductData_undefined b s current Hc Hp) in Hr.
    discriminate.
  - intros Hd. rewrite (updateProductData_defined b s current Hc Hd).
    destruct (_ || _ || _)%bool; [|reflexivity].
    destruct (commit_result b (slideIndex s) (pending_edit s current) s)
      as (s' & -> & _). reflexivity.
Qed.

(** C10, as the code has it.  Loading leaves the price as it finds it: a
    record without a price entry is stored with the price undefined, which
    is neither null nor a number, and there is a catalog with such a record
    on which the change detector and the export raise.  With the cursor on
    a record, the change detector returns exactly when the price of that
    record is null or a number; the export returns exactly when the price
    of every available record is null or a number.  So both return when
    every price is null or a number and the cursor is on a record. *)
Theorem missing_price_stays_undefined :
  (forall data : list Item,
     productData (loaded data) = map load_item data)
  /\ (forall item : Item,
        item_price item = PUndefined ->
        price (load_item item) = PUndefined
        /\ price (load_item item) <> PNull
        /\ forall x, price (load_item item) <> PNum x)
  /\ (let s := loaded [whisk_item; pen_item] in
      item_price whisk_item = PUndefined
      /\ updateProductData false s
         = Throw (TypeError "Cannot read properties of undefined") s
      /\ updateProductData true s
         = Throw (TypeError "Cannot read properties of undefined") s
      /\ formatProductDataForSharing s
         = Throw (TypeError "Cannot read properties of undefined") s)
  /\ (forall (s : State) (b : bool) (current : Product),
        current_record s = Some current ->
        returns (updateProductData b s) = true <-> price_defined (price current))
  /\ (forall s : State,
        returns (formatProductDataForSharing s) = true
        <-> Forall (fun p => isAvailable p = true -> price_defined (price p))
              (productData s))
  /\ (forall (s : State) (b : bool) (current : Product),
        Forall (fun p => price_defined (price p)) (productData s) ->
        current_record s = Some current ->
        returns (updateProductData b s) = true
        /\ returns (formatProductDataForSharing s) = true).
Proof.
  split; [|split; [|split; [|split; [|split]]]].
  - intros data. apply fetchProductData_body.
  - intros item H. unfold load_item. cbn [price]. rewrite H.
    split; [reflexivity|]. split; [discriminate|]. intros x. discriminate.
  - cbv zeta. split; [reflexivity|].
    split; [vm_compute; reflexivity|].
    split; [vm_compute; reflexivity|].
    vm_compute; reflexivity.
  - intros s b current Hc. apply updateProductData_returns. exact Hc.
  - intros s. apply formatProductDataForSharing_returns.
  - intros s b current Hall Hc. split.
    + apply (updateProductData_returns b s current Hc).
      unfold current_record, index in Hc.
      destruct (slideIndex s <? 0)%Z; [discriminate|].
      rewrite Forall_lookup in Hall. apply (Hall _ _ Hc).
    + apply formatProductDataForSharing_returns.
      eapply Forall_impl; [exact Hall|]. intros p Hp _. exact Hp.
Qed.

Lemma missing_price_stays_undefined_witness :
  let s := loaded [pen_item; cup_item] in
  price (load_item whisk_item) = PUndefined
  /\ current_record s = Some pen
  /\ returns (updateProductData true s) = true
  /\ returns (formatProductDataForSharing s) = true.
Proof.
  cbv zeta. destruct missing_price_stays_undefined as (_ & H1 & _ & _ & _ & H2).
  split; [apply (H1 whisk_item); reflexivity|].
  assert (Hc : current_record (loaded [pen_item; cup_item]) = Some pen)
    by (vm_compute; reflexivity).
  split; [exact Hc|].
  apply (H2 (loaded [pen_item; cup_item]) true pen); [|exact Hc].
  destruct (fetchProductData_body [pen_item; cup_item]) as [-> _].
  repeat constructor; discriminate.
Defined.

(** C10, as stated, fails in both directions.  Prices that are all null or
    numbers do not make the change detector total: after four clicks on
    "next" while [data.json] is being fetched, a catalog of three records
    with such prices is loaded with the cursor on index 4, and the change
    detector raises.  And they are not needed: with a record that is not
    available and has no price, beside the pen at the cursor, the change
    detector and the export both return. *)
Lemma defined_prices_neither_suffice_nor_are_needed :
  (let s := run initial [ClickNext; ClickNext; ClickNext; ClickNext;
                         Loaded (Body [pen_item; cup_item; tray_item])] in
   productData s = map load_item [pen_item; cup_item; tray_item]
   /\ Forall (fun p => price_defined (price p)) (productData s)
   /\ slideIndex s = 4%Z
   /\ updateProductData false s
      = Throw (TypeError "Cannot read properties of undefined") s)
  /\ (let s := loaded [pen_item; spoon_item] in
      productData s = [pen; load_item spoon_item]
      /\ price (load_item spoon_item) = PUndefined
      /\ ~ Forall (fun p => price_defined (price p)) (productData s)
      /\ returns (updateProductData true s) = true
      /\ returns (updateProductData false s) = true
      /\ returns (formatProductDataForSharing s) = true).
Proof.
  split; cbv zeta.
  - split; [vm_compute; reflexivity|].
    split; [|split; vm_compute; reflexivity].
    assert (E : productData (run initial
                  [ClickNext; ClickNext; ClickNext; ClickNext;
                   Loaded (Body [pen_item; cup_item; tray_item])])
                = map load_item [pen_item; cup_item; tray_item])
      by (vm_compute; reflexivity).
    rewrite E. repeat constructor; discriminate.
  - assert (E : productData (loaded [pen_item; spoon_item]) = [pen; load_item spoon_item])
      by (vm_compute; reflexivity).
    split; [exact E|]. split; [reflexivity|].
    split; [|split; [|split]]; try (vm_compute; reflexivity).
    rewrite E. intros H. inversion H as [|? ? _ H2]; subst.
    inversion H2 as [|? ? H3 _]; subst. apply H3. reflexivity.
Qed.

End Loading.

(** ** Flushing before navigation and export *)

Section Flush.
Local Open Scope list_scope.





End Flush.

(** ** Stale image loads *)

Section StaleLoads.
Local Open Scope list_scope.




















End StaleLoads.

Section StaleLoadsClaim.
Local Open Scope list_scope.







End StaleLoadsClaim.

(** ** What the handlers leave alone *)

Section Frames.
Local Open Scope list_scope.

Lemma commit_page (b : bool) (i : Z) (u : Product) (s : State) :
  without_status (dom (state_of (commit b i u s))) = without_status (dom s).
Proof. destruct s as [data c d pr tm tr], d, b; reflexivity. Qed.

(** The change detector changes the page in its status line only, and the
    catalog at the cursor only. *)
Lemma updateProductData_effect (b : bool) (s : State) :
  let s' := state_of (updateProductData b s) in
  slideIndex s' = slideIndex s
  /\ promises s' = promises s
  /\ without_status (dom s') = without_status (dom s)
  /\ (productData s' = productData s
      \/ exists current,
           current_record s = Some current
           /\ price_defined (price current)
           /\ pending_edit s current <> current
           /\ productData s'
              = <[Z.to_nat (slideIndex s) := pending_edit s current]> (productData s)).
Proof.
  cbv zeta. destruct (updateProductData_cases b s) as [->|(current & Hc & Hd & Hne & Hu)].
  - repeat split. left. reflexivity.
  - rewrite Hu. pose proof (commit_page b (slideIndex s) (pending_edit s current) s) as Hpage.
    destruct (commit_result b (slideIndex s) (pending_edit s current) s)
      as (s' & Hs & Hdata & Hi & Hpr & _).
    rewrite Hs in *. cbn [state_of] in *.
    repeat split; try assumption. right. exists current. repeat split; assumption.
Qed.

Lemma showSlide_data (n : Z) (s : State) :
  productData (state_of (showSlide n s)) = productData s.
Proof.
  destruct s as [data c d pr tm tr]. destruct d.
  unfold showSlide, bind, gets, when, modify, modify_dom, ret.
  cbn [productData slideIndex dom promises timers trace with_slideIndex].
  destruct (length data =? 0)%nat; [reflexivity|].
  destruct (Z.of_nat (length data) <=? n)%Z, (n <? 0)%Z;
    cbn [productData slideIndex dom promises timers trace with_slideIndex with_dom];
    match goal with
    | |- context [index ?l ?i] => destruct (index l i) as [product|]
    end; reflexivity.
Qed.

Lemma seek_data (n : Z) (s : State) :
  productData (state_of (seek n s)) = productData s.
Proof.
  change (seek n s) with (showSlide (slideIndex s + n) (with_slideIndex (slideIndex s + n) s)).
  rewrite showSlide_data. reflexivity.
Qed.

Lemma apply_edit_effect (e : edit) (s : State) :
  exists s1,
    apply_edit e s = Return tt s1
    /\ productData s1 = productData s
    /\ slideIndex s1 = slideIndex s
    /\ promises s1 = promises s
    /\ timers s1 = timers s
    /\ trace s1 = trace s.
Proof.
  destruct s as [data c d pr tm tr], d, e; eexists; (split; [reflexivity|]); repeat split.
Qed.

(** An event of the session changes the catalog by at most one write, of a
    pending edit, at the cursor. *)
Lemma step_catalog (s : State) (ev : event) :
  user_event ev = true ->
  productData (step s ev) = productData s
  \/ exists current t,
       current_record s = Some current
       /\ productData (step s ev)
          = <[Z.to_nat (slideIndex s) := pending_edit t current]> (productData s).
Proof.
  intros Hu. unfold step.
  assert (Hflush : forall b,
    productData (state_of (updateProductData b s)) = productData s
    \/ exists current t,
         current_record s = Some current
         /\ productData (state_of (updateProductData b s))
            = <[Z.to_nat (slideIndex s) := pending_edit t current]> (productData s)).
  { intros b. destruct (updateProductData_effect b s) as (_ & _ & _ & [H|(c & Hc & _ & _ & H)]).
    - left. exact H.
    - right. exists c, s. split; assumption. }
  destruct ev as [r| | | |ok|e| | |k]; cbn [handle]; try discriminate Hu.
  - unfold navigateSlide, bind. specialize (Hflush false).
    destruct (updateProductData false s) as [[] s1|e s1]; cbn [state_of] in *;
      [rewrite seek_data|]; exact Hflush.
  - unfold navigateSlide, bind. specialize (Hflush false).
    destruct (updateProductData false s) as [[] s1|e s1]; cbn [state_of] in *;
      [rewrite seek_data|]; exact Hflush.
  - unfold copyDataToClipboard, bind. specialize (Hflush false).
    destruct (updateProductData false s) as [[] s1|e s1]; cbn [state_of] in *;
      [|exact Hflush].
    unfold formatProductDataForSharing, bind, gets.
    destruct (format_catalog (productData s1)); exact Hflush.
  - left. destruct s as [data c d pr tm tr], d, ok; reflexivity.
  - destruct (apply_edit_effect e s) as (s1 & Hs & Hd & Hi & _).
    unfold bind. rewrite Hs.
    destruct (updateProductData_effect true s1) as (_ & _ & _ & [H|(c & Hc & _ & _ & H)]).
    + left. rewrite H. exact Hd.
    + right. exists c, s1. unfold current_record in *. rewrite Hd, Hi in *.
      split; assumption.
  - left. destruct s as [data c d pr tm tr], d. unfold bind, gets. cbn [dom productImage_onload].
    destruct productImage_onload0 as [[g|g]|]; unfold call_handler, settle, bind, gets;
      cbn [promises]; try reflexivity; destruct (pr !! g) as [[| |]|]; reflexivity.
  - left. destruct s as [data c d pr tm tr], d. unfold bind, gets. cbn [dom productImage_onerror].
    destruct productImage_onerror0 as [[g|g]|]; unfold call_handler, settle, bind, gets;
      cbn [promises]; try reflexivity; destruct (pr !! g) as [[| |]|]; reflexivity.
  - left. destruct s as [data c d pr tm tr], d. unfold bind, gets. cbn [timers].
    destruct (tm !! k); reflexivity.
Qed.

End Frames.

(** ** Invariants of a session *)

Section SessionInvariants.
Local Open Scope list_scope.

Lemma run_app (s : State) (evs evs' : list event) :
  run s (evs ++ evs') = run (run s evs) evs'.
Proof. unfold run. apply fold_left_app. Qed.

Lemma run_invariant (P : State -> Prop) :
  (forall s ev, user_event ev = true -> P s -> P (step s ev)) ->
  forall evs s, forallb user_event evs = true -> P s -> P (run s evs).
Proof.
  intros Hstep evs. induction evs as [|ev evs IH]; intros s Hu Hs; [exact Hs|].
  cbn [forallb] in Hu. apply andb_true_iff in Hu. destruct Hu as [Hev Hu].
  cbn [run fold_left]. apply IH; [exact Hu|]. apply Hstep; assumption.
Qed.

Lemma pending_edit_identity (t : State) (current : Product) :
  identity (pending_edit t current) = identity current.
Proof. reflexivity. Qed.

Lemma step_identity (s : State) (ev : event) :
  user_event ev = true ->
  map identity (productData (step s ev)) = map identity (productData s).
Proof.
  intros Hu. destruct (step_catalog s ev Hu) as [->|(current & t & Hc & ->)]; [reflexivity|].
  change (map identity ?l) with (identity <$> l).
  rewrite list_fmap_insert, pending_edit_identity.
  apply list_insert_id. rewrite list_lookup_fmap.
  unfold current_record, index in Hc. destruct (slideIndex s <? 0)%Z; [discriminate|].
  rewrite Hc. reflexivity.
Qed.

(** X1. Whatever the user and the browser do after the data arrived, the
    catalog keeps its records: their number, their order and the id, title
    and image of each never change; only price, availability and note are
    ever written. *)
Theorem catalog_identity_kept (s : State) (evs : list event) :
  forallb user_event evs = true ->
  map identity (productData (run s evs)) = map identity (productData s)
  /\ length (productData (run s evs)) = length (productData s).
Proof.
  intros Hu.
  assert (H : map identity (productData (run s evs)) = map identity (productData s)).
  { apply (run_invariant
             (fun t => map identity (productData t) = map identity (productData s)));
      [|exact Hu|reflexivity].
    intros t ev Hev Ht. rewrite step_identity; assumption. }
  split; [exact H|]. apply (f_equal (@length _)) in H.
  rewrite !length_map in H. exact H.
Qed.

Lemma catalog_identity_kept_witness :
  let s := loaded [pen_item; cup_item; tray_item] in
  let evs := [Input (TypePrice "99"); ClickNext; Input (ToggleNotAvailable false);
              ImageError; ClickCopy; ClickPrev] in
  map title (productData (run s evs)) = ["Pen"; "Cup"; "Tray"]%string
  /\ map identity (productData (run s evs)) = map identity (productData s).
Proof.
  cbv zeta. split; [vm_compute; reflexivity|].
  apply catalog_identity_kept. reflexivity.
Defined.

(** X2. An event writes to no record but the one at the cursor: every
    other index of the catalog reads the same before and after. *)
Theorem only_the_current_record_is_written (s : State) (ev : event) (j : Z) :
  user_event ev = true ->
  j <> slideIndex s ->
  index (productData (step s ev)) j = index (productData s) j.
Proof.
  intros Hu Hj. destruct (step_catalog s ev Hu) as [->|(current & t & Hc & ->)]; [reflexivity|].
  apply index_range in Hc. unfold index.
  destruct (j <? 0)%Z eqn:E; [reflexivity|]. apply Z.ltb_ge in E.
  apply list_lookup_insert_ne. lia.
Qed.

Lemma only_the_current_record_is_written_witness :
  let s := edited_pen in
  slideIndex s = 0%Z
  /\ index (productData (step s ClickNext)) 0 <> index (productData s) 0
  /\ index (productData (step s ClickNext)) 1 = index (productData s) 1.
Proof.
  cbv zeta. split; [reflexivity|]. split; [vm_compute; discriminate|].
  apply only_the_current_record_is_written; [reflexivity | vm_compute; discriminate].
Defined.

Lemma step_length (s : State) (ev : event) :
  user_event ev = true ->
  length (productData (step s ev)) = length (productData s).
Proof.
  intros Hu. destruct (step_catalog s ev Hu) as [->|(current & t & Hc & ->)]; [reflexivity|].
  apply length_insert.
Qed.

Lemma step_prices_defined (s : State) (ev : event) :
  user_event ev = true -> prices_defined s -> prices_defined (step s ev).
Proof.
  intros Hu Hp. unfold prices_defined in *.
  destruct (step_catalog s ev Hu) as [->|(current & t & Hc & ->)]; [exact Hp|].
  apply Forall_insert; [exact Hp|]. apply new_price_defined.
Qed.

(** The events that are no navigation leave the cursor. *)
Lemma step_cursor_kept (s : State) (ev : event) :
  user_event ev = true ->
  ev <> ClickPrev -> ev <> ClickNext ->
  slideIndex (step s ev) = slideIndex s.
Proof.
  intros Hu Hp Hn. unfold step.
  destruct ev as [r| | | |ok|e| | |k]; cbn [handle];
    try discriminate Hu; try contradiction.
  - unfold copyDataToClipboard, bind.
    destruct (updateProductData_effect false s) as (Hi & _).
    destruct (updateProductData false s) as [[] s1|e s1]; cbn [state_of] in *;
      [|exact Hi].
    unfold formatProductDataForSharing, bind, gets.
    destruct (format_catalog (productData s1)); exact Hi.
  - destruct s as [data c d pr tm tr], d, ok; reflexivity.
  - destruct (apply_edit_effect e s) as (s1 & Hs & _ & Hi & _).
    unfold bind. rewrite Hs.
    destruct (updateProductData_effect true s1) as (Hi' & _). congruence.
  - destruct s as [data c d pr tm tr], d. unfold bind, gets. cbn [dom productImage_onload].
    destruct productImage_onload0 as [[g|g]|]; unfold call_handler, settle, bind, gets;
      cbn [promises]; try reflexivity; destruct (pr !! g) as [[| |]|]; reflexivity.
  - destruct s as [data c d pr tm tr], d. unfold bind, gets. cbn [dom productImage_onerror].
    destruct productImage_onerror0 as [[g|g]|]; unfold call_handler, settle, bind, gets;
      cbn [promises]; try reflexivity; destruct (pr !! g) as [[| |]|]; reflexivity.
  - destruct s as [data c d pr tm tr], d. unfold bind, gets. cbn [timers].
    destruct (tm !! k); reflexivity.
Qed.

(** A navigation click that is not stopped by the flush moves the cursor by
    one wrap step; one that is stopped leaves the state. *)
Lemma navigate_cursor_cases (n : Z) (s : State) :
  state_of (navigateSlide n s) = s
  \/ (productData s = [] /\ productData (state_of (navigateSlide n s)) = [])
  \/ (productData s <> []
      /\ slideIndex (state_of (navigateSlide n s))
         = wrap_once (Z.of_nat (length (productData s))) (slideIndex s + n)).
Proof.
  destruct (returns (updateProductData false s)) eqn:Hr.
  - destruct (productData s) as [|p l] eqn:E.
    + right. left. split; [reflexivity|].
      rewrite (navigateSlide_empty n s E). cbn. exact E.
    + right. right. split; [discriminate|]. rewrite <- E.
      apply navigateSlide_cursor; [rewrite E; discriminate | exact Hr].
  - left. unfold navigateSlide, bind.
    destruct (updateProductData_cases false s) as [H|(c & _ & _ & _ & Hu)].
    + destruct (updateProductData false s) as [[] s1|e s1]; [discriminate | exact H].
    + rewrite Hu in Hr.
      destruct (commit_result false (slideIndex s) (pending_edit s c) s) as (s' & Hs & _).
      rewrite Hs in Hr. discriminate.
Qed.

Lemma step_cursor_valid (s : State) (ev : event) :
  user_event ev = true -> cursor_valid s -> cursor_valid (step s ev).
Proof.
  intros Hu Hv. pose proof (step_length s ev Hu) as Hl.
  assert (Hnav : forall n, step s ev = state_of (navigateSlide n s) -> cursor_valid (step s ev)).
  { intros n E. rewrite E in *.
    destruct (navigate_cursor_cases n s) as [->|[[_ He]|[Hne Hi]]]; [exact Hv| |].
    - intros Hne. contradiction.
    - intros _. rewrite Hi, Hl. apply wrap_once_range.
      destruct (productData s); [contradiction | simpl; lia]. }
  destruct ev as [r| | | |ok|e| | |k]; try discriminate Hu;
    try (apply (Hnav (-1)%Z); reflexivity); try (apply (Hnav 1%Z); reflexivity);
    (intros Hne; rewrite step_cursor_kept, Hl by (reflexivity || discriminate);
     apply Hv; intros E; apply Hne; apply length_zero_iff_nil;
     rewrite Hl, E; reflexivity).
Qed.

Lemma loaded_cursor_valid (r : fetched) : cursor_valid (step initial (Loaded r)).
Proof.
  destruct r as [| | |data]; try (intros H; exfalso; apply H; reflexivity).
  change (step initial (Loaded (Body data))) with (loaded data).
  destruct (fetchProductData_body data) as [Hd Hi]. intros Hne.
  rewrite Hi. destruct (productData (loaded data)); [contradiction | simpl; lia].
Qed.

(** X3. In every session the cursor is on a record whenever the catalog has
    one: after the data arrived, no sequence of clicks, edits, image events
    and timers takes [slideIndex] out of [0, length). *)
Theorem cursor_stays_on_a_record (r : fetched) (evs : list event) :
  forallb user_event evs = true -> cursor_valid (session r evs).
Proof.
  intros Hu. unfold session.
  apply (run_invariant cursor_valid); [apply step_cursor_valid | exact Hu |].
  apply loaded_cursor_valid.
Qed.

Lemma cursor_stays_on_a_record_witness :
  let evs := [ClickPrev; ClickPrev; Input (TypeNote "x"); ClickNext; ClickNext; ClickNext] in
  slideIndex (session (Body [pen_item; cup_item; tray_item]) evs) = 1%Z
  /\ cursor_valid (session (Body [pen_item; cup_item; tray_item]) evs).
Proof.
  cbv zeta. split; [vm_compute; reflexivity|].
  apply cursor_stays_on_a_record. reflexivity.
Defined.

End SessionInvariants.

(** ** When the script raises *)

Section Raising.
Local Open Scope list_scope.

(** X4. The change detector raises exactly when the catalog has records
    and either the cursor is on none of them or the record at the cursor has
    no price entry; and when it raises, it has changed nothing. *)
Theorem change_detector_raises_iff (s : State) (b : bool) :
  (returns (updateProductData b s) = false
   <-> productData s <> []
       /\ (current_record s = None
           \/ exists current,
                current_record s = Some current /\ price current = PUndefined))
  /\ (returns (updateProductData b s) = false ->
      updateProductData b s = Throw (TypeError "Cannot read properties of undefined") s).
Proof.
  assert (H : (returns (updateProductData b s) = true
               /\ (productData s = []
                   \/ exists current,
                        current_record s = Some current /\ price_defined (price current)))
              \/ (updateProductData b s
                  = Throw (TypeError "Cannot read properties of undefined") s
                  /\ productData s <> []
                  /\ (current_record s = None
                      \/ exists current,
                           current_record s = Some current /\ price current = PUndefined))).
  { destruct (productData s) as [|p0 l0] eqn:E.
    - left. rewrite updateProductData_empty by assumption. split; [reflexivity | left; reflexivity].
    - assert (Hne : productData s <> []) by (rewrite E; discriminate). rewrite <- E.
      destruct (current_record s) as [current|] eqn:Hc.
      + destruct (price current) as [| |x] eqn:Hp.
        * right. rewrite (updateProductData_undefined b s current Hc Hp).
          split; [reflexivity|]. split; [exact Hne|]. right. exists current. split; [reflexivity | exact Hp].
        * left. assert (Hd : price_defined (price current)) by (rewrite Hp; discriminate).
          split; [|right; exists current; split; [reflexivity | exact Hd]].
          rewrite (updateProductData_defined b s current Hc Hd).
          destruct (_ || _ || _)%bool; [|reflexivity].
          destruct (commit_result b (slideIndex s) (pending_edit s current) s) as (s' & -> & _).
          reflexivity.
        * left. assert (Hd : price_defined (price current)) by (rewrite Hp; discriminate).
          split; [|right; exists current; split; [reflexivity | exact Hd]].
          rewrite (updateProductData_defined b s current Hc Hd).
          destruct (_ || _ || _)%bool; [|reflexivity].
          destruct (commit_result b (slideIndex s) (pending_edit s current) s) as (s' & -> & _).
          reflexivity.
      + right. rewrite (updateProductData_no_record b s Hne Hc).
        split; [reflexivity|]. split; [exact Hne|]. left. reflexivity. }
  split; [split|].
  - intros Hr. destruct H as [[Ht _]|(_ & Hne & Hc)]; [congruence | split; assumption].
  - intros [Hne Hc]. destruct H as [[_ [He|(c & Hc' & Hd)]]|(-> & _)]; [contradiction| |reflexivity].
    destruct Hc as [Hn|(c' & Hc'' & Hp)]; [congruence|].
    rewrite Hc' in Hc''. injection Hc'' as ->. contradiction.
  - intros Hr. destruct H as [[Ht _]|(Hthrow & _)]; [congruence | exact Hthrow].
Qed.

(** X5. The export raises exactly when some record that is available has
    no price entry (a record marked not available may lack one); it raises
    a TypeError and leaves the state. *)
Theorem export_raises_iff (s : State) :
  (returns (formatProductDataForSharing s) = true
   <-> Forall (fun p => isAvailable p = true -> price_defined (price p)) (productData s))
  /\ state_of (formatProductDataForSharing s) = s.
Proof.
  unfold formatProductDataForSharing, bind, gets, format_catalog.
  pose proof (map_from_returns (productData s) 0%nat) as H.
  destruct (map_from 0 (productData s)) as [e|lines]; cbn [returns state_of throw ret].
  - split; [|reflexivity]. split; [discriminate|].
    intros Hall. destruct (proj2 H Hall) as [ls Hls]. discriminate.
  - split; [|reflexivity]. split; [|reflexivity].
    intros _. apply H. eexists. reflexivity.
Qed.

Lemma flush_returns (b : bool) (s : State) :
  prices_defined s -> cursor_valid s -> returns (updateProductData b s) = true.
Proof.
  intros Hp Hv. destruct (returns (updateProductData b s)) eqn:Hr; [reflexivity|].
  exfalso.
  destruct (Nat.eq_dec (length (productData s)) 0) as [E|E].
  { apply length_zero_iff_nil in E.
    rewrite updateProductData_empty in Hr by assumption. discriminate. }
  assert (Hne : productData s <> []).
  { intros E'. apply E. rewrite E'. reflexivity. }
  destruct (index_Some (productData s) (slideIndex s) (Hv Hne)) as [current Hc].
  assert (Hd : price_defined (price current)).
  { unfold prices_defined in Hp. unfold index in Hc.
    destruct (slideIndex s <? 0)%Z; [discriminate|].
    rewrite Forall_lookup in Hp. apply (Hp _ _ Hc). }
  rewrite (updateProductData_defined b s current Hc Hd) in Hr.
  destruct (_ || _ || _)%bool; [|discriminate].
  destruct (commit_result b (slideIndex s) (pending_edit s current) s) as (s' & Hs & _).
  rewrite Hs in Hr. discriminate.
Qed.

End Raising.

(** ** Paging through the catalog *)

Section Paging.
Local Open Scope list_scope.
Local Open Scope Z_scope.

Lemma click_cursor (ev : event) (n : Z) (s : State) :
  handle ev = navigateSlide n ->
  user_event ev = true ->
  productData s <> [] -> prices_defined s -> cursor_valid s ->
  slideIndex (step s ev)
  = wrap_once (Z.of_nat (length (productData s))) (slideIndex s + n).
Proof.
  intros Hh Hu Hne Hp Hv. unfold step. rewrite Hh.
  apply navigateSlide_cursor; [exact Hne | apply flush_returns; assumption].
Qed.

Lemma wrap_once_mod (len c n : Z) :
  0 <= c < len -> -1 <= n <= 1 -> wrap_once len (c + n) = (c + n) mod len.
Proof.
  intros Hc Hn. unfold wrap_once.
  destruct (Z.leb_spec len (c + n)) as [H1|H1].
  - assert (c + n = len) by lia. rewrite H. symmetry. apply Z_mod_same_full.
  - destruct (Z.ltb_spec (c + n) 0) as [H2|H2].
    + apply (Z.mod_unique (c + n) len (-1) (len - 1)); lia.
    + symmetry. apply Z.mod_small. lia.
Qed.

Lemma clicks_cursor (ev : event) (n : Z) :
  handle ev = navigateSlide n -> user_event ev = true -> -1 <= n <= 1 ->
  forall (k : nat) (s : State),
    productData s <> [] -> prices_defined s -> cursor_valid s ->
    slideIndex (run s (repeat ev k))
    = (slideIndex s + Z.of_nat k * n) mod Z.of_nat (length (productData s)).
Proof.
  intros Hh Hu Hn. induction k as [|k IH]; intros s Hne Hp Hv.
  - cbn [repeat run fold_left]. rewrite Z.mul_0_l, Z.add_0_r.
    symmetry. apply Z.mod_small. apply Hv. exact Hne.
  - cbn [repeat run fold_left]. fold (run (step s ev) (repeat ev k)).
    pose proof (step_length s ev Hu) as Hl.
    assert (Hne' : productData (step s ev) <> []).
    { intros E. apply Hne. apply length_zero_iff_nil. rewrite <- Hl, E. reflexivity. }
    rewrite IH; [|exact Hne' | apply step_prices_defined; assumption
                 | apply step_cursor_valid; assumption].
    rewrite Hl, (click_cursor ev n s Hh Hu Hne Hp Hv).
    rewrite wrap_once_mod by (auto using Hv).
    rewrite Z.add_mod_idemp_l by (destruct (productData s); [contradiction | simpl; lia]).
    f_equal. lia.
Qed.

(** X6. Paging is cyclic.  In a catalog of L >= 1 records whose prices are
    all null or numbers, with the cursor on a record, k clicks on "next"
    leave the cursor at (Cursor + k) mod L and k clicks on "previous" at
    (Cursor - k) mod L, whatever the widgets hold; so L clicks either way
    come back to the record they started from. *)
Theorem paging_is_cyclic (s : State) (k : nat) :
  productData s <> [] -> prices_defined s -> cursor_valid s ->
  let len := Z.of_nat (length (productData s)) in
  slideIndex (run s (repeat ClickNext k)) = (slideIndex s + Z.of_nat k) mod len
  /\ slideIndex (run s (repeat ClickPrev k)) = (slideIndex s - Z.of_nat k) mod len
  /\ slideIndex (run s (repeat ClickNext (length (productData s)))) = slideIndex s
  /\ slideIndex (run s (repeat ClickPrev (length (productData s)))) = slideIndex s.
Proof.
  intros Hne Hp Hv len.
  assert (Hlen : 0 < len) by (subst len; destruct (productData s); [contradiction | simpl; lia]).
  pose proof (Hv Hne) as Hc. fold len in Hc.
  assert (Hnext : forall j, slideIndex (run s (repeat ClickNext j))
                            = (slideIndex s + Z.of_nat j) mod len).
  { intros j. rewrite (clicks_cursor ClickNext 1) by (reflexivity || lia || assumption).
    fold len. f_equal. lia. }
  assert (Hprev : forall j, slideIndex (run s (repeat ClickPrev j))
                            = (slideIndex s - Z.of_nat j) mod len).
  { intros j. rewrite (clicks_cursor ClickPrev (-1)) by (reflexivity || lia || assumption).
    fold len. f_equal. lia. }
  split; [apply Hnext|]. split; [apply Hprev|]. split.
  - rewrite Hnext. fold len.
    rewrite <- (Z.mul_1_l len) at 1. rewrite Z.mod_add by lia. apply Z.mod_small. exact Hc.
  - rewrite Hprev. fold len.
    replace (slideIndex s - len) with (slideIndex s + (-1) * len) by lia.
    rewrite Z.mod_add by lia. apply Z.mod_small. exact Hc.
Qed.

Lemma paging_is_cyclic_witness :
  let s := edited_pen in
  slideIndex (run s (repeat ClickNext 5)) = 1
  /\ slideIndex (run s (repeat ClickPrev 2)) = slideIndex s.
Proof.
  cbv zeta.
  assert (Hne : productData edited_pen <> []) by (vm_compute; discriminate).
  assert (Hp : prices_defined edited_pen) by (repeat constructor; discriminate).
  assert (Hv : cursor_valid edited_pen) by (intros _; vm_compute; split; [discriminate | reflexivity]).
  destruct (paging_is_cyclic edited_pen 5 Hne Hp Hv) as (H1 & _ & _ & H4).
  split; [rewrite H1; reflexivity | exact H4].
Defined.

End Paging.

(** ** What a slide shows, and reading it back *)

Section Display.
Import JS JSFacts Binary64Facts.
Local Open Scope list_scope.

Lemma change_detector_raises_iff_witness :
  let s := loaded [whisk_item; pen_item] in
  returns (updateProductData true s) = false
  /\ updateProductData true s = Throw (TypeError "Cannot read properties of undefined") s.
Proof.
  cbv zeta. destruct (change_detector_raises_iff (loaded [whisk_item; pen_item]) true)
    as [_ H].
  assert (Hr : returns (updateProductData true (loaded [whisk_item; pen_item])) = false)
    by (vm_compute; reflexivity).
  split; [exact Hr | exact (H Hr)].
Defined.

(** The text the price field is given reads back as the price, unless the
    record has no price entry. *)
Lemma new_price_of_widget_text (p : price_val) :
  price_defined p -> new_price (price_widget_text p) = p.
Proof.
  destruct p as [| |x]; [contradiction | reflexivity |]. intros _.
  unfold new_price, price_widget_text.
  destruct (String.eqb_spec (number_toString x) EmptyString) as [E|_].
  - apply number_toString_nonempty in E. contradiction.
  - rewrite parseFloat_toString. reflexivity.
Qed.

(** What [showSlide] writes to the page. *)
Lemma showSlide_page (n : Z) (s : State) (product : Product) :
  productData s <> [] ->
  let len := Z.of_nat (length (productData s)) in
  let i := if (n <? 0)%Z then (len - 1)%Z
           else if (len <=? n)%Z then 0%Z else slideIndex s in
  index (productData s) i = Some product ->
  exists s',
    showSlide n s = Return tt s'
    /\ slideIndex s' = i
    /\ productTitle_textContent (dom s') = title product
    /\ slideIndex_textContent (dom s')
       = ("Product " ++ int_toString (i + 1) ++ " of " ++ int_toString len)%string
    /\ statusMessage_textContent (dom s') = EmptyString
    /\ productImage_opacity (dom s') = productImage_opacity (dom s)
    /\ statusMessage_color (dom s') = statusMessage_color (dom s).
Proof.
  intros Hne len i Hi.
  assert (Hl : (length (productData s) =? 0)%nat = false).
  { apply Nat.eqb_neq. intros E. apply length_zero_iff_nil in E. contradiction. }
  destruct s as [data c d pr tm tr]. destruct d.
  cbn [productData slideIndex promises timers trace dom] in *.
  unfold showSlide, bind, gets. cbn [productData]. rewrite Hl.
  fold len. subst i.
  destruct (Z.ltb_spec n 0) as [Hn|Hn].
  - destruct (Z.leb_spec len n) as [Hn'|Hn'].
    + cbn. rewrite Hi. cbn. eexists. split; [reflexivity|].
      cbn. repeat split; reflexivity.
    + cbn. rewrite Hi. cbn. eexists. split; [reflexivity|].
      cbn. repeat split; reflexivity.
  - destruct (Z.leb_spec len n) as [Hn'|Hn'].
    + cbn. rewrite Hi. cbn. eexists. split; [reflexivity|].
      cbn. repeat split; reflexivity.
    + cbn. rewrite Hi. cbn. eexists. split; [reflexivity|].
      cbn. repeat split; reflexivity.
Qed.

End Display.

Section ReadingBack.
Import JS JSFacts Binary64Facts.
Local Open Scope list_scope.

Lemma drop_spaces_fixed (l : list ascii) :
  match l with
  | [] => True
  | c :: _ => is_space c = false
  end ->
  drop_spaces l = l.
Proof. destruct l as [|c l]; [reflexivity|]. simpl. intros ->. reflexivity. Qed.

Lemma drop_spaces_head (l : list ascii) :
  match drop_spaces l with
  | [] => True
  | c :: _ => is_space c = false
  end.
Proof.
  induction l as [|c l IH]; [exact I|]. simpl.
  destruct (is_space c) eqn:E; [exact IH | exact E].
Qed.

Lemma drop_spaces_suffix (l : list ascii) : exists pre, l = pre ++ drop_spaces l.
Proof.
  induction l as [|c l [pre IH]]; [exists []; reflexivity|]. simpl.
  destruct (is_space c).
  - exists (c :: pre). simpl. f_equal. exact IH.
  - exists []. reflexivity.
Qed.

Lemma trim_chars_idempotent (l : list ascii) :
  let t := rev (drop_spaces (rev (drop_spaces l))) in
  rev (drop_spaces (rev (drop_spaces t))) = t.
Proof.
  cbv zeta. set (a := drop_spaces l). set (b := drop_spaces (rev a)).
  assert (Hb : drop_spaces b = b) by (apply drop_spaces_fixed, drop_spaces_head).
  assert (Hr : drop_spaces (rev b) = rev b).
  { apply drop_spaces_fixed.
    destruct (drop_spaces_suffix (rev a)) as [pre Hpre]. fold b in Hpre.
    apply (f_equal (@rev _)) in Hpre. rewrite rev_involutive, rev_app_distr in Hpre.
    pose proof (drop_spaces_head l) as Ha. fold a in Ha.
    destruct (rev b) as [|c r]; [exact I|].
    rewrite Hpre in Ha. exact Ha. }
  rewrite Hr, rev_involutive, Hb. reflexivity.
Qed.

Lemma trim_idempotent (t : string) : trimmed (trim t).
Proof.
  unfold trimmed, trim. rewrite list_ascii_of_string_of_list_ascii.
  f_equal. apply trim_chars_idempotent.
Qed.

Lemma seek_page (n : Z) (s : State) :
  productData s <> [] ->
  let len := Z.of_nat (length (productData s)) in
  let i := wrap_once len (slideIndex s + n) in
  exists s' product,
    seek n s = Return tt s'
    /\ current_record s' = Some product
    /\ index (productData s) i = Some product
    /\ slideIndex s' = i
    /\ productData s' = productData s
    /\ productTitle_textContent (dom s') = title product
    /\ productPrice_value (dom s') = price_widget_text (price product)
    /\ notAvailable_checked (dom s') = negb (isAvailable product)
    /\ additionalNote_value (dom s') = note product
    /\ slideIndex_textContent (dom s')
       = ("Product " ++ int_toString (i + 1) ++ " of " ++ int_toString len)%string
    /\ statusMessage_textContent (dom s') = EmptyString
    /\ imageWrapper_loading (dom s') = true
    /\ productImage_src (dom s') = image product
    /\ productImage_alt (dom s') = title product.
Proof.
  intros Hne len i.
  destruct (seek_shows n s Hne)
    as (s' & product & Hs & Hidx & Hi & Hd & _ & _ & _ & Hsrc & Hload & Hpv & Hna & Hnv & _ & _ & Halt).
  fold len in Hidx, Hi. fold i in Hidx, Hi.
  set (s0 := with_slideIndex (slideIndex s + n)%Z s).
  assert (Hi0 : index (productData s0)
                  (if (slideIndex s + n <? 0)%Z then (Z.of_nat (length (productData s0)) - 1)%Z
                   else if (Z.of_nat (length (productData s0)) <=? slideIndex s + n)%Z
                        then 0%Z else slideIndex s0) = Some product).
  { cbn [s0 with_slideIndex productData slideIndex]. fold len.
    subst i. unfold wrap_once in Hidx.
    destruct (Z.ltb_spec (slideIndex s + n) 0) as [H0|H0];
      destruct (Z.leb_spec len (slideIndex s + n)) as [H1|H1];
      try exact Hidx.
    assert (0 < len)%Z by (subst len; destruct (productData s); [contradiction | simpl; lia]).
    lia. }
  destruct (showSlide_page (slideIndex s + n) s0 product Hne Hi0)
    as (t & Ht & Hti & Htitle & Hlabel & Hstatus & _).
  change (showSlide (slideIndex s + n) s0) with (seek n s) in Ht.
  rewrite Hs in Ht. injection Ht as <-.
  exists s', product. split; [exact Hs|].
  split; [unfold current_record; rewrite Hd, Hi; exact Hidx|].
  split; [exact Hidx|]. split; [exact Hi|]. split; [exact Hd|].
  split; [exact Htitle|]. split; [exact Hpv|]. split; [exact Hna|]. split; [exact Hnv|].
  split. { rewrite Hi in Hti. rewrite Hlabel, <- Hti. reflexivity. }
  split; [exact Hstatus|]. split; [exact Hload|]. split; [exact Hsrc | exact Halt].
Qed.

(** X7. What moving to a slide puts on the page.  In a catalog of L >= 1
    records the cursor lands on a record, and the page shows that record:
    its title, its price as text (nothing for a null or missing price), the
    "not available" box checked exactly when the record is not available,
    its note, the label [Product <cursor+1> of <L>] in decimal numerals, the
    image source and alternative text of the record, the loading indicator
    on and the status line empty; the catalog is as before. *)
Theorem slide_shows_the_record (s : State) (n : Z) :
  productData s <> [] ->
  (Z.of_nat (length (productData s)) < array_length_bound)%Z ->
  let s' := state_of (seek n s) in
  exists product,
    current_record s' = Some product
    /\ productData s' = productData s
    /\ productTitle_textContent (dom s') = title product
    /\ productPrice_value (dom s')
       = match price product with
         | PNum x => number_toString x
         | _ => EmptyString
         end
    /\ notAvailable_checked (dom s') = negb (isAvailable product)
    /\ additionalNote_value (dom s') = note product
    /\ slideIndex_textContent (dom s')
       = ("Product " ++ numeral (Z.to_N (slideIndex s' + 1)) ++ " of "
            ++ numeral (N.of_nat (length (productData s))))%string
    /\ productImage_src (dom s') = image product
    /\ productImage_alt (dom s') = title product
    /\ imageWrapper_loading (dom s') = true
    /\ statusMessage_textContent (dom s') = EmptyString.
Proof.
  intros Hne Hb. cbv zeta. unfold array_length_bound in Hb.
  destruct (seek_page n s Hne)
    as (s' & product & Hs & Hc & Hidx & Hi & Hd & Ht & Hpv & Hna & Hnv & Hl & Hst & Hld & Hsrc & Halt).
  rewrite Hs. cbn [state_of]. exists product.
  apply index_range in Hidx.
  repeat split; try assumption.
  rewrite Hl, Hi.
  set (i := wrap_once (Z.of_nat (length (productData s))) (slideIndex s + n)) in *.
  replace (i + 1)%Z with (Z.of_nat (Z.to_nat (i + 1))) at 1 by lia.
  rewrite !int_toString_numeral by lia.
  replace (N.of_nat (Z.to_nat (i + 1))) with (Z.to_N (i + 1)) by lia.
  reflexivity.
Qed.

Lemma slide_shows_the_record_witness :
  let s' := state_of (seek 1 (loaded [pen_item; cup_item; tray_item])) in
  current_record s' = Some cup
  /\ slideIndex_textContent (dom s') = "Product 2 of 3"%string
  /\ notAvailable_checked (dom s') = true.
Proof.
  cbv zeta.
  destruct (slide_shows_the_record (loaded [pen_item; cup_item; tray_item]) 1)
    as (p & Hc & _ & _ & _ & Hna & _ & Hl & _);
    [vm_compute; discriminate | vm_compute; reflexivity |].
  assert (E : current_record (state_of (seek 1 (loaded [pen_item; cup_item; tray_item])))
              = Some cup) by (vm_compute; reflexivity).
  split; [exact E|]. split; [rewrite Hl; vm_compute; reflexivity|].
  rewrite Hna. rewrite E in Hc. injection Hc as <-. reflexivity.
Defined.

(** X8. Reading a slide back.  Right after a slide is shown, the widgets
    hold the record itself, up to white space around the note: when the
    price of the record is null or a number, the pending edit is the record
    with its note trimmed.  So the change detector, in either mode, leaves
    the state when the note is already trimmed, and otherwise rewrites the
    record with the trimmed note although nothing was typed. *)
Theorem shown_record_reads_back (s : State) (n : Z) (b : bool) :
  productData s <> [] ->
  let s' := state_of (seek n s) in
  exists product,
    current_record s' = Some product
    /\ (price_defined (price product) ->
        pending_edit s' product = note_trimmed product
        /\ current_record (state_of (updateProductData b s')) = Some (note_trimmed product)
        /\ (trimmed (note product) -> updateProductData b s' = Return tt s')
        /\ (~ trimmed (note product) ->
            productData (state_of (updateProductData b s')) <> productData s')).
Proof.
  intros Hne. cbv zeta.
  destruct (seek_page n s Hne)
    as (s' & product & Hs & Hc & _ & _ & _ & _ & Hpv & Hna & Hnv & _).
  rewrite Hs. cbn [state_of]. exists product. split; [exact Hc|]. intros Hd.
  assert (Hpe : pending_edit s' product = note_trimmed product).
  { unfold pending_edit, assign_fields, note_trimmed.
    rewrite Hpv, Hna, Hnv, new_price_of_widget_text, negb_involutive by assumption.
    reflexivity. }
  assert (Hsame : trimmed (note product) -> note_trimmed product = product).
  { unfold trimmed, note_trimmed. intros ->. destruct product; reflexivity. }
  assert (Hdiff : ~ trimmed (note product) -> note_trimmed product <> product).
  { unfold trimmed. intros Hn E. apply Hn.
    apply (f_equal note) in E. exact E. }
  split; [exact Hpe|]. split; [|split].
  - destruct (string_dec (trim (note product)) (note product)) as [Ht|Ht].
    + rewrite (updateProductData_same b s' product Hc Hd) by (rewrite Hpe; apply Hsame, Ht).
      cbn [state_of]. rewrite (Hsame Ht). exact Hc.
    + rewrite (updateProductData_differs b s' product Hc Hd) by (rewrite Hpe; apply Hdiff, Ht).
      destruct (commit_result b (slideIndex s') (pending_edit s' product) s')
        as (t & Hcm & Hdata & Hi & _).
      rewrite Hcm. cbn [state_of]. unfold current_record. rewrite Hdata, Hi, <- Hpe.
      apply (index_insert _ _ product). exact Hc.
  - intros Ht. apply (updateProductData_same b s' product Hc Hd).
    rewrite Hpe. apply Hsame, Ht.
  - intros Ht. rewrite (updateProductData_differs b s' product Hc Hd)
      by (rewrite Hpe; apply Hdiff, Ht).
    apply (commit_changes_data b s' product _ Hc). rewrite Hpe. apply Hdiff, Ht.
Qed.

End ReadingBack.

Section ReadingBackWitness.
Import JS JSFacts Binary64Facts.
Local Open Scope list_scope.

Lemma shown_record_reads_back_witness :
  let s := loaded [ladle_item; pen_item] in
  let s' := state_of (seek 0 s) in
  current_record s' = Some (load_item ladle_item)
  /\ note (load_item ladle_item) = " long handle "%string
  /\ current_record (state_of (updateProductData false s'))
     = Some (note_trimmed (load_item ladle_item))
  /\ note (note_trimmed (load_item ladle_item)) = "long handle"%string.
Proof.
  cbv zeta.
  destruct (shown_record_reads_back (loaded [ladle_item; pen_item]) 0 false)
    as (p & Hc & H); [vm_compute; discriminate|].
  assert (E : current_record (state_of (seek 0 (loaded [ladle_item; pen_item])))
              = Some (load_item ladle_item)) by (vm_compute; reflexivity).
  rewrite E in Hc. injection Hc as <-.
  destruct H as (_ & H2 & _); [discriminate|].
  split; [exact E|]. split; [reflexivity|]. split; [exact H2 | vm_compute; reflexivity].
Defined.

(** X9. An input event writes through.  With a record at the cursor whose
    price is null or a number, after the user changed a widget and the
    [input] listener ran, the handler has returned, the widget holds what
    was entered, and the stored record is the record before with the three
    normalized widget values: its price is null when the price field is
    empty and otherwise the binary64 number the field parses to, it is
    available exactly when the box is not checked, and its note is the
    trimmed note field, so the stored note has no white space around it.
    Id, title and image are those of the record before, and no field of
    the stored record differs from the widgets any more. *)
Theorem input_writes_through (s : State) (e : edit) (current : Product) :
  current_record s = Some current ->
  price_defined (price current) ->
  let s' := step s (Input e) in
  returns (handle (Input e) s) = true
  /\ widget_holds e (dom s')
  /\ exists stored,
       current_record s' = Some stored
       /\ stored = spec_edit (dom s') current
       /\ identity stored = identity current
       /\ price stored = spec_price (productPrice_value (dom s'))
       /\ isAvailable stored = negb (notAvailable_checked (dom s'))
       /\ note stored = trim (additionalNote_value (dom s'))
       /\ trimmed (note stored)
       /\ ~ differs (dom s') stored.
Proof.
  intros Hc Hd. cbv zeta. unfold step. cbn [handle]. unfold bind.
  assert (He : exists s1,
             apply_edit e s = Return tt s1
             /\ productData s1 = productData s /\ slideIndex s1 = slideIndex s
             /\ widget_holds e (dom s1)).
  { destruct s as [data c d pr tm tr], d, e; eexists; (split; [reflexivity|]);
      repeat split. }
  destruct He as (s1 & Hs1 & Hd1 & Hi1 & Hw). rewrite Hs1.
  assert (Hc1 : current_record s1 = Some current)
    by (unfold current_record; rewrite Hd1, Hi1; exact Hc).
  assert (Hkeep : forall t,
            productPrice_value (dom t) = productPrice_value (dom s1) ->
            notAvailable_checked (dom t) = notAvailable_checked (dom s1) ->
            additionalNote_value (dom t) = additionalNote_value (dom s1) ->
            widget_holds e (dom t)).
  { intros t H1 H2 H3. destruct e; cbn [widget_holds] in *; congruence. }
  assert (Hfields : forall t,
            productPrice_value (dom t) = productPrice_value (dom s1) ->
            notAvailable_checked (dom t) = notAvailable_checked (dom s1) ->
            additionalNote_value (dom t) = additionalNote_value (dom s1) ->
            let stored := pending_edit s1 current in
            stored = spec_edit (dom t) current
            /\ identity stored = identity current
            /\ price stored = spec_price (productPrice_value (dom t))
            /\ isAvailable stored = negb (notAvailable_checked (dom t))
            /\ note stored = trim (additionalNote_value (dom t))
            /\ trimmed (note stored)
            /\ ~ differs (dom t) stored).
  { intros t H1 H2 H3. cbv zeta. rewrite pending_edit_spec.
    unfold spec_edit, differs, trimmed. cbn [price isAvailable note id title image].
    rewrite H1, H2, H3. repeat split; try apply trim_idempotent.
    intros [H|[H|H]]; apply H; first [reflexivity | apply trim_idempotent]. }
  pose proof (nothing_changed_iff s1 current Hd) as Hiff.
  rewrite (updateProductData_defined true s1 current Hc1 Hd).
  match type of Hiff with (?c = false <-> _) => destruct c end.
  - destruct (commit_result true (slideIndex s1) (pending_edit s1 current) s1)
      as (t & Ht & Hdata & Hi & _ & _ & Hpv & Hna & Hnv & _).
    rewrite Ht. cbn [state_of returns].
    split; [reflexivity|]. split; [apply Hkeep; assumption|].
    exists (pending_edit s1 current). split; [|apply Hfields; assumption].
    unfold current_record. rewrite Hdata, Hi. apply (index_insert _ _ current). exact Hc1.
  - cbn [state_of returns]. split; [reflexivity|]. split; [exact Hw|].
    exists (pending_edit s1 current). split; [|apply Hfields; reflexivity].
    destruct Hiff as [Hiff _]. rewrite (Hiff eq_refl). exact Hc1.
Qed.

Lemma input_writes_through_witness :
  let s := loaded [pen_item; cup_item] in
  let s' := step s (Input (TypePrice "1.00000000000000001")) in
  current_record s = Some pen
  /\ current_record s'
     = Some {| id := "1"; title := "Pen"; image := "pen.jpg";
               price := PNum (parseFloat "1"); isAvailable := true;
               note := note pen |}.
Proof.
  cbv zeta.
  assert (Hc : current_record (loaded [pen_item; cup_item]) = Some pen)
    by (vm_compute; reflexivity).
  assert (Hd : price_defined (price pen)) by (unfold price_defined; simpl; discriminate).
  destruct (input_writes_through _ (TypePrice "1.00000000000000001") pen Hc Hd)
    as (_ & _ & stored & Hs & He & _).
  split; [exact Hc|]. rewrite Hs, He. vm_compute. reflexivity.
Defined.

(** [showSlide] on a catalog with records and the cursor on none of them. *)
Lemma showSlide_off_catalog (n : Z) (s : State) :
  productData s <> [] ->
  let len := Z.of_nat (length (productData s)) in
  let i := if (n <? 0)%Z then (len - 1)%Z
           else if (len <=? n)%Z then 0%Z else slideIndex s in
  index (productData s) i = None ->
  showSlide n s
  = Throw (TypeError "Cannot read properties of undefined")
      (with_dom (set_imageWrapper_loading true (dom s)) (with_slideIndex i s)).
Proof.
  intros Hne len i Hi.
  assert (Hl : (length (productData s) =? 0)%nat = false).
  { apply Nat.eqb_neq. intros E. apply length_zero_iff_nil in E. contradiction. }
  destruct s as [data c d pr tm tr]. destruct d.
  cbn [productData slideIndex promises timers trace dom] in *.
  unfold showSlide, bind, gets. cbn [productData]. rewrite Hl.
  fold len. subst i.
  destruct (Z.ltb_spec n 0) as [Hn|Hn]; destruct (Z.leb_spec len n) as [Hn'|Hn'];
    cbn; rewrite Hi; reflexivity.
Qed.

(** X10. The argument of [showSlide] only wraps the cursor; it does not
    choose the slide.  For an index n inside [0, L), [showSlide(n)] leaves
    [slideIndex] as it is and shows the record at [slideIndex], whatever n
    is; and when [slideIndex] is on no record it turns the loading
    indicator on and then raises a TypeError, creating no promise. *)
Theorem showSlide_argument_only_wraps (s : State) (n : Z) :
  productData s <> [] ->
  (0 <= n < Z.of_nat (length (productData s)))%Z ->
  let s' := state_of (showSlide n s) in
  slideIndex s' = slideIndex s
  /\ (forall product,
        current_record s = Some product ->
        returns (showSlide n s) = true
        /\ productTitle_textContent (dom s') = title product
        /\ productImage_src (dom s') = image product)
  /\ (current_record s = None ->
      showSlide n s
      = Throw (TypeError "Cannot read properties of undefined")
          (with_dom (set_imageWrapper_loading true (dom s)) s)
      /\ promises s' = promises s).
Proof.
  intros Hne Hn. cbv zeta.
  assert (Ei : (if (n <? 0)%Z then (Z.of_nat (length (productData s)) - 1)%Z
                else if (Z.of_nat (length (productData s)) <=? n)%Z then 0%Z
                     else slideIndex s) = slideIndex s).
  { destruct (Z.ltb_spec n 0); [lia|].
    destruct (Z.leb_spec (Z.of_nat (length (productData s))) n); [lia | reflexivity]. }
  destruct (current_record s) as [product|] eqn:Hc.
  - unfold current_record in Hc.
    destruct (showSlide_page n s product Hne) as (t & Ht & Hi & Htitle & _);
      [rewrite Ei; exact Hc|].
    destruct (showSlide_shows n s product Hne) as (t' & Ht' & _ & _ & _ & _ & _ & Hsrc & _);
      [rewrite Ei; exact Hc|].
    rewrite Ht in Ht'. injection Ht' as <-.
    rewrite Ht. cbn [state_of returns]. rewrite Ei in Hi.
    split; [exact Hi|]. split; [|discriminate].
    intros p Hp. injection Hp as <-. repeat split; assumption.
  - unfold current_record in Hc.
    pose proof (showSlide_off_catalog n s Hne) as H. cbv zeta in H.
    rewrite Ei in H. specialize (H Hc).
    assert (Es : with_slideIndex (slideIndex s) s = s) by (destruct s; reflexivity).
    rewrite Es in H. rewrite H. cbn [state_of].
    split; [destruct s; reflexivity|]. split; [discriminate|].
    intros _. split; [reflexivity | destruct s; reflexivity].
Qed.

Lemma showSlide_argument_only_wraps_witness :
  let s := loaded [pen_item; cup_item; tray_item] in
  slideIndex s = 0%Z
  /\ productTitle_textContent (dom (state_of (showSlide 2 s))) = "Pen"%string.
Proof.
  cbv zeta.
  destruct (showSlide_argument_only_wraps (loaded [pen_item; cup_item; tray_item]) 2)
    as (_ & H & _);
    [vm_compute; discriminate | vm_compute; split; [discriminate | reflexivity] |].
  split; [reflexivity|].
  destruct (H pen) as (_ & Ht & _); [vm_compute; reflexivity | exact Ht].
Defined.

End ReadingBackWitness.

(** ** The image load *)

Section ImageLoad.
Local Open Scope list_scope.

(** What the first [load] or [error] event of a pending load does. *)
Lemma image_event_settles (g : nat) (s : State) :
  paired g s -> promises s !! g = Some Pending ->
  (exists s',
     handle ImageLoad s = Return tt s'
     /\ promises s' = <[g := Fulfilled]> (promises s)
     /\ dom s' = set_productImage_opacity "1" (set_imageWrapper_loading false (dom s))
     /\ productData s' = productData s /\ slideIndex s' = slideIndex s
     /\ timers s' = timers s /\ trace s' = trace s)
  /\ (exists s',
     handle ImageError s = Return tt s'
     /\ promises s' = <[g := Rejected]> (promises s)
     /\ dom s' = set_statusMessage_color "#1a4d8c"
                   (set_statusMessage_textContent "Image failed to load!"
                      (set_productImage_opacity "1"
                         (set_imageWrapper_loading false
                            (set_productImage_src fallback_image (dom s)))))
     /\ productData s' = productData s /\ slideIndex s' = slideIndex s
     /\ timers s' = timers s ++ [4000%Z]
     /\ trace s' = trace s ++ [ConsoleError "Image failed to load."]).
Proof.
  intros [Hl He] Hp. destruct s as [data c d pr tm tr], d.
  cbn [dom productImage_onload productImage_onerror promises] in *. subst.
  split; unfold handle, bind, gets, call_handler, settle;
    cbn [dom productImage_onload productImage_onerror promises]; unfold bind, gets;
    cbn [promises]; rewrite Hp; eexists; (split; [reflexivity|]); repeat split.
Qed.

(** An image event on a load that is no longer pending does nothing. *)
Lemma image_event_ignored (g : nat) (s : State) (ev : event) :
  paired g s -> promises s !! g <> Some Pending -> image_event ev = true ->
  handle ev s = Return tt s.
Proof.
  intros [Hl He] Hp Hev. destruct s as [data c d pr tm tr], d.
  cbn [dom productImage_onload productImage_onerror promises] in *. subst.
  destruct ev; try discriminate Hev;
    unfold handle, bind, gets, call_handler, settle;
    cbn [dom productImage_onload productImage_onerror promises]; unfold bind, gets;
    cbn [promises]; destruct (pr !! g) as [[| |]|]; try reflexivity; contradiction.
Qed.

(** X11. The image load goes from loading to loaded or to failed.  With
    both slots bound to a pending promise, a [load] event fulfils it, turns
    the loading indicator off and sets the opacity to 1, and changes nothing
    else (the image keeps its source, no status appears); an [error] event
    rejects it, puts the placeholder graphic in place of the image, turns
    the loading indicator off, sets the opacity to 1, shows
    [Image failed to load!] with a timer of 4000 ms and logs the error.
    Neither touches the catalog, the cursor or the form. *)
Theorem image_load_outcomes (g : nat) (s : State) :
  paired g s -> promises s !! g = Some Pending ->
  let ok := step s ImageLoad in
  let ko := step s ImageError in
  (promises ok !! g = Some Fulfilled
   /\ imageWrapper_loading (dom ok) = false
   /\ productImage_opacity (dom ok) = "1"%string
   /\ productImage_src (dom ok) = productImage_src (dom s)
   /\ statusMessage_textContent (dom ok) = statusMessage_textContent (dom s)
   /\ timers ok = timers s)
  /\ (promises ko !! g = Some Rejected
      /\ imageWrapper_loading (dom ko) = false
      /\ productImage_opacity (dom ko) = "1"%string
      /\ productImage_src (dom ko) = fallback_image
      /\ statusMessage_textContent (dom ko) = "Image failed to load!"%string
      /\ timers ko = timers s ++ [4000%Z]
      /\ trace ko = trace s ++ [ConsoleError "Image failed to load."])
  /\ (forall t, t = ok \/ t = ko ->
        productData t = productData s
        /\ slideIndex t = slideIndex s
        /\ productPrice_value (dom t) = productPrice_value (dom s)
        /\ notAvailable_checked (dom t) = notAvailable_checked (dom s)
        /\ additionalNote_value (dom t) = additionalNote_value (dom s)
        /\ productTitle_textContent (dom t) = productTitle_textContent (dom s)).
Proof.
  intros Hpair Hp. cbv zeta. unfold step.
  destruct (image_event_settles g s Hpair Hp)
    as [(s1 & H1 & Hp1 & Hd1 & Hdata1 & Hi1 & Htm1 & Htr1)
        (s2 & H2 & Hp2 & Hd2 & Hdata2 & Hi2 & Htm2 & Htr2)].
  rewrite H1, H2. cbn [state_of].
  assert (Hlt : (g < length (promises s))%nat) by (apply lookup_lt_Some in Hp; exact Hp).
  split; [|split].
  - rewrite Hp1, Hd1. split; [apply list_lookup_insert_eq; exact Hlt|].
    destruct (dom s). repeat split; assumption.
  - rewrite Hp2, Hd2. split; [apply list_lookup_insert_eq; exact Hlt|].
    destruct (dom s). repeat split; assumption.
  - intros t [->| ->]; [rewrite Hd1 | rewrite Hd2]; destruct (dom s); repeat split; assumption.
Qed.

Lemma image_load_outcomes_witness :
  let s := loaded [pen_item; cup_item] in
  paired 0 s
  /\ imageWrapper_loading (dom s) = true
  /\ imageWrapper_loading (dom (step s ImageLoad)) = false
  /\ productImage_src (dom (step s ImageError)) = fallback_image.
Proof.
  cbv zeta.
  assert (Hp : paired 0 (loaded [pen_item; cup_item])) by (split; reflexivity).
  destruct (image_load_outcomes 0 (loaded [pen_item; cup_item]) Hp eq_refl)
    as ((_ & H1 & _) & (_ & _ & _ & H2 & _) & _).
  split; [exact Hp|]. split; [reflexivity|]. split; [exact H1 | exact H2].
Defined.

(** X12. A load settles once.  With both slots bound to one promise, after
    a first [load] or [error] event any further [load] or [error] event
    changes nothing at all: a failed load stays failed when the placeholder
    then loads, and a loaded image stays loaded. *)
Theorem image_load_settles_once (g : nat) (s : State) (first second : event) :
  paired g s ->
  image_event first = true -> image_event second = true ->
  step (step s first) second = step s first.
Proof.
  intros Hpair H1 H2.
  assert (Hdone : forall t, paired g t -> promises t !! g <> Some Pending ->
                            step t second = t).
  { intros t Ht Hn. unfold step. rewrite (image_event_ignored g t second Ht Hn H2).
    reflexivity. }
  destruct (promises s !! g) as [[| |]|] eqn:Hp.
  - destruct (image_event_settles g s Hpair Hp)
      as [(s1 & E1 & Hp1 & Hd1 & _) (s2 & E2 & Hp2 & Hd2 & _)].
    assert (Hlt : (g < length (promises s))%nat) by (apply lookup_lt_Some in Hp; exact Hp).
    destruct Hpair as [Hl He].
    destruct first; try discriminate H1; unfold step at 2 3.
    + rewrite E1. cbn [state_of]. apply Hdone.
      * unfold paired. rewrite Hd1. destruct (dom s). split; assumption.
      * rewrite Hp1, list_lookup_insert_eq by exact Hlt. discriminate.
    + rewrite E2. cbn [state_of]. apply Hdone.
      * unfold paired. rewrite Hd2. destruct (dom s). split; assumption.
      * rewrite Hp2, list_lookup_insert_eq by exact Hlt. discriminate.
  - assert (E : step s first = s).
    { unfold step. rewrite (image_event_ignored g s first Hpair) by (congruence || assumption).
      reflexivity. }
    rewrite E. apply Hdone; [exact Hpair | congruence].
  - assert (E : step s first = s).
    { unfold step. rewrite (image_event_ignored g s first Hpair) by (congruence || assumption).
      reflexivity. }
    rewrite E. apply Hdone; [exact Hpair | congruence].
  - assert (E : step s first = s).
    { unfold step. rewrite (image_event_ignored g s first Hpair) by (congruence || assumption).
      reflexivity. }
    rewrite E. apply Hdone; [exact Hpair | congruence].
Qed.

Lemma image_load_settles_once_witness :
  let s := loaded [pen_item; cup_item] in
  productImage_src (dom (run s [ImageError; ImageLoad])) = fallback_image
  /\ promises (run s [ImageError; ImageLoad]) = [Rejected]
  /\ imageWrapper_loading (dom (run s [ImageLoad; ImageError])) = false
  /\ promises (run s [ImageLoad; ImageError]) = [Fulfilled].
Proof.
  cbv zeta.
  assert (Hp : paired 0 (loaded [pen_item; cup_item])) by (split; reflexivity).
  pose proof (image_load_settles_once 0 _ ImageError ImageLoad Hp eq_refl eq_refl) as H1.
  pose proof (image_load_settles_once 0 _ ImageLoad ImageError Hp eq_refl eq_refl) as H2.
  cbn [run fold_left]. rewrite H1, H2. repeat split.
Defined.

End ImageLoad.

Section Spinner.
Local Open Scope list_scope.

Lemma without_status_image (d d' : Dom) :
  without_status d' = without_status d ->
  imageWrapper_loading d' = imageWrapper_loading d
  /\ productImage_onload d' = productImage_onload d
  /\ productImage_onerror d' = productImage_onerror d
  /\ productTitle_textContent d' = productTitle_textContent d.
Proof. destruct d, d'. cbn. intros H. injection H as -> -> -> -> -> -> -> -> -> -> ->. repeat split. Qed.

Lemma updateProductData_image (b : bool) (s : State) :
  let s' := state_of (updateProductData b s) in
  promises s' = promises s
  /\ imageWrapper_loading (dom s') = imageWrapper_loading (dom s)
  /\ productImage_onload (dom s') = productImage_onload (dom s)
  /\ productImage_onerror (dom s') = productImage_onerror (dom s)
  /\ productTitle_textContent (dom s') = productTitle_textContent (dom s).
Proof.
  cbv zeta. destruct (updateProductData_effect b s) as (_ & Hp & Hd & _).
  split; [exact Hp|]. apply without_status_image. exact Hd.
Qed.

(** The events that neither navigate nor come from the image leave the
    promises, the handlers, the loading indicator and the title. *)
Lemma quiet_step_image (s : State) (ev : event) :
  user_event ev = true -> image_event ev = false ->
  ev <> ClickPrev -> ev <> ClickNext ->
  promises (step s ev) = promises s
  /\ imageWrapper_loading (dom (step s ev)) = imageWrapper_loading (dom s)
  /\ productImage_onload (dom (step s ev)) = productImage_onload (dom s)
  /\ productImage_onerror (dom (step s ev)) = productImage_onerror (dom s)
  /\ productTitle_textContent (dom (step s ev)) = productTitle_textContent (dom s).
Proof.
  intros Hu Hi Hp Hn. unfold step.
  destruct ev as [r| | | |ok|e| | |k]; cbn [handle];
    try discriminate Hu; try discriminate Hi; try contradiction.
  - pose proof (updateProductData_image false s) as H.
    unfold copyDataToClipboard, bind.
    destruct (updateProductData false s) as [[] s1|e s1]; cbn [state_of] in *; [|exact H].
    unfold formatProductDataForSharing, bind, gets.
    destruct (format_catalog (productData s1)); exact H.
  - destruct s as [data c d pr tm tr], d, ok; repeat split.
  - assert (He : exists s1, apply_edit e s = Return tt s1
                 /\ promises s1 = promises s
                 /\ imageWrapper_loading (dom s1) = imageWrapper_loading (dom s)
                 /\ productImage_onload (dom s1) = productImage_onload (dom s)
                 /\ productImage_onerror (dom s1) = productImage_onerror (dom s)
                 /\ productTitle_textContent (dom s1) = productTitle_textContent (dom s)).
    { destruct s as [data c d pr tm tr], d, e; eexists; (split; [reflexivity|]); repeat split. }
    destruct He as (s1 & Hs & H1 & H2 & H3 & H4 & H5).
    unfold bind. rewrite Hs.
    pose proof (updateProductData_image true s1) as (G1 & G2 & G3 & G4 & G5).
    repeat split; congruence.
  - destruct s as [data c d pr tm tr], d. unfold bind, gets. cbn [timers].
    destruct (tm !! k); repeat split.
Qed.

(** A navigation click starts a load, or leaves the image as it is. *)
Lemma navigate_image (n : Z) (s : State) :
  let s' := state_of (navigateSlide n s) in
  (promises s' = promises s
   /\ imageWrapper_loading (dom s') = imageWrapper_loading (dom s)
   /\ productImage_onload (dom s') = productImage_onload (dom s)
   /\ productImage_onerror (dom s') = productImage_onerror (dom s)
   /\ productTitle_textContent (dom s') = productTitle_textContent (dom s)
   /\ (productData s = [] \/ returns (navigateSlide n s) = false))
  \/ (promises s' = promises s ++ [Pending]
      /\ imageWrapper_loading (dom s') = true
      /\ paired (length (promises s)) s'
      /\ productData s <> []).
Proof.
  cbv zeta. pose proof (updateProductData_image false s) as (G1 & G2 & G3 & G4 & G5).
  pose proof (updateProductData_effect false s) as (_ & _ & _ & Hdata).
  unfold navigateSlide, bind.
  destruct (updateProductData false s) as [[] s1|e s1] eqn:Hf; cbn [state_of] in *.
  - destruct (Nat.eq_dec (length (productData s1)) 0) as [E|E].
    + apply length_zero_iff_nil in E. left.
      assert (E0 : productData s = []).
      { destruct Hdata as [H|(c & _ & _ & _ & H)]; [congruence|].
        apply (f_equal (@length _)) in H. rewrite length_insert, E in H.
        symmetry in H. apply length_zero_iff_nil in H. exact H. }
      assert (Hseek : seek n s1 = Return tt (with_slideIndex (slideIndex s1 + n) s1)).
      { unfold seek, bind, modify, gets, showSlide. cbn. rewrite E. reflexivity. }
      rewrite Hseek. cbn [state_of]. destruct s1. cbn in *.
      repeat split; try assumption. left. exact E0.
    + assert (Hne : productData s1 <> []).
      { intros E'. apply E. rewrite E'. reflexivity. }
      right. destruct (seek_shows n s1 Hne)
        as (t & product & Hs & _ & _ & _ & Hp & Hl & He & _ & Hld & _).
      rewrite Hs. cbn [state_of]. rewrite G1 in Hp, Hl, He.
      split; [exact Hp|]. split; [exact Hld|]. split; [split; assumption|].
      intros E0. destruct Hdata as [H|(c & Hc & _)]; [congruence|].
      unfold current_record in Hc. rewrite E0 in Hc.
      apply index_range in Hc. simpl in Hc. lia.
  - left. repeat split; try assumption. right. reflexivity.
Qed.


Lemma loaded_image_invariant (r : fetched) :
  spinner_tracks_load (step initial (Loaded r))
  /\ handlers_on_newest (step initial (Loaded r)).
Proof.
  destruct r as [| | |[|item data]].
  1-4: split; [vm_compute; reflexivity | split; vm_compute; reflexivity].
  unfold step. cbn [handle]. unfold fetchProductData, try_catch, bind, modify, gets.
  cbn [with_productData productData initial slideIndex map length Nat.ltb Nat.leb
       dom promises timers trace].
  set (s0 := {| productData := load_item item :: map load_item data;
                slideIndex := 0; dom := blank_dom; promises := [];
                timers := []; trace := [] |}).
  destruct (showSlide_shows 0 s0 (load_item item))
    as (s' & Hs & _ & _ & Hp & Hl & He & _ & Hld & _); [discriminate | reflexivity|].
  change (with_productData (load_item item :: map load_item data) initial) with s0.
  rewrite Hs. cbn [state_of]. unfold spinner_tracks_load, handlers_on_newest, paired.
  rewrite Hp, Hl, He, Hld. split; [reflexivity | split; reflexivity].
Qed.

Lemma unbound_image_event (s : State) (ev : event) :
  productImage_onload (dom s) = None -> productImage_onerror (dom s) = None ->
  image_event ev = true -> step s ev = s.
Proof.
  intros Hl He Hev. destruct s as [data c d pr tm tr], d.
  cbn [dom productImage_onload productImage_onerror] in *. subst.
  destruct ev; try discriminate Hev; reflexivity.
Qed.

(** While [data.json] is being fetched the page has nothing to show: an
    event changes the cursor, by one for a navigation click, and neither
    the catalog nor the image. *)
Lemma step_before_load (s : State) (ev : event) :
  user_event ev = true -> nothing_loaded s ->
  nothing_loaded (step s ev)
  /\ slideIndex (step s ev)
     = match ev with
       | ClickNext => (slideIndex s + 1)%Z
       | ClickPrev => (slideIndex s - 1)%Z
       | _ => slideIndex s
       end.
Proof.
  intros Hu (Hd & Hp & Hl & Ho & He).
  assert (Hquiet : image_event ev = false -> ev <> ClickPrev -> ev <> ClickNext ->
                   nothing_loaded (step s ev)).
  { intros Hi Hp' Hn'.
    destruct (quiet_step_image s ev Hu Hi Hp' Hn') as (G1 & G2 & G3 & G4 & _).
    unfold nothing_loaded. rewrite G1, G2, G3, G4.
    split; [|repeat split; assumption].
    apply length_zero_iff_nil. rewrite step_length, Hd by exact Hu. reflexivity. }
  assert (Hnav : forall n, step s ev = state_of (navigateSlide n s) ->
                           nothing_loaded (step s ev)
                           /\ slideIndex (step s ev) = (slideIndex s + n)%Z).
  { intros n E. rewrite E, (navigateSlide_empty n s Hd). cbn [state_of].
    unfold nothing_loaded. cbn [with_slideIndex productData promises dom slideIndex].
    repeat split; assumption. }
  destruct ev as [r| | | |ok|e| | |k]; try discriminate Hu.
  - destruct (Hnav (-1)%Z eq_refl) as [H1 H2]. split; [exact H1 | rewrite H2; lia].
  - destruct (Hnav 1%Z eq_refl) as [H1 H2]. split; [exact H1 | exact H2].
  - split; [apply Hquiet | apply step_cursor_kept]; reflexivity || discriminate.
  - split; [apply Hquiet | apply step_cursor_kept]; reflexivity || discriminate.
  - split; [apply Hquiet | apply step_cursor_kept]; reflexivity || discriminate.
  - rewrite (unbound_image_event s ImageLoad Ho He eq_refl).
    split; [repeat split; assumption | reflexivity].
  - rewrite (unbound_image_event s ImageError Ho He eq_refl).
    split; [repeat split; assumption | reflexivity].
  - split; [apply Hquiet | apply step_cursor_kept]; reflexivity || discriminate.
Qed.

Lemma before_load (before : list event) :
  forallb user_event before = true ->
  nothing_loaded (run initial before)
  /\ slideIndex (run initial before) = clicked before.
Proof.
  intros Hu. unfold clicked.
  assert (H : forall evs s,
            forallb user_event evs = true -> nothing_loaded s ->
            nothing_loaded (run s evs)
            /\ slideIndex (run s evs)
               = fold_left (fun c ev => match ev with
                                        | ClickNext => c + 1
                                        | ClickPrev => c - 1
                                        | _ => c
                                        end)%Z evs (slideIndex s)).
  { induction evs as [|ev evs IH]; intros s Hev Hs; [split; [exact Hs | reflexivity]|].
    cbn [forallb] in Hev. apply andb_true_iff in Hev. destruct Hev as [H1 H2].
    destruct (step_before_load s ev H1 Hs) as [Hn Hi].
    cbn [run fold_left]. destruct (IH (step s ev) H2 Hn) as [G1 G2].
    split; [exact G1|]. unfold run in G2. rewrite G2, Hi.
    destruct ev; reflexivity. }
  apply (H before initial Hu). repeat split.
Qed.

Lemma index_map {A B} (f : A -> B) (l : list A) (i : Z) :
  index (map f l) i = option_map f (index l i).
Proof.
  unfold index. destruct (i <? 0)%Z; [reflexivity|].
  rewrite list_lookup_fmap. reflexivity.
Qed.

(** The load of a list that has a record at the cursor ends in the
    [showSlide] of line 37. *)
Lemma load_shows (s0 : State) (data : list Item) (item : Item) :
  index data (slideIndex s0) = Some item ->
  let s1 := with_productData (map load_item data) s0 in
  exists s',
    step s0 (Loaded (Body data)) = s'
    /\ showSlide 0 s1 = Return tt s'
    /\ productData s1 <> []
    /\ index (productData s1) (slideIndex s0) = Some (load_item item).
Proof.
  intros Hi. cbv zeta.
  set (s1 := with_productData (map load_item data) s0).
  assert (Hx : index (productData s1) (slideIndex s0) = Some (load_item item)).
  { cbn [s1 with_productData productData]. rewrite index_map, Hi. reflexivity. }
  assert (Hne : productData s1 <> []).
  { intros E. rewrite E in Hx. apply index_range in Hx. simpl in Hx. lia. }
  assert (Hlen : (0 <? length (productData s1))%nat = true).
  { apply Nat.ltb_lt. destruct (productData s1); [contradiction | simpl; lia]. }
  destruct (showSlide_shows 0 s1 (load_item item) Hne) as (s' & Hs & _).
  { cbn [Z.ltb Z.compare].
    destruct (Z.leb_spec (Z.of_nat (length (productData s1))) 0) as [H|H].
    - apply Nat.ltb_lt in Hlen. lia.
    - exact Hx. }
  exists s'. split; [|split; [exact Hs | split; assumption]].
  unfold step. cbn [handle]. unfold fetchProductData, try_catch, bind, modify, gets.
  fold s1. rewrite Hlen, Hs. reflexivity.
Qed.

(** What the load leaves, from a page that was waiting for it with the
    cursor on a record of the list. *)
Lemma load_arrives (s0 : State) (r : fetched) :
  nothing_loaded s0 -> cursor_fits (slideIndex s0) r ->
  let s := step s0 (Loaded r) in
  spinner_tracks_load s /\ handlers_on_newest s /\ cursor_valid s
  /\ productData s = match r with
                     | Body data => map load_item data
                     | _ => []
                     end.
Proof.
  intros (Hd & Hp & Hl & Ho & He) Hfit. cbv zeta.
  destruct r as [| | |[|item data]].
  1-4: destruct s0 as [data0 c d pr tm tr], d;
       cbn [productData promises dom imageWrapper_loading productImage_onload
            productImage_onerror] in Hd, Hp, Hl, Ho, He; subst;
       unfold spinner_tracks_load, handlers_on_newest, cursor_valid;
       (split; [reflexivity|]); (split; [split; reflexivity|]);
       (split; [intros H; exfalso; apply H; reflexivity | reflexivity]).
  - cbn [cursor_fits] in Hfit. specialize (Hfit ltac:(discriminate)).
    destruct (index_Some (item :: data) (slideIndex s0) Hfit) as [it Hit].
    destruct (load_shows s0 (item :: data) it Hit) as (s' & Hs & Hshow & Hne & Hx).
    rewrite Hs.
    destruct (showSlide_shows 0 (with_productData (map load_item (item :: data)) s0)
                (load_item it) Hne)
      as (s'' & Hs' & Hi' & Hd' & Hp' & Hl' & He' & _ & Hld & _).
    { cbn [Z.ltb Z.compare].
      destruct (Z.leb_spec
                  (Z.of_nat (length (productData
                     (with_productData (map load_item (item :: data)) s0)))) 0) as [H|H].
      - cbn [with_productData productData] in H. rewrite length_map in H.
        simpl length in H. lia.
      - exact Hx. }
    rewrite Hshow in Hs'. injection Hs' as <-.
    cbn [with_productData productData promises slideIndex] in Hd', Hp', Hl', He', Hi'.
    rewrite Hp in Hp', Hl', He'. cbn [length app] in Hp', Hl', He'.
    unfold spinner_tracks_load, handlers_on_newest, paired, cursor_valid.
    rewrite Hp', Hl', He', Hld, Hd'. cbn [last length Nat.eqb pred].
    split; [reflexivity|]. split; [split; reflexivity|]. split; [|reflexivity].
    intros _. rewrite length_map.
    destruct (Z.leb_spec (Z.of_nat (length (map load_item (item :: data)))) 0) as [H|H];
      [rewrite length_map in H; simpl length in H; lia|].
    rewrite Hi'. exact Hfit.
Qed.



End Spinner.

(** ** Sessions that raise nothing, and sessions that are stuck *)

Section Totality.
Local Open Scope list_scope.

Lemma image_timer_settled_return (s : State) (ev : event) :
  match ev with
  | ImageLoad | ImageError | TimerFires _ | ClipboardSettled _ => True
  | _ => False
  end ->
  returns (handle ev s) = true.
Proof.
  destruct s as [data c d pr tm tr], d.
  destruct ev as [r| | | |ok|e| | |k]; try contradiction; intros _; cbn [handle].
  - destruct ok; reflexivity.
  - unfold bind, gets. cbn [dom productImage_onload].
    destruct productImage_onload0 as [[g|g]|]; unfold call_handler, settle, bind, gets;
      cbn [promises]; try reflexivity; destruct (pr !! g) as [[| |]|]; reflexivity.
  - unfold bind, gets. cbn [dom productImage_onerror].
    destruct productImage_onerror0 as [[g|g]|]; unfold call_handler, settle, bind, gets;
      cbn [promises]; try reflexivity; destruct (pr !! g) as [[| |]|]; reflexivity.
  - unfold bind, gets. cbn [timers]. destruct (tm !! k); reflexivity.
Qed.

Lemma seek_returns (n : Z) (s : State) : cursor_valid s -> returns (seek n s) = true.
Proof.
  intros _. destruct (Nat.eq_dec (length (productData s)) 0) as [E|E].
  - apply length_zero_iff_nil in E.
    unfold seek, bind, modify, gets, showSlide. cbn. rewrite E. reflexivity.
  - assert (Hne : productData s <> []) by (intros E'; apply E; rewrite E'; reflexivity).
    destruct (seek_shows n s Hne) as (s' & p & -> & _). reflexivity.
Qed.

(** With every price null or a number and the cursor on a record, no
    handler raises. *)
Lemma handle_returns (s : State) (ev : event) :
  user_event ev = true -> prices_defined s -> cursor_valid s ->
  returns (handle ev s) = true.
Proof.
  intros Hu Hp Hv.
  assert (Hnav : forall n, returns (navigateSlide n s) = true).
  { intros n. pose proof (flush_returns false s Hp Hv) as Hr.
    rewrite (navigateSlide_after_flush n s _ (returns_Return _ _ Hr)).
    apply seek_returns. intros Hne.
    destruct (updateProductData_frame false s) as (Hi & Hl & _).
    rewrite Hi, Hl. apply Hv. intros E. apply Hne. apply length_zero_iff_nil.
    rewrite Hl, E. reflexivity. }
  destruct ev as [r| | | |ok|e| | |k]; try discriminate Hu;
    try (apply image_timer_settled_return; exact I).
  - apply Hnav.
  - apply Hnav.
  - cbn [handle]. unfold copyDataToClipboard, bind.
    pose proof (flush_returns false s Hp Hv) as Hr.
    pose proof (step_prices_defined s ClickCopy eq_refl Hp) as Hp'.
    unfold step in Hp'. cbn [handle] in Hp'. unfold copyDataToClipboard, bind in Hp'.
    destruct (updateProductData false s) as [[] s1|e s1]; [|discriminate].
    unfold formatProductDataForSharing, bind, gets in *.
    destruct (format_catalog (productData s1)) as [e|text] eqn:Ef; [|reflexivity].
    exfalso. cbn [state_of throw] in Hp'.
    destruct (format_catalog_defined _ Hp') as [t Ht]. congruence.
  - cbn [handle]. unfold bind.
    destruct (apply_edit_effect e s) as (s1 & Hs & Hd & Hi & _). rewrite Hs.
    apply flush_returns.
    + unfold prices_defined. rewrite Hd. exact Hp.
    + unfold cursor_valid. rewrite Hd, Hi. exact Hv.
Qed.

(** X14. A session never raises when no record lacks a price and the
    cursor is on the list when it arrives.  While [data.json] is being
    fetched no handler raises.  If every record of [data.json] has a price
    that is null or a number and the cursor, moved by the clicks on
    "previous" and "next" made during the fetch, is on a record of the
    list when it arrives (so always when no such click was made), then
    after any further clicks, edits, image events and timers every stored
    price is still null or a number, and the handler of whatever event
    comes next returns: navigation, editing and copying never raise.
    After four clicks on "next" during the fetch of three such records,
    however, navigation, editing and copying raise. *)
Theorem session_without_missing_price_never_raises
    (before : list event) (data : list Item) (evs : list event) (ev : event) :
  Forall (fun item => price_defined (item_price item)) data ->
  forallb user_event before = true ->
  cursor_fits (clicked before) (Body data) ->
  forallb user_event evs = true ->
  user_event ev = true ->
  returns (handle ev (run initial before)) = true
  /\ prices_defined (session_from before (Body data) evs)
  /\ returns (handle ev (session_from before (Body data) evs)) = true
  /\ (let s := session_from [ClickNext; ClickNext; ClickNext; ClickNext]
                 (Body [pen_item; cup_item; tray_item]) [] in
      prices_defined s
      /\ returns (handle ClickNext s) = false
      /\ returns (handle (Input (TypeNote "x")) s) = false
      /\ returns (handle ClickCopy s) = false).
Proof.
  intros Hd Hb Hfit Hu Hev.
  destruct (before_load before Hb) as [Hn Hc].
  split; [|split; [|split]].
  - destruct Hn as (E & _). apply handle_returns; [exact Hev | |].
    + unfold prices_defined. rewrite E. constructor.
    + intros Hne. contradiction.
  - unfold session_from. rewrite <- Hc in Hfit.
    destruct (load_arrives (run initial before) (Body data) Hn Hfit) as (_ & _ & _ & Hdata).
    apply (run_invariant prices_defined); [apply step_prices_defined | exact Hu|].
    unfold prices_defined. rewrite Hdata, Forall_map. exact Hd.
  - unfold session_from. rewrite <- Hc in Hfit.
    destruct (load_arrives (run initial before) (Body data) Hn Hfit) as (_ & _ & Hv & Hdata).
    apply handle_returns; [exact Hev | |].
    + apply (run_invariant prices_defined); [apply step_prices_defined | exact Hu|].
      unfold prices_defined. rewrite Hdata, Forall_map. exact Hd.
    + apply (run_invariant cursor_valid); [apply step_cursor_valid | exact Hu | exact Hv].
  - cbv zeta. split; [|split; [|split]; vm_compute; reflexivity].
    assert (E : productData (session_from [ClickNext; ClickNext; ClickNext; ClickNext]
                               (Body [pen_item; cup_item; tray_item]) [])
                = map load_item [pen_item; cup_item; tray_item])
      by (vm_compute; reflexivity).
    unfold prices_defined. rewrite E. repeat constructor; discriminate.
Qed.

Lemma session_without_missing_price_never_raises_witness :
  let data := [pen_item; cup_item; tray_item] in
  let before := [ClickNext; ClickNext; ClickCopy] in
  let evs := [ClickNext; Input (TypePrice "abc"); ClickPrev; ImageLoad] in
  Forall (fun item => price_defined (item_price item)) data
  /\ clicked before = 2%Z
  /\ prices_defined (session_from before (Body data) evs)
  /\ returns (handle ClickCopy (session_from before (Body data) evs)) = true.
Proof.
  assert (Hd : Forall (fun item => price_defined (item_price item))
                 [pen_item; cup_item; tray_item]).
  { repeat constructor; discriminate. }
  split; [exact Hd|]. split; [reflexivity|].
  destruct (session_without_missing_price_never_raises
              [ClickNext; ClickNext; ClickCopy]
              [pen_item; cup_item; tray_item]
              [ClickNext; Input (TypePrice "abc"); ClickPrev; ImageLoad] ClickCopy)
    as (_ & H1 & H2 & _);
    [exact Hd | reflexivity | intros _; vm_compute; split; [discriminate | reflexivity]
     | reflexivity | reflexivity |].
  split; [exact H1 | exact H2].
Defined.

End Totality.

(** ** A record without a price *)

Section Stuck.
Local Open Scope list_scope.

Lemma settled_events_catalog (s : State) (ev : event) :
  user_event ev = true -> flushes ev = false ->
  slideIndex (step s ev) = slideIndex s /\ productData (step s ev) = productData s.
Proof.
  intros Hu Hf. destruct s as [data c d pr tm tr], d. unfold step.
  destruct ev as [r| | | |ok|e| | |k]; try discriminate Hu; try discriminate Hf;
    cbn [handle].
  - destruct ok; split; reflexivity.
  - unfold bind, gets. cbn [dom productImage_onload].
    destruct productImage_onload0 as [[g|g]|]; unfold call_handler, settle, bind, gets;
      cbn [promises]; try (split; reflexivity);
      destruct (pr !! g) as [[| |]|]; split; reflexivity.
  - unfold bind, gets. cbn [dom productImage_onerror].
    destruct productImage_onerror0 as [[g|g]|]; unfold call_handler, settle, bind, gets;
      cbn [promises]; try (split; reflexivity);
      destruct (pr !! g) as [[| |]|]; split; reflexivity.
  - unfold bind, gets. cbn [timers]. destruct (tm !! k); split; reflexivity.
Qed.

Lemma flushing_step_blocked (s : State) (current : Product) (ev : event) :
  current_record s = Some current -> price current = PUndefined ->
  flushes ev = true ->
  returns (handle ev s) = false
  /\ step s ev = match ev with
                 | Input e => state_of (apply_edit e s)
                 | _ => s
                 end.
Proof.
  intros Hc Hp Hf. unfold step.
  destruct ev as [r| | | |ok|e| | |k]; try discriminate Hf; cbn [handle].
  - unfold navigateSlide, bind.
    rewrite (updateProductData_undefined false s current Hc Hp). split; reflexivity.
  - unfold navigateSlide, bind.
    rewrite (updateProductData_undefined false s current Hc Hp). split; reflexivity.
  - unfold copyDataToClipboard, bind.
    rewrite (updateProductData_undefined false s current Hc Hp). split; reflexivity.
  - unfold bind. destruct (apply_edit_effect e s) as (s1 & Hs & Hd & Hi & _).
    rewrite Hs. cbn [state_of].
    assert (Hc1 : current_record s1 = Some current).
    { unfold current_record. rewrite Hd, Hi. exact Hc. }
    rewrite (updateProductData_undefined true s1 current Hc1 Hp). split; reflexivity.
Qed.

Lemma blocked_step (s : State) (current : Product) (ev : event) :
  current_record s = Some current -> price current = PUndefined ->
  user_event ev = true ->
  slideIndex (step s ev) = slideIndex s /\ productData (step s ev) = productData s.
Proof.
  intros Hc Hp Hu. destruct (flushes ev) eqn:Hf.
  - destruct (flushing_step_blocked s current ev Hc Hp Hf) as [_ ->].
    destruct ev as [r| | | |ok|e| | |k]; try discriminate Hf; try (split; reflexivity).
    destruct (apply_edit_effect e s) as (s1 & -> & Hd & Hi & _). split; assumption.
  - apply settled_events_catalog; assumption.
Qed.

(** X15. A record without a price blocks the page.  While the cursor is on
    a record that has no [price], nothing the user does moves the cursor or
    changes the catalog: the handlers of both arrows, of the copy button
    and of the form raise before they do anything else, so a click leaves
    the whole state as it was, and an edit changes the widget and nothing
    more.  No other record can be shown, and nothing is copied. *)
Theorem record_without_price_blocks_the_page
    (s : State) (current : Product) (evs : list event) (ev : event) :
  current_record s = Some current -> price current = PUndefined ->
  forallb user_event evs = true -> flushes ev = true ->
  let t := run s evs in
  slideIndex t = slideIndex s
  /\ productData t = productData s
  /\ returns (handle ev t) = false
  /\ step t ev = match ev with
                 | Input e => state_of (apply_edit e t)
                 | _ => t
                 end.
Proof.
  intros Hc Hp Hu Hf. cbv zeta.
  assert (H : slideIndex (run s evs) = slideIndex s
              /\ productData (run s evs) = productData s).
  { apply (run_invariant (fun t => slideIndex t = slideIndex s
                                   /\ productData t = productData s));
      [|exact Hu | split; reflexivity].
    intros t e He [Hi Hd].
    assert (Hct : current_record t = Some current).
    { unfold current_record. rewrite Hd, Hi. exact Hc. }
    destruct (blocked_step t current e Hct Hp He) as [Hi' Hd'].
    rewrite Hi', Hd'. split; assumption. }
  destruct H as [Hi Hd]. split; [exact Hi|]. split; [exact Hd|].
  apply (flushing_step_blocked _ current); [|exact Hp | exact Hf].
  unfold current_record. rewrite Hd, Hi. exact Hc.
Qed.

Lemma record_without_price_blocks_the_page_witness :
  let s := loaded [whisk_item; pen_item] in
  let evs := [ClickNext; Input (TypePrice "5"); ImageLoad; ClickCopy; ClickPrev] in
  current_record s = Some (load_item whisk_item)
  /\ slideIndex (run s evs) = 0%Z
  /\ productData (run s evs) = productData s
  /\ returns (handle ClickNext (run s evs)) = false
  /\ step (run s evs) ClickNext = run s evs.
Proof.
  cbv zeta.
  assert (Hc : current_record (loaded [whisk_item; pen_item]) = Some (load_item whisk_item)).
  { vm_compute. reflexivity. }
  split; [exact Hc|].
  destruct (record_without_price_blocks_the_page
              (loaded [whisk_item; pen_item]) (load_item whisk_item)
              [ClickNext; Input (TypePrice "5"); ImageLoad; ClickCopy; ClickPrev]
              ClickNext Hc eq_refl eq_refl eq_refl) as (Hi & Hd & Hr & Hs).
  split; [rewrite Hi; vm_compute; reflexivity|].
  split; [exact Hd|]. split; [exact Hr | exact Hs].
Defined.

End Stuck.

(** ** A load that gave no record *)

Section EmptyPage.
Local Open Scope list_scope.

(** X16. A page that got no record stays inert.  When [data.json] could
    not be fetched, was no JSON or held an empty list, the title carries
    the message of the load and stays, whatever the user does: the catalog
    stays empty, no image load is ever started, the loading indicator
    stays off, and no handler raises. *)
Theorem page_without_records_is_inert (r : fetched) (evs : list event) (ev : event) :
  no_records r = true ->
  forallb user_event evs = true -> user_event ev = true ->
  let s := session r evs in
  productData s = []
  /\ promises s = []
  /\ imageWrapper_loading (dom s) = false
  /\ productTitle_textContent (dom s) = load_message r
  /\ returns (handle ev s) = true.
Proof.
  intros Hr Hu Hev. cbv zeta.
  set (P := fun t : State =>
    productData t = [] /\ promises t = []
    /\ imageWrapper_loading (dom t) = false
    /\ productTitle_textContent (dom t) = load_message r
    /\ productImage_onload (dom t) = None
    /\ productImage_onerror (dom t) = None).
  assert (H : P (session r evs)).
  { unfold session. apply (run_invariant P); [|exact Hu|].
    - intros t e He (Hd & Hp & Hl & Ht & Ho & Hx).
      assert (Hd' : productData (step t e) = []).
      { apply length_zero_iff_nil. rewrite step_length, Hd by exact He. reflexivity. }
      assert (Hnav : forall n, step t e = state_of (navigateSlide n t) -> P (step t e)).
      { intros n E. unfold P. split; [exact Hd'|]. rewrite E.
        destruct (navigate_image n t) as [(G1 & G2 & G3 & G4 & G5 & _)|(_ & _ & _ & Hne)];
          [|contradiction].
        rewrite G1, G2, G3, G4, G5. repeat split; assumption. }
      destruct e as [r'| | | |ok|ed| | |k]; try discriminate He;
        try (apply (Hnav (-1)%Z); reflexivity); try (apply (Hnav 1%Z); reflexivity);
        try (rewrite unbound_image_event by (assumption || reflexivity);
             unfold P; repeat split; assumption);
        (match goal with
         | |- P (step t ?e) =>
             destruct (quiet_step_image t e eq_refl eq_refl
                         ltac:(discriminate) ltac:(discriminate))
               as (G1 & G2 & G3 & G4 & G5)
         end;
         unfold P; rewrite G1, G2, G3, G4, G5; repeat split; assumption).
    - destruct r as [| | |[|item data]]; try discriminate Hr; repeat split. }
  destruct H as (Hd & Hp & Hl & Ht & _ & _).
  repeat split; try assumption.
  apply handle_returns; [exact Hev | |].
  - unfold prices_defined. rewrite Hd. constructor.
  - intros Hne. contradiction.
Qed.

Lemma page_without_records_is_inert_witness :
  let s := session (ResponseNotOk 404) [ClickNext; Input (TypeNote "x"); ImageError; ClickCopy] in
  productData s = []
  /\ promises s = []
  /\ imageWrapper_loading (dom s) = false
  /\ productTitle_textContent (dom s)
     = "Error loading data. Check console (Failed to fetch)."%string
  /\ returns (handle ClickPrev s) = true.
Proof.
  apply (page_without_records_is_inert (ResponseNotOk 404)
           [ClickNext; Input (TypeNote "x"); ImageError; ClickCopy] ClickPrev);
    reflexivity.
Defined.

End EmptyPage.

(** ** The status line and its timers *)

Section StatusLine.
Local Open Scope list_scope.

(** X17. A message can be cleared by the timer of an older one.  No timer
    is ever cancelled: when a second message is displayed while the timer
    of a first is pending, that first timer, when it fires, empties the
    status line though it shows the second message, and the timer of the
    second message is still pending afterwards. *)
Theorem older_timer_clears_newer_message
    (s : State) (m1 m2 : string) (d1 d2 : Z) :
  let s1 := state_of (displayStatusMessage m1 d1 s) in
  let s2 := state_of (displayStatusMessage m2 d2 s1) in
  let first := length (timers s) in
  let s3 := step s2 (TimerFires first) in
  statusMessage_textContent (dom s2) = m2
  /\ timers s2 = timers s ++ [d1; d2]
  /\ statusMessage_textContent (dom s3) = EmptyString
  /\ timers s3 = timers s ++ [d2]
  /\ productData s3 = productData s /\ slideIndex s3 = slideIndex s
  /\ promises s3 = promises s /\ trace s3 = trace s
  /\ without_status (dom s3) = without_status (dom s).
Proof.
  destruct s as [data c d pr tm tr], d. cbv zeta.
  unfold displayStatusMessage, step, handle, modify_dom, modify, bind, gets.
  cbn [state_of timers with_timers with_dom dom productData slideIndex promises trace].
  rewrite <- !app_assoc. cbn [app].
  rewrite list_lookup_middle by reflexivity.
  unfold clearStatusMessage, modify_dom, modify.
  cbn [state_of timers with_timers with_dom dom productData slideIndex promises trace].
  rewrite delete_middle.
  repeat split.
Qed.

End StatusLine.

(** ** The first slide *)

Section FirstSlide.
Local Open Scope list_scope.

(** X18. A load shows the record at the cursor.  When the list of
    [data.json] arrives and the cursor, moved by the clicks on "previous"
    and "next" made during the fetch, is on one of its records, the catalog
    holds the records of the list in their order, a missing [isAvailable]
    read as true and a missing [note] as the empty string; the cursor stays
    where it was, and the title, price, availability and note of the
    record there are on the page (the box unchecked and the note field
    empty where the file had no entry), its image is loading, and nothing
    was logged.  So a load after no such click shows the first record, and
    a load after one click on "next" shows the second. *)
Theorem load_shows_the_record_at_the_cursor
    (before : list event) (data : list Item) (item : Item) :
  forallb user_event before = true ->
  index data (clicked before) = Some item ->
  let s := session_from before (Body data) [] in
  productData s = map load_item data
  /\ slideIndex s = clicked before
  /\ current_record s = Some (load_item item)
  /\ productTitle_textContent (dom s) = item_title item
  /\ productPrice_value (dom s) = price_widget_text (item_price item)
  /\ notAvailable_checked (dom s)
     = match item_isAvailable item with
       | Some available => negb available
       | None => false
       end
  /\ additionalNote_value (dom s)
     = match item_note item with
       | Some text => text
       | None => EmptyString
       end
  /\ productImage_src (dom s) = item_image item
  /\ imageWrapper_loading (dom s) = true
  /\ promises s = [Pending]
  /\ paired 0 s
  /\ trace s = trace (run initial before).
Proof.
  intros Hb Hi. cbv zeta. unfold session_from. cbn [run fold_left].
  destruct (before_load before Hb) as [(_ & Hp0 & _) Hc].
  fold (run initial before). set (s0 := run initial before) in *.
  rewrite <- Hc in *.
  destruct (load_shows s0 data item Hi) as (s' & Hs & _ & Hne & Hx).
  assert (Hidx : index (productData (with_productData (map load_item data) s0))
                   (if (0 <? 0)%Z
                    then (Z.of_nat (length (productData
                            (with_productData (map load_item data) s0))) - 1)%Z
                    else if (Z.of_nat (length (productData
                               (with_productData (map load_item data) s0))) <=? 0)%Z
                         then 0%Z
                         else slideIndex (with_productData (map load_item data) s0))
                 = Some (load_item item)).
  { cbn [Z.ltb Z.compare].
    destruct (Z.leb_spec (Z.of_nat (length (productData
                (with_productData (map load_item data) s0)))) 0) as [H|H]; [|exact Hx].
    apply index_range in Hx. lia. }
  destruct (showSlide_shows 0 _ (load_item item) Hne Hidx)
    as (t & Ht & Hit & Hd & Hpr & Hol & Hoe & Hsrc & Hld & Hpv & Hna & Hnv & _ & Htr & _).
  destruct (showSlide_page 0 _ (load_item item) Hne Hidx) as (t' & Ht' & _ & Htt & _).
  rewrite Ht in Ht'. injection Ht' as <-.
  destruct (load_shows s0 data item Hi) as (s'' & Hs'' & Hshow & _).
  rewrite Ht in Hshow. injection Hshow as <-. rewrite Hs''.
  assert (Hcur : slideIndex t = slideIndex s0).
  { rewrite Hit. cbn [Z.ltb Z.compare].
    destruct (Z.leb_spec (Z.of_nat (length (productData
                (with_productData (map load_item data) s0)))) 0) as [H|H]; [|reflexivity].
    apply index_range in Hx. lia. }
  cbn [with_productData productData promises trace] in Hd, Hpr, Hol, Hoe, Htr.
  rewrite Hp0 in Hpr, Hol, Hoe. cbn [length app] in Hpr, Hol, Hoe.
  split; [exact Hd|]. split; [exact Hcur|].
  split; [unfold current_record; rewrite Hd, Hcur, index_map, Hi; reflexivity|].
  split; [exact Htt|]. split; [exact Hpv|].
  split; [rewrite Hna; cbn [load_item isAvailable]; destruct (item_isAvailable item); reflexivity|].
  split; [exact Hnv|]. split; [exact Hsrc|]. split; [exact Hld|].
  split; [exact Hpr|]. split; [split; assumption | exact Htr].
Qed.

Lemma load_shows_the_record_at_the_cursor_witness :
  (let s := session_from [] (Body [pen_item; cup_item]) [] in
   slideIndex s = 0%Z /\ current_record s = Some pen
   /\ productTitle_textContent (dom s) = "Pen"%string)
  /\ (let s := session_from [ClickNext] (Body [pen_item; cup_item]) [] in
      slideIndex s = 1%Z /\ current_record s = Some cup
      /\ productTitle_textContent (dom s) = "Cup"%string).
Proof.
  split; cbv zeta.
  - destruct (load_shows_the_record_at_the_cursor [] [pen_item; cup_item] pen_item
                eq_refl eq_refl) as (_ & H1 & H2 & H3 & _).
    split; [exact H1|]. split; [exact H2 | exact H3].
  - destruct (load_shows_the_record_at_the_cursor [ClickNext] [pen_item; cup_item] cup_item
                eq_refl eq_refl) as (_ & H1 & H2 & H3 & _).
    split; [exact H1|]. split; [exact H2 | exact H3].
Defined.

End FirstSlide.

(** ** An edit and a round trip *)

Section RoundTrip.
Import JS JSFacts Binary64Facts.
Local Open Scope list_scope.
Local Open Scope Z_scope.

Lemma index_insert_other {A} (l : list A) (i j : Z) (b : A) :
  0 <= i -> 0 <= j -> i <> j -> index (<[Z.to_nat j := b]> l) i = index l i.
Proof.
  intros Hi Hj Hne. unfold index. destruct (i <? 0)%Z; [reflexivity|].
  apply list_lookup_insert_ne. lia.
Qed.

Lemma current_price_defined (s : State) (current : Product) :
  prices_defined s -> current_record s = Some current -> price_defined (price current).
Proof.
  intros Hp Hc. unfold prices_defined in Hp. unfold current_record, index in Hc.
  destruct (slideIndex s <? 0)%Z; [discriminate|].
  exact (proj1 (Forall_lookup _ _) Hp _ _ Hc).
Qed.

(** The flush of a navigation stores the pending edit, and the slide that
    follows shows the record it finds. *)
Lemma click_moves (n : Z) (s : State) (cur : Product) :
  current_record s = Some cur -> price_defined (price cur) ->
  let t := state_of (navigateSlide n s) in
  slideIndex t = wrap_once (Z.of_nat (length (productData s))) (slideIndex s + n)
  /\ productData t = <[Z.to_nat (slideIndex s) := pending_edit s cur]> (productData s)
  /\ exists shown,
       current_record t = Some shown
       /\ productPrice_value (dom t) = price_widget_text (price shown)
       /\ notAvailable_checked (dom t) = negb (isAvailable shown)
       /\ additionalNote_value (dom t) = note shown.
Proof.
  intros Hc Hd. cbv zeta.
  assert (Hflush : exists s',
            updateProductData false s = Return tt s'
            /\ productData s' = <[Z.to_nat (slideIndex s) := pending_edit s cur]> (productData s)
            /\ slideIndex s' = slideIndex s).
  { pose proof (nothing_changed_iff s cur Hd) as Hiff.
    match type of Hiff with (?c = false <-> _) => destruct c eqn:E end.
    - assert (Hne : pending_edit s cur <> cur).
      { intros H. apply Hiff in H. discriminate. }
      rewrite (updateProductData_differs false s cur Hc Hd Hne).
      destruct (commit_result false (slideIndex s) (pending_edit s cur) s)
        as (s' & Hs & Hdata & Hi & _).
      exists s'. split; [exact Hs|]. split; assumption.
    - destruct Hiff as [Hiff _]. specialize (Hiff eq_refl).
      exists s. split; [apply (updateProductData_same false s cur Hc Hd Hiff)|].
      split; [|reflexivity]. rewrite Hiff. symmetry. apply index_insert_same. exact Hc. }
  destruct Hflush as (s' & Hs & Hdata & Hi).
  rewrite (navigateSlide_after_flush n s s' Hs).
  assert (Hlen : length (productData s') = length (productData s)).
  { rewrite Hdata. apply length_insert. }
  assert (Hne : productData s' <> []).
  { intros E. pose proof (current_record_nonempty s cur Hc) as H.
    apply Nat.eqb_neq in H. apply H. rewrite <- Hlen, E. reflexivity. }
  destruct (seek_page n s' Hne)
    as (t & shown & Ht & Hct & _ & Hit & Hdt & _ & Hpv & Hna & Hnv & _).
  rewrite Ht. cbn [state_of]. rewrite Hit, Hdt, Hlen, Hi.
  split; [reflexivity|]. split; [exact Hdata|].
  exists shown. repeat split; assumption.
Qed.

(** After an [input] event the record at the cursor is the pending edit,
    and the widgets and the record agree. *)
Lemma input_stores (s : State) (e : edit) (current : Product) :
  current_record s = Some current -> price_defined (price current) ->
  let s1 := state_of (apply_edit e s) in
  let s2 := step s (Input e) in
  current_record s2 = Some (pending_edit s1 current)
  /\ slideIndex s2 = slideIndex s
  /\ pending_edit s2 (pending_edit s1 current) = pending_edit s1 current.
Proof.
  intros Hc Hd. cbv zeta. unfold step. cbn [handle]. unfold bind.
  destruct (apply_edit_effect e s) as (s1 & Hs1 & Hd1 & Hi1 & _).
  rewrite Hs1. cbn [state_of].
  assert (Hc1 : current_record s1 = Some current)
    by (unfold current_record; rewrite Hd1, Hi1; exact Hc).
  assert (Hsame : forall t,
            productPrice_value (dom t) = productPrice_value (dom s1) ->
            notAvailable_checked (dom t) = notAvailable_checked (dom s1) ->
            additionalNote_value (dom t) = additionalNote_value (dom s1) ->
            pending_edit t (pending_edit s1 current) = pending_edit s1 current).
  { intros t H1 H2 H3. unfold pending_edit, assign_fields.
    cbn [id title image price isAvailable note]. rewrite H1, H2, H3. reflexivity. }
  pose proof (nothing_changed_iff s1 current Hd) as Hiff.
  rewrite (updateProductData_defined true s1 current Hc1 Hd).
  match type of Hiff with (?c = false <-> _) => destruct c end.
  - destruct (commit_result true (slideIndex s1) (pending_edit s1 current) s1)
      as (t & Ht & Hdata & Hi & _ & _ & Hpv & Hna & Hnv & _).
    rewrite Ht. cbn [state_of].
    split; [|split; [congruence | apply Hsame; assumption]].
    unfold current_record. rewrite Hdata, Hi. apply (index_insert _ _ current). exact Hc1.
  - cbn [state_of]. split; [|split; [exact Hi1 | apply Hsame; reflexivity]].
    destruct Hiff as [Hiff _]. rewrite (Hiff eq_refl). exact Hc1.
Qed.

Lemma there_and_back (len i n : Z) :
  0 <= i < len -> n = 1 \/ n = -1 ->
  wrap_once len (wrap_once len (i + n) - n) = i.
Proof.
  intros Hi Hn.
  assert (H : wrap_once len (i + n) = i + n
              \/ (i + n = len /\ wrap_once len (i + n) = 0)
              \/ (i + n = -1 /\ wrap_once len (i + n) = len - 1)).
  { unfold wrap_once. destruct (Z.leb_spec len (i + n)); [right; left; lia|].
    destruct (Z.ltb_spec (i + n) 0); [right; right; lia | left; reflexivity]. }
  destruct H as [-> | [[H ->] | [H ->]]]; unfold wrap_once.
  - replace (i + n - n) with i by lia.
    destruct (Z.leb_spec len i); [lia|]. destruct (Z.ltb_spec i 0); lia.
  - assert (n = 1) by lia. subst n.
    destruct (Z.leb_spec len (0 - 1)); [lia|]. destruct (Z.ltb_spec (0 - 1) 0); lia.
  - assert (n = -1) by lia. subst n.
    destruct (Z.leb_spec len (len - 1 - -1)); [|lia]. lia.
Qed.

(** X19. An edit survives a round trip.  When every price of the catalog
    is null or a number and the user changes a widget of the record at the
    cursor, then pages one record away and back (in either direction), the
    cursor is on the same record, the record is the one before with the
    three normalized widget values, and the widgets show it in the form in
    which it was stored: the price field is empty when it was left empty
    and otherwise holds the shortest numeral of the binary64 number that
    the typed text parses to (which need not be the number that was
    typed), the box is as the user left it, and the note is trimmed. *)
Theorem edit_survives_a_round_trip
    (s : State) (e : edit) (current : Product) (forward : bool) :
  current_record s = Some current -> prices_defined s ->
  let s1 := state_of (apply_edit e s) in
  let stored := spec_edit (dom s1) current in
  let away := if forward then ClickNext else ClickPrev in
  let back := if forward then ClickPrev else ClickNext in
  let t := run s [Input e; away; back] in
  slideIndex t = slideIndex s
  /\ current_record t = Some stored
  /\ productPrice_value (dom t)
     = match productPrice_value (dom s1) with
       | EmptyString => EmptyString
       | String _ _ as text => number_toString (parseFloat text)
       end
  /\ notAvailable_checked (dom t) = notAvailable_checked (dom s1)
  /\ additionalNote_value (dom t) = trim (additionalNote_value (dom s1)).
Proof.
  intros Hc Hp. cbv zeta. cbn [run fold_left].
  rewrite <- (pending_edit_spec (state_of (apply_edit e s)) current).
  pose proof (current_price_defined s current Hp Hc) as Hd.
  set (n := if forward then 1 else -1).
  assert (Hn : n = 1 \/ n = -1) by (subst n; destruct forward; [left | right]; reflexivity).
  set (u := pending_edit (state_of (apply_edit e s)) current).
  set (s2 := step s (Input e)).
  destruct (input_stores s e current Hc Hd) as (Hc2 & Hi2 & Hu).
  fold u in Hc2, Hu. fold s2 in Hc2, Hi2, Hu.
  assert (Hp2 : prices_defined s2) by (apply step_prices_defined; [reflexivity | exact Hp]).
  assert (Hl2 : length (productData s2) = length (productData s))
    by (apply step_length; reflexivity).
  assert (Hdu : price_defined (price u)) by (apply new_price_defined).
  assert (Htu : note_trimmed u = u).
  { unfold note_trimmed, u, pending_edit, assign_fields.
    cbn [id title image price isAvailable note]. rewrite trim_idempotent. reflexivity. }
  pose proof (index_range _ _ _ Hc) as Hr. rewrite <- Hi2, <- Hl2 in Hr.
  set (len := Z.of_nat (length (productData s2))) in *.
  (* away *)
  assert (Ea : step s2 (if forward then ClickNext else ClickPrev)
               = state_of (navigateSlide n s2)) by (subst n; destruct forward; reflexivity).
  rewrite Ea. set (s3 := state_of (navigateSlide n s2)).
  destruct (click_moves n s2 u Hc2 Hdu) as (Hi3 & Hd3 & pj & Hc3 & Hpv3 & Hna3 & Hnv3).
  fold s3 in Hi3, Hd3, Hc3, Hpv3, Hna3, Hnv3. fold len in Hi3.
  rewrite Hu, (index_insert_same _ _ _ Hc2) in Hd3.
  assert (Hp3 : prices_defined s3) by (unfold prices_defined; rewrite Hd3; exact Hp2).
  pose proof (current_price_defined s3 pj Hp3 Hc3) as Hdj.
  assert (Hpe : pending_edit s3 pj = note_trimmed pj).
  { unfold pending_edit, assign_fields, note_trimmed.
    rewrite Hpv3, Hna3, Hnv3, new_price_of_widget_text, negb_involutive by assumption.
    reflexivity. }
  (* back *)
  assert (Eb : step s3 (if forward then ClickPrev else ClickNext)
               = state_of (navigateSlide (- n) s3)) by (subst n; destruct forward; reflexivity).
  rewrite Eb. set (s4 := state_of (navigateSlide (- n) s3)).
  destruct (click_moves (- n) s3 pj Hc3 Hdj) as (Hi4 & Hd4 & shown & Hc4 & Hpv4 & Hna4 & Hnv4).
  fold s4 in Hi4, Hd4, Hc4, Hpv4, Hna4, Hnv4.
  rewrite Hd3 in Hi4, Hd4. fold len in Hi4. rewrite Hpe in Hd4.
  rewrite Hi3 in Hi4, Hd4.
  replace (wrap_once len (slideIndex s2 + n) + - n)
    with (wrap_once len (slideIndex s2 + n) - n) in Hi4 by lia.
  rewrite (there_and_back len (slideIndex s2) n Hr Hn) in Hi4.
  assert (Hshown : shown = u).
  { unfold current_record in Hc4. rewrite Hd4, Hi4 in Hc4.
    unfold current_record in Hc3. rewrite Hd3, Hi3 in Hc3.
    destruct (Z.eq_dec (slideIndex s2) (wrap_once len (slideIndex s2 + n))) as [E|E].
    - rewrite <- E in Hc3, Hc4. unfold current_record in Hc2.
      assert (pj = u) by congruence. subst pj.
      rewrite (index_insert _ _ u (note_trimmed u) Hc2), Htu in Hc4. congruence.
    - rewrite index_insert_other in Hc4; [unfold current_record in Hc2; congruence | lia | | exact E].
      apply wrap_once_range. lia. }
  subst shown.
  split; [rewrite Hi4; exact Hi2|]. split; [exact Hc4|].
  split.
  { rewrite Hpv4. unfold u, pending_edit, assign_fields. cbn [price].
    destruct (productPrice_value (dom (state_of (apply_edit e s)))); reflexivity. }
  split; [|exact Hnv4].
  rewrite Hna4. unfold u, pending_edit, assign_fields. cbn [isAvailable].
  apply negb_involutive.
Qed.

Lemma edit_survives_a_round_trip_witness :
  let s := loaded [pen_item; cup_item; tray_item] in
  let t := run s [Input (TypePrice "9007199254740993"); ClickPrev; ClickNext] in
  current_record s = Some pen
  /\ slideIndex t = 0
  /\ current_record t
     = Some {| id := "1"; title := "Pen"; image := "pen.jpg";
               price := PNum (parseFloat "9007199254740992"); isAvailable := true;
               note := note pen |}
  /\ productPrice_value (dom t) = "9007199254740992"%string.
Proof.
  cbv zeta.
  assert (Hc : current_record (loaded [pen_item; cup_item; tray_item]) = Some pen)
    by (vm_compute; reflexivity).
  assert (Hp : prices_defined (loaded [pen_item; cup_item; tray_item])).
  { unfold prices_defined. destruct (fetchProductData_body [pen_item; cup_item; tray_item]) as [-> _].
    repeat constructor; discriminate. }
  destruct (edit_survives_a_round_trip
              (loaded [pen_item; cup_item; tray_item]) (TypePrice "9007199254740993") pen false Hc Hp)
    as (Hi & Hct & Hpv & _).
  split; [exact Hc|]. split; [rewrite Hi; vm_compute; reflexivity|].
  split.
  - rewrite Hct. vm_compute. reflexivity.
  - rewrite Hpv. vm_compute. reflexivity.
Defined.

End RoundTrip.
